(** * A shallow embedding of the project_track scanner and cache layer

    The Python sources are [tracker/scanner.py] (configuration loading,
    classification, scoring, week histograms, the repository ordering and the
    evidence search) and [app.py] (the snapshot cache and the action-layer
    command runner).  Python strings are modelled as [String.string] over
    8-bit characters read as Latin-1 code points; Python [int] as [Z]; a
    Python [dict] whose iteration order matters as an association list in
    insertion order, and one used only by key as a stdpp [gmap]. *)

From Stdlib Require Import String Ascii ZArith List Sorting.Sorted.
From stdpp Require Import base gmap strings list pretty sorting.
Import ListNotations.

Open Scope string_scope.
Open Scope Z_scope.

(* ------------------------------------------------------------------ *)
(** ** Python string primitives *)

Module PyStr.

(** [str.isspace] restricted to Latin-1: TAB..CR, the four information
    separators 0x1C..0x1F, SPACE, NEL (0x85) and NBSP (0xA0). *)
Definition is_space (c : ascii) : bool :=
  let n := nat_of_ascii c in
  ((9 <=? n) && (n <=? 13))%nat || ((28 <=? n) && (n <=? 32))%nat
  || (n =? 133)%nat || (n =? 160)%nat.

(** [str.lower] on a Latin-1 character: A..Z and the upper-case letters
    0xC0..0xDE (except the multiplication sign 0xD7) move up by 32. *)
Definition lower_char (c : ascii) : ascii :=
  let n := nat_of_ascii c in
  if ((65 <=? n) && (n <=? 90))%nat
     || ((192 <=? n) && (n <=? 222) && negb (n =? 215))%nat
  then ascii_of_nat (n + 32) else c.

Fixpoint lower (s : string) : string :=
  match s with
  | EmptyString => EmptyString
  | String c s' => String (lower_char c) (lower s')
  end.

Fixpoint lstrip (s : string) : string :=
  match s with
  | EmptyString => EmptyString
  | String c s' => if is_space c then lstrip s' else s
  end.

Fixpoint rstrip (s : string) : string :=
  match s with
  | EmptyString => EmptyString
  | String c s' =>
      let r := rstrip s' in
      match r with
      | EmptyString => if is_space c then EmptyString else String c EmptyString
      | _ => String c r
      end
  end.

(** [str.strip()] *)
Definition strip (s : string) : string := rstrip (lstrip s).

(** [s.startswith(p)] *)
Definition startswith (s p : string) : bool := String.prefix p s.

(** [needle in hay] *)
Fixpoint contains (hay needle : string) : bool :=
  String.prefix needle hay ||
  match hay with
  | EmptyString => false
  | String _ h => contains h needle
  end.

End PyStr.

(* ------------------------------------------------------------------ *)
(** ** Configuration ([RepoConfig], [load_config]) *)

Record RepoConfig := {
  owner : string;
  scan_roots : list string;
  include_repos : list string;
  max_repo_depth : Z;
  cache_ttl_seconds : Z;
  exclude_paths : list string;
  (** a Python dict, iterated in insertion order *)
  track_overrides : list (string * string)
}.

(** The parsed JSON document: each key may be absent. *)
Record RawConfig := {
  raw_owner : option string;
  raw_scan_roots : option (list string);
  raw_include_repos : option (list string);
  raw_max_repo_depth : option Z;
  raw_cache_ttl_seconds : option Z;
  raw_exclude_paths : option (list string);
  raw_track_overrides : option (list (string * string))
}.

(** What [open(config_path)] followed by [json.load] meets. *)
Inductive ConfigFile :=
| CfgMissing
| CfgUnparseable
| CfgJson (raw : RawConfig).

Definition get {A} (o : option A) (dflt : A) : A :=
  match o with Some a => a | None => dflt end.

(** [load_config]: [None] is the exception raised by [open] or [json.load]. *)
Definition load_config (f : ConfigFile) : option RepoConfig :=
  match f with
  | CfgMissing | CfgUnparseable => None
  | CfgJson raw =>
      Some {| owner := get (raw_owner raw) "typhfeng";
              scan_roots := get (raw_scan_roots raw) [];
              include_repos := get (raw_include_repos raw) [];
              max_repo_depth := get (raw_max_repo_depth raw) 6;
              cache_ttl_seconds := get (raw_cache_ttl_seconds raw) 120;
              exclude_paths := get (raw_exclude_paths raw) [];
              track_overrides := get (raw_track_overrides raw) [] |}
  end.

(* ------------------------------------------------------------------ *)
(** ** Track classification ([classify_track]) *)

(** [path == prefix or path.startswith(prefix + "/")] *)
Definition override_matches (path prefix : string) : bool :=
  String.eqb path prefix || PyStr.startswith path (prefix ++ "/").

(** The [for prefix, track in cfg.track_overrides.items()] loop. *)
Fixpoint first_override (path : string) (ovs : list (string * string)) : option string :=
  match ovs with
  | [] => None
  | (prefix, track) :: rest =>
      if override_matches path prefix then Some track else first_override path rest
  end.

Definition finance_kw := ["finance"; "stk"; "trader"; "poly"; "trading"; "quant"; "moomoo"; "webull"].
Definition engineering_kw := ["daytalk"; "npu"; "noc"; "mec"; "rtl"; "arm"; "chip"; "soc"].
Definition soc_auto_kw := ["auto-design"; "autodesign"; "openlane"; "eda"; "chipgen"; "autoflow"].
Definition family_kw := ["family"; "home"; "ella"; "anna"].

(** [any(k in key for k in kws)] *)
Definition any_in (key : string) (kws : list string) : bool :=
  existsb (PyStr.contains key) kws.

Definition classify_track (path repo_name : string) (cfg : RepoConfig) : string :=
  match first_override path (track_overrides cfg) with
  | Some track => track
  | None =>
      let key := PyStr.lower (path ++ " " ++ repo_name) in
      if any_in key finance_kw then "finance"
      else if any_in key engineering_kw then "engineering"
      else if any_in key soc_auto_kw then "soc_auto_design"
      else if any_in key family_kw then "family"
      else "engineering"
  end.

Definition cfg_with_overrides (ovs : list (string * string)) : RepoConfig :=
  {| owner := "typhfeng"; scan_roots := []; include_repos := [];
     max_repo_depth := 6; cache_ttl_seconds := 120; exclude_paths := [];
     track_overrides := ovs |}.

(* ------------------------------------------------------------------ *)
(** ** Per-repository metrics and [calc_progress] *)

Record IssueHit := { hit_file : string; hit_line : Z; hit_text : string }.
Record CommitAlert := { alert_date : string; alert_hash : string; alert_subject : string }.
Record LastCommit := { lc_date : string; lc_hash : string; lc_subject : string }.
Record Dirty := { modified : Z; untracked : Z }.
Record Status := {
  branch : string;
  status_line : string;
  last_commit : LastCommit;
  dirty : Dirty;
  ahead : Z;
  behind : Z
}.
Record Commits := { last_7d : Z; last_30d : Z; last_90d : Z }.
Record Issues := { total : Z; hits : list IssueHit }.

(** The [metrics] dict built for each repository in [scan_repositories]
    (before its ["progress"] key is added). *)
Record Metrics := {
  m_id : string;
  m_name : string;
  m_path : string;
  m_remote : string;
  m_track : string;
  m_status : Status;
  m_commits : Commits;
  m_weekly_commits : gmap string Z;
  m_issues : Issues;
  m_commit_alerts : list CommitAlert
}.

(** A [datetime]: its wall-clock reading in microseconds and its UTC offset
    in microseconds ([None] for a naive datetime). *)
Record DateTime := { dt_wall_us : Z; dt_utcoffset_us : option Z }.

Definition us_per_day : Z := 86400 * 1000000.

Section Progress.

(** [datetime.fromisoformat], a library parser: [None] is its [ValueError]. *)
Variable fromisoformat : string -> option DateTime.

Definition parse_iso_date (date_str : string) : option DateTime :=
  if String.eqb date_str "" then None else fromisoformat date_str.

(** [(now - last_date).days] after the naive date was given [tzinfo=utc];
    [now_utc_us] is [datetime.now(timezone.utc)] in microseconds since the
    epoch.  [timedelta.days] is the floor of the difference in days. *)
Definition delta_days (now_utc_us : Z) (last : DateTime) : Z :=
  let last_utc := dt_wall_us last - get (dt_utcoffset_us last) 0 in
  (now_utc_us - last_utc) / us_per_day.

Definition calc_progress (now_utc_us : Z) (rm : Metrics) : Z * string :=
  match parse_iso_date (lc_date (last_commit (m_status rm))) with
  | None => (0, "Not Started")
  | Some last_date =>
      let days_since := Z.max (delta_days now_utc_us last_date) 0 in
      let commits_30 := last_30d (m_commits rm) in
      let dirty := modified (dirty (m_status rm)) + untracked (dirty (m_status rm)) in
      let issues := total (m_issues rm) in
      let recency_score := Z.max 0 (30 - Z.min days_since 30) in
      let activity_score := Z.min (commits_30 * 3) 35 in
      let hygiene_penalty := Z.min (dirty * 2) 20 in
      let issue_penalty := Z.min (issues / 30) 10 in
      let score := 20 + recency_score + activity_score - hygiene_penalty - issue_penalty in
      let score := Z.max 0 (Z.min 100 score) in
      let stage :=
        if (commits_30 =? 0) && (days_since >? 90) then "Stalled"
        else if (commits_30 >=? 12) && (days_since <=? 7) then "Accelerating"
        else if (commits_30 >=? 4) && (days_since <=? 30) then "In Progress"
        else if days_since <=? 60 then "Maintaining"
        else "At Risk" in
      (score, stage)
  end.

End Progress.

(** Functional updates of the three inputs the monotonicity claims vary. *)
Definition with_commits_30 (rm : Metrics) (c : Z) : Metrics :=
  {| m_id := m_id rm; m_name := m_name rm; m_path := m_path rm;
     m_remote := m_remote rm; m_track := m_track rm; m_status := m_status rm;
     m_commits := {| last_7d := last_7d (m_commits rm); last_30d := c;
                     last_90d := last_90d (m_commits rm) |};
     m_weekly_commits := m_weekly_commits rm; m_issues := m_issues rm;
     m_commit_alerts := m_commit_alerts rm |}.

Definition with_dirty (rm : Metrics) (md ut : Z) : Metrics :=
  let st := m_status rm in
  {| m_id := m_id rm; m_name := m_name rm; m_path := m_path rm;
     m_remote := m_remote rm; m_track := m_track rm;
     m_status := {| branch := branch st; status_line := status_line st;
                    last_commit := last_commit st;
                    dirty := {| modified := md; untracked := ut |};
                    ahead := ahead st; behind := behind st |};
     m_commits := m_commits rm;
     m_weekly_commits := m_weekly_commits rm; m_issues := m_issues rm;
     m_commit_alerts := m_commit_alerts rm |}.

Definition with_issues_total (rm : Metrics) (n : Z) : Metrics :=
  {| m_id := m_id rm; m_name := m_name rm; m_path := m_path rm;
     m_remote := m_remote rm; m_track := m_track rm; m_status := m_status rm;
     m_commits := m_commits rm;
     m_weekly_commits := m_weekly_commits rm;
     m_issues := {| total := n; hits := hits (m_issues rm) |};
     m_commit_alerts := m_commit_alerts rm |}.

(* ------------------------------------------------------------------ *)
(** ** The dashboard and the evidence search ([search_key_issues]) *)

(** An entry of [issue_search_pool]. *)
Record PoolItem := {
  pi_repo : string;
  pi_path : string;
  pi_track : string;
  pi_type : string;
  pi_title : string;
  pi_content : string
}.

(** A repository entry of the dashboard: the metrics plus
    [metrics["progress"] = {"score": .., "stage": ..}]. *)
Record TrackedRepo := {
  tr_metrics : Metrics;
  tr_score : Z;
  tr_stage : string
}.

(** The dashboard dict; its summary, track summary and trend parts are
    not read by the operations modelled here and are left out. *)
Record Dashboard := {
  generated_at : string;
  db_owner : string;
  db_repos : list TrackedRepo;
  db_search_pool : list PoolItem
}.

(** [seq[:n]] for a Python int [n] (negative [n] counts from the end). *)
Definition py_slice_to {A} (l : list A) (n : Z) : list A :=
  if 0 <=? n then firstn (Z.to_nat n) l
  else firstn (Z.to_nat (Z.of_nat (length l) + n)) l.

(** [f"{repo} {title} {content} {track}".lower()] *)
Definition hay (item : PoolItem) : string :=
  PyStr.lower (pi_repo item ++ " " ++ pi_title item ++ " " ++ pi_content item
               ++ " " ++ pi_track item).

(** The [for item in ...] loop with its [break]; [results] is the list
    built so far. *)
Fixpoint search_loop (q : string) (limit : Z) (pool : list PoolItem)
    (results : list PoolItem) : list PoolItem :=
  match pool with
  | [] => results
  | item :: rest =>
      let results := if PyStr.contains (hay item) q then app results [item] else results in
      if Z.of_nat (length results) >=? limit then results
      else search_loop q limit rest results
  end.

Definition search_key_issues (dashboard : Dashboard) (query : string) (limit : Z)
    : list PoolItem :=
  let q := PyStr.lower (PyStr.strip query) in
  if String.eqb q "" then py_slice_to (db_search_pool dashboard) limit
  else search_loop q limit (db_search_pool dashboard) [].

(* ------------------------------------------------------------------ *)
(** ** Ordering of the repositories ([tracked.sort(..., reverse=True)]) *)

(** The sort key [(r["progress"]["score"], r["commits"]["last_30d"])]. *)
Definition sort_key (r : TrackedRepo) : Z * Z :=
  (tr_score r, last_30d (m_commits (tr_metrics r))).

(** Tuple [<] on pairs of ints. *)
Definition key_lt (a b : Z * Z) : bool :=
  (a.1 <? b.1) || ((a.1 =? b.1) && (a.2 <? b.2)).

(** A stable ascending sort that compares with [<] only, as [list.sort]
    does; any stable sort returns this same list. *)
Fixpoint insert_sorted (x : TrackedRepo) (ys : list TrackedRepo) : list TrackedRepo :=
  match ys with
  | [] => [x]
  | y :: ys' =>
      if key_lt (sort_key y) (sort_key x) then y :: insert_sorted x ys'
      else x :: y :: ys'
  end.

Fixpoint stable_sort (l : list TrackedRepo) : list TrackedRepo :=
  match l with
  | [] => []
  | x :: xs => insert_sorted x (stable_sort xs)
  end.

(** [list.sort(reverse=True)]: CPython reverses the list, sorts it stably
    ascending and reverses it again, so equal keys keep their order. *)
Definition sort_reverse (l : list TrackedRepo) : list TrackedRepo :=
  rev (stable_sort (rev l)).

(** Equality of sort keys, and the two orders on tracked repositories. *)
Definition key_eqb (a b : Z * Z) : bool := (a.1 =? b.1) && (a.2 =? b.2).

(** [a] may precede [b] in ascending order: not [key b < key a]. *)
Definition asc (a b : TrackedRepo) : Prop := key_lt (sort_key b) (sort_key a) = false.

(** [a] may precede [b] in descending order: not [key a < key b]. *)
Definition desc (a b : TrackedRepo) : Prop := key_lt (sort_key a) (sort_key b) = false.

Section Ordering.

(** The per-repository body of the [for repo in repos] loop of
    [scan_repositories]: [None] for the [continue] branches (no origin
    remote, unparseable remote, other owner). *)
Variable collect_repo : string -> option TrackedRepo.

Fixpoint collect_tracked (repos : list string) : list TrackedRepo :=
  match repos with
  | [] => []
  | repo :: rest =>
      match collect_repo repo with
      | Some r => r :: collect_tracked rest
      | None => collect_tracked rest
      end
  end.

(** The [repos] list of the dashboard, from the discovered paths. *)
Definition dashboard_repos (repos : list string) : list TrackedRepo :=
  sort_reverse (collect_tracked repos).

End Ordering.

(* ------------------------------------------------------------------ *)
(** ** The snapshot cache ([load_dashboard]) *)

(** [_cache_data] and [_cache_ts]. *)
Record CacheState := { cache_data : option Dashboard; cache_ts : Z }.

Section Cache.

(** The filesystem and git state a scan reads. *)
Variable World : Type.
(** Everything [scan_repositories] does after [load_config]; [None] is an
    exception escaping from it. *)
Variable scan_with_config : World -> RepoConfig -> option Dashboard.

Definition scan_repositories (w : World) (f : ConfigFile) : option Dashboard :=
  match load_config f with
  | None => None
  | Some cfg => scan_with_config w cfg
  end.

Definition get_cache_ttl (f : ConfigFile) : option Z :=
  match load_config f with
  | None => None
  | Some cfg => Some (cache_ttl_seconds cfg)
  end.

(** [load_dashboard(force)] at time [now] ([time.time()]); the result is
    [None] when an exception propagates to the caller. *)
Definition load_dashboard (force : bool) (now : Z) (f : ConfigFile) (w : World)
    (st : CacheState) : option Dashboard * CacheState :=
  match get_cache_ttl f with
  | None => (None, st)
  | Some ttl =>
      let rescan :=
        match scan_repositories w f with
        | None => (None, st)
        | Some data => (Some data, {| cache_data := Some data; cache_ts := now |})
        end in
      match cache_data st with
      | Some d => if negb force && (now - cache_ts st <? ttl) then (Some d, st) else rescan
      | None => rescan
      end
  end.

End Cache.

(* ------------------------------------------------------------------ *)
(** ** The 12-week histogram ([weekly_commit_counts]) *)

Module PyLines.

(** The line boundaries of [str.splitlines] within Latin-1, apart from
    CR, which is handled with a following LF: LF, VT, FF, FS, GS, RS, NEL. *)
Definition is_line_break (c : ascii) : bool :=
  let n := nat_of_ascii c in
  (n =? 10)%nat || (n =? 11)%nat || (n =? 12)%nat || (n =? 28)%nat
  || (n =? 29)%nat || (n =? 30)%nat || (n =? 133)%nat.

(** [cur] is the line read so far. *)
Fixpoint splitlines_from (s cur : string) : list string :=
  match s with
  | EmptyString => match cur with EmptyString => [] | _ => [cur] end
  | String c s' =>
      if Ascii.eqb c "013"%char then
        match s' with
        | String c2 s'' =>
            if Ascii.eqb c2 "010"%char then cur :: splitlines_from s'' ""
            else cur :: splitlines_from s' ""
        | EmptyString => [cur]
        end
      else if is_line_break c then cur :: splitlines_from s' ""
      else splitlines_from s' (cur ++ String c "")
  end.

(** [s.splitlines()] *)
Definition splitlines (s : string) : list string := splitlines_from s "".

End PyLines.

Section Weekly.

(** [d.strftime("%G-W%V")] of a naive datetime given by its wall-clock
    reading in microseconds: a library function. *)
Variable strftime_GV : Z -> string.

(** [counts[week] = counts.get(week, 0) + 1] over the stripped, non-blank
    lines. *)
Definition count_weeks (lines : list string) : gmap string Z :=
  fold_left
    (fun (counts : gmap string Z) (line : string) =>
       let week := PyStr.strip line in
       if String.eqb week "" then counts
       else <[week := get (counts !! week) 0 + 1]> counts)
    lines ∅.

(** The [labels] list: [now], [now - 7 days], ... ([weeks] of them). *)
Fixpoint week_labels_from (current : Z) (weeks : nat) : list string :=
  match weeks with
  | O => []
  | S k => strftime_GV current :: week_labels_from (current - 7 * us_per_day) k
  end.

(** [weekly_commit_counts(repo, weeks)]: [now] is [datetime.now()] and
    [git_stdout] the raw standard output of the [git log] call
    ([run_cmd] strips it). *)
Definition weekly_commit_counts (now : Z) (git_stdout : string) (weeks : nat)
    : gmap string Z :=
  let out := PyStr.strip git_stdout in
  if String.eqb out "" then ∅
  else
    let counts := count_weeks (PyLines.splitlines out) in
    let label_set : gset string := list_to_set (week_labels_from now weeks) in
    filter (fun kv : string * Z => kv.1 ∈ label_set) counts.

End Weekly.

(* ------------------------------------------------------------------ *)
(** ** External processes ([run_cmd] and [_run_cmd]) *)

(** How a spawned program behaves. *)
Inductive ProcBehaviour :=
| Exits (code : Z) (stdout stderr : string)
| Hangs                       (** never exits *)
| ToolAbsent.                 (** the executable is not on PATH *)

Inductive PyExn := FileNotFoundError | TimeoutExpired.

(** The outcome of a Python call: it returns, raises, or never returns. *)
Inductive Outcome (A : Type) :=
| Returns (a : A)
| Raises (e : PyExn)
| Blocks.
Arguments Returns {A} a.
Arguments Raises {A} e.
Arguments Blocks {A}.

Record Completed := { returncode : Z; p_stdout : string; p_stderr : string }.

(** [subprocess.run(args, ..., timeout=timeout)]: without a timeout it waits
    for the child for ever. *)
Definition subprocess_run (timeout : option Z) (b : ProcBehaviour) : Outcome Completed :=
  match b with
  | Exits c o e => Returns {| returncode := c; p_stdout := o; p_stderr := e |}
  | ToolAbsent => Raises FileNotFoundError
  | Hangs => match timeout with Some _ => Raises TimeoutExpired | None => Blocks end
  end.

(** scanner.py [run_cmd]: no [timeout] argument, only [FileNotFoundError]
    is caught. *)
Definition run_cmd (b : ProcBehaviour) : Outcome (Z * string) :=
  match subprocess_run None b with
  | Returns p => Returns (returncode p, PyStr.strip (p_stdout p))
  | Raises FileNotFoundError => Returns (127, "")
  | Raises e => Raises e
  | Blocks => Blocks
  end.

Record CmdResult := { r_code : Z; r_stdout : string; r_stderr : string; r_output : string }.

(** The message [str(e)] of a caught exception. *)
Definition exn_message (e : PyExn) : string :=
  match e with
  | FileNotFoundError => "No such file or directory"
  | TimeoutExpired => "timed out"
  end.

(** app.py [_run_cmd(args, timeout=60)]: every [Exception] is caught. *)
Definition app_run_cmd (timeout : Z) (b : ProcBehaviour) : Outcome CmdResult :=
  match subprocess_run (Some timeout) b with
  | Returns p =>
      Returns {| r_code := returncode p; r_stdout := PyStr.strip (p_stdout p);
                 r_stderr := PyStr.strip (p_stderr p);
                 r_output := PyStr.strip (p_stdout p ++ p_stderr p) |}
  | Raises e =>
      Returns {| r_code := 1; r_stdout := ""; r_stderr := exn_message e;
                 r_output := exn_message e |}
  | Blocks => Blocks
  end.

(* ------------------------------------------------------------------ *)
(** ** Remote URLs ([parse_remote_owner_repo]) *)

Module OwnerRe.

(** The pattern [github\.com[:/]([^/]+)/([^/.]+)(?:\.git)?$] compiled by
    hand into a backtracking matcher, tried by [RE_OWNER.search] at every
    start position from the left. *)

Definition is_slash (c : ascii) : bool := Ascii.eqb c "/"%char.
Definition not_slash (c : ascii) : bool := negb (is_slash c).
Definition not_slash_dot (c : ascii) : bool := negb (is_slash c || Ascii.eqb c "."%char).

(** Length of the longest prefix of [s] whose characters satisfy [p]. *)
Fixpoint run_length (p : ascii -> bool) (s : string) : nat :=
  match s with
  | EmptyString => O
  | String c s' => if p c then S (run_length p s') else O
  end.

(** [$]: the end of the string, or a final newline. *)
Definition at_end (s : string) : bool :=
  match s with
  | EmptyString => true
  | String c EmptyString => Ascii.eqb c "010"%char
  | _ => false
  end.

(** [(?:\.git)?$]: the optional group is greedy, so [.git] is tried first. *)
Definition match_tail (s : string) : bool :=
  (String.prefix ".git" s && at_end (substring 4 (String.length s - 4) s)) || at_end s.

(** [([^/.]+)] followed by the tail: greedy, backtracking from [k]
    characters down to one. *)
Fixpoint match_name (k : nat) (s : string) : option string :=
  match k with
  | O => None
  | S k' =>
      if match_tail (substring k (String.length s - k) s) then Some (substring 0 k s)
      else match_name k' s
  end.

(** [([^/]+)/] and then the name group. *)
Fixpoint match_owner (k : nat) (s : string) : option (string * string) :=
  match k with
  | O => None
  | S k' =>
      let rest := substring k (String.length s - k) s in
      match rest with
      | String c rest' =>
          if is_slash c then
            match match_name (run_length not_slash_dot rest') rest' with
            | Some name => Some (substring 0 k s, name)
            | None => match_owner k' s
            end
          else match_owner k' s
      | EmptyString => match_owner k' s
      end
  end.

(** The pattern anchored at the start of [s]. *)
Definition match_at (s : string) : option (string * string) :=
  if String.prefix "github.com" s then
    match substring 10 (String.length s - 10) s with
    | String c rest =>
        if Ascii.eqb c ":"%char || Ascii.eqb c "/"%char
        then match_owner (run_length not_slash rest) rest
        else None
    | EmptyString => None
    end
  else None.

(** [RE_OWNER.search(s)]: the leftmost start position that matches. *)
Fixpoint search (s : string) : option (string * string) :=
  match match_at s with
  | Some r => Some r
  | None =>
      match s with
      | EmptyString => None
      | String _ s' => search s'
      end
  end.

End OwnerRe.

(** [parse_remote_owner_repo]: the two groups of the first match. *)
Definition parse_remote_owner_repo (remote_url : string) : option (string * string) :=
  OwnerRe.search remote_url.

(** Every character of [s] satisfies [p]. *)
Fixpoint all_chars (p : ascii -> bool) (s : string) : bool :=
  match s with
  | EmptyString => true
  | String c s' => p c && all_chars p s'
  end.

(* ------------------------------------------------------------------ *)
(** ** Working-tree status ([get_repo_status]) *)

Module PySplit.

(** [s.split(sep, maxsplit)] for a one-character [sep]; [cur] is the
    field read so far. *)
Fixpoint split_from (sep : ascii) (maxsplit : nat) (s cur : string) {struct s}
    : list string :=
  match maxsplit, s with
  | O, _ => [cur ++ s]
  | S _, EmptyString => [cur]
  | S m, String c s' =>
      if Ascii.eqb c sep then cur :: split_from sep m s' ""
      else split_from sep maxsplit s' (cur ++ String c "")
  end.

Definition split (sep : ascii) (maxsplit : nat) (s : string) : list string :=
  split_from sep maxsplit s "".

(** [s.replace(old, new)] for a non-empty [old]; [skip] counts the
    characters of a replaced occurrence still to be dropped. *)
Fixpoint replace_go (old new : string) (skip : nat) (s : string) : string :=
  match s with
  | EmptyString => EmptyString
  | String c s' =>
      match skip with
      | S k => replace_go old new k s'
      | O =>
          if String.prefix old s then new ++ replace_go old new (String.length old - 1) s'
          else String c (replace_go old new O s')
      end
  end.

Definition replace (old new s : string) : string := replace_go old new O s.

End PySplit.

Module StatusRe.

(** [\d] of a [str] pattern within Latin-1: the ASCII digits. *)
Definition is_digit (c : ascii) : bool :=
  let n := nat_of_ascii c in ((48 <=? n) && (n <=? 57))%nat.

(** [int()] of the digits at the front of [s], read onto [acc]. *)
Fixpoint digits_value (acc : Z) (s : string) : Z :=
  match s with
  | EmptyString => acc
  | String c s' =>
      if is_digit c then digits_value (10 * acc + (Z.of_nat (nat_of_ascii c) - 48)) s'
      else acc
  end.

(** [word (\d+)] matched at the front of [s]: the value of [group(1)]. *)
Definition match_num_at (word s : string) : option Z :=
  if String.prefix word s then
    match substring (String.length word) (String.length s - String.length word) s with
    | String c rest => if is_digit c then Some (digits_value 0 (String c rest)) else None
    | EmptyString => None
    end
  else None.

(** [re.compile(word + r"(\d+)").search(s)]: the leftmost match. *)
Fixpoint search_num (word s : string) : option Z :=
  match match_num_at word s with
  | Some v => Some v
  | None => match s with EmptyString => None | String _ s' => search_num word s' end
  end.

End StatusRe.

(** The [for line in porcelain.splitlines()] loop: the pair
    [(modified, untracked)]. *)
Definition count_porcelain (lines : list string) : Z * Z :=
  fold_left
    (fun (acc : Z * Z) (line : string) =>
       if PyStr.startswith line "??" then (acc.1, acc.2 + 1)
       else if negb (String.eqb (PyStr.strip line) "") then (acc.1 + 1, acc.2)
       else acc)
    lines (0, 0).

(** [parts = last.split("|", 2)] and the unpacking when [len(parts) == 3]. *)
Definition parse_last_commit (last : string) : LastCommit :=
  let parts := if String.eqb last "" then [] else PySplit.split "|" 2 last in
  match parts with
  | [d; h; s] => {| lc_date := d; lc_hash := h; lc_subject := s |}
  | _ => {| lc_date := ""; lc_hash := ""; lc_subject := "" |}
  end.

(** [get_repo_status(repo)]: the arguments are the standard outputs of the
    four [git] calls, in program order ([run_cmd] strips them; a missing
    [git] gives the empty output). *)
Definition get_repo_status (out_branch out_status_sb out_last out_porcelain : string)
    : Status :=
  let br := PyStr.strip out_branch in
  let status_sb := PyStr.strip out_status_sb in
  let status_line :=
    if String.eqb status_sb "" then "" else hd "" (PyLines.splitlines status_sb) in
  let last := PyStr.strip out_last in
  let porcelain := PyStr.strip out_porcelain in
  let md_ut :=
    if String.eqb porcelain "" then (0, 0)
    else count_porcelain (PyLines.splitlines porcelain) in
  {| branch := if String.eqb br "" then "-" else br;
     status_line := PyStr.strip (PySplit.replace "## " "" status_line);
     last_commit := parse_last_commit last;
     dirty := {| modified := md_ut.1; untracked := md_ut.2 |};
     ahead := get (StatusRe.search_num "ahead " status_line) 0;
     behind := get (StatusRe.search_num "behind " status_line) 0 |}.

(** A string free of white space. *)
Definition no_space (s : string) : bool := all_chars (fun c => negb (PyStr.is_space c)) s.

(** Neither CR nor one of the other line boundaries. *)
Definition no_break (c : ascii) : bool :=
  negb (Ascii.eqb c "013"%char || PyLines.is_line_break c).

(* ------------------------------------------------------------------ *)
(** ** Repository discovery ([discover_git_repos]) *)

Section Discover.

(** [Path(repo, ".git").is_dir()] *)
Variable is_git_dir : string -> bool.
(** The standard output of [find root -maxdepth depth -type d -name .git]
    (empty when [find] is missing); [run_cmd] strips it. *)
Variable find_stdout : string -> Z -> string.
(** [str(Path(line).parent)] *)
Variable path_parent : string -> string.

(** The [repos] set after the [include_repos] loop. *)
Definition included_repos (cfg : RepoConfig) : gset string :=
  fold_left (fun (acc : gset string) (repo : string) =>
               if is_git_dir repo then {[repo]} ∪ acc else acc)
    (include_repos cfg) ∅.

(** The [for root in cfg.scan_roots] loop. *)
Definition found_repos (cfg : RepoConfig) (repos : gset string) : gset string :=
  fold_left (fun (acc : gset string) (root : string) =>
               let out := PyStr.strip (find_stdout root (max_repo_depth cfg)) in
               if String.eqb out "" then acc
               else fold_left (fun (acc : gset string) (line : string) =>
                                 {[path_parent line]} ∪ acc)
                      (PyLines.splitlines out) acc)
    (scan_roots cfg) repos.

(** [sorted(repos)] (code-point order on [str]; the elements are distinct,
    so every sorting algorithm gives this list) and the exclusion filter
    [any(repo.startswith(ex) for ex in cfg.exclude_paths)]. *)
Definition discover_git_repos (cfg : RepoConfig) : list string :=
  List.filter
    (fun repo => negb (existsb (fun ex => PyStr.startswith repo ex) (exclude_paths cfg)))
    (merge_sort String.le (elements (found_repos cfg (included_repos cfg)))).

End Discover.

(** The number of lines of a [git log] output that strip to [week]. *)
Definition week_count (week : string) (lines : list string) : Z :=
  Z.of_nat (length (List.filter (fun line => String.eqb (PyStr.strip line) week) lines)).

(* ------------------------------------------------------------------ *)
(** ** Commit counts ([count_commits_since]) *)

Module PyInt.

(** The digits of [int(s)] after the sign: ASCII digits with single
    underscores between them; [after_digit] says whether the previous
    character was a digit. *)
Fixpoint parse_digits (acc : Z) (after_digit : bool) (s : string) : option Z :=
  match s with
  | EmptyString => if after_digit then Some acc else None
  | String c s' =>
      if StatusRe.is_digit c then
        parse_digits (10 * acc + (Z.of_nat (nat_of_ascii c) - 48)) true s'
      else if Ascii.eqb c "_" && after_digit then parse_digits acc false s'
      else None
  end.

(** [int(s)] for a [str] within Latin-1 (whose only decimal digits are the
    ASCII ones): surrounding white space, an optional sign, then the
    digits; [None] is the [ValueError]. *)
Definition int (s : string) : option Z :=
  match PyStr.strip s with
  | EmptyString => None
  | String c r as t =>
      if Ascii.eqb c "-" then option_map Z.opp (parse_digits 0 false r)
      else if Ascii.eqb c "+" then parse_digits 0 false r
      else parse_digits 0 false t
  end.

End PyInt.

(** [count_commits_since(repo, days)]: [git_stdout] is the standard output
    of [git rev-list --count HEAD --since=<days>.days]. *)
Definition count_commits_since (git_stdout : string) : Z :=
  let out := PyStr.strip git_stdout in
  if String.eqb out "" then 0 else get (PyInt.int out) 0.

(* ------------------------------------------------------------------ *)
(** ** The group view ([api_group]) *)

Definition TRACK_OPTIONS : list string := ["finance"; "engineering"; "soc_auto_design"; "family"].

(** The ["repos"] of [api_group(track)]: the dashboard entries of the track,
    re-sorted by [(score, last_30d)] with [reverse=True]; [None] is the
    HTTP 400 answer for a track outside [TRACK_OPTIONS]. *)
Definition api_group_repos (track : string) (d : Dashboard) : option (list TrackedRepo) :=
  if existsb (String.eqb track) TRACK_OPTIONS then
    Some (sort_reverse
            (List.filter (fun r => String.eqb (m_track (tr_metrics r)) track) (db_repos d)))
  else None.

(* ------------------------------------------------------------------ *)
(** ** Committing and pushing ([_git_commit_push]) *)





Section CommitPush.

(** How the program started with the given argument list behaves. *)
Variable proc : list string -> ProcBehaviour.


End CommitPush.

(* ------------------------------------------------------------------ *)
(** ** TODO.md items ([_read_repo_todos], [_append_repo_todo], [_update_repo_todo]) *)

(** What is found at [<repo>/TODO.md]: nothing, a directory, or a file
    with its decoded text. *)
Inductive FsNode :=
| NoNode
| DirNode
| FileNode (content : string).

(** The group [.*] followed by [$] on the rest of a line: [.] stops at LF
    and [$] matches at the end or before a final LF; the group is the text
    before it. *)
Fixpoint dot_star_end (s : string) : option string :=
  match s with
  | EmptyString => Some EmptyString
  | String c s' =>
      if Ascii.eqb c "010"%char then
        match s' with EmptyString => Some EmptyString | _ => None end
      else option_map (String c) (dot_star_end s')
  end.

(** [TODO_RE.match(line)]: the line starts with ["- ["], a space, [x] or
    [X] (group 1), then ["] "] and the group [.*] up to [$] (group 2). *)
Definition todo_match (line : string) : option (ascii * string) :=
  match line with
  | String "-" (String " " (String "[" (String c (String "]" (String " " rest))))) =>
      if Ascii.eqb c " " || Ascii.eqb c "x" || Ascii.eqb c "X" then
        option_map (fun g => (c, g)) (dot_star_end rest)
      else None
  | _ => None
  end%char.

Record Todo := { td_index : Z; td_line_no : Z; td_done : bool; td_text : string }.

(** The loop of [_read_repo_todos] from line number [line_no], with
    [todo_idx] items seen. *)
Fixpoint read_todos_go (lines : list string) (line_no todo_idx : Z) : list Todo :=
  match lines with
  | [] => []
  | line :: rest =>
      match todo_match line with
      | None => read_todos_go rest (line_no + 1) todo_idx
      | Some (mark, g) =>
          {| td_index := todo_idx; td_line_no := line_no;
             td_done := Ascii.eqb (PyStr.lower_char mark) "x";
             td_text := PyStr.strip g |}
          :: read_todos_go rest (line_no + 1) (todo_idx + 1)
      end
  end.

Definition read_repo_todos (f : FsNode) : list Todo :=
  match f with
  | FileNode s => read_todos_go (PyLines.splitlines s) 1 0
  | _ => []
  end.

(** [_append_repo_todo]: the new node, or [None] when opening the path
    for appending raises (it is a directory). *)
Definition append_repo_todo (f : FsNode) (text : string) : option FsNode :=
  let item := "- [ ] " ++ PyStr.strip text ++ String "010" "" in
  match f with
  | NoNode => Some (FileNode ("# TODO" ++ String "010" (String "010" "") ++ item))
  | FileNode s => Some (FileNode (s ++ item))
  | DirNode => None
  end.

(** [f"- [{mark}] {new_text}"] *)
Definition todo_line (done : bool) (text : string) : string :=
  "- [" ++ String (if done then "x" else " ")%char "] " ++ text.

(** The search loop of [_update_repo_todo]: the updated lines, or [None]
    when no item has number [index]; [hit] is the number of the last item
    seen. *)
Fixpoint update_todos_go (lines : list string) (hit index : Z) (done : option bool)
    (text : option string) : option (list string) :=
  match lines with
  | [] => None
  | line :: rest =>
      match todo_match line with
      | None => option_map (cons line) (update_todos_go rest hit index done text)
      | Some (mark, g) =>
          let hit := hit + 1 in
          if negb (hit =? index) then
            option_map (cons line) (update_todos_go rest hit index done text)
          else
            let cur_done := Ascii.eqb (PyStr.lower_char mark) "x" in
            let new_done := get done cur_done in
            let new_text := match text with None => PyStr.strip g | Some t => PyStr.strip t end in
            Some (todo_line new_done new_text :: rest)
      end
  end.

(** ["\n".join(lines) + "\n"] *)
Fixpoint join_lines (lines : list string) : string :=
  match lines with
  | [] => EmptyString
  | [l] => l
  | l :: rest => l ++ String "010" (join_lines rest)
  end.

Inductive UpdateResult := UpdateOk | TodoNotFound | IndexNotFound (index : Z).

(** [_update_repo_todo(repo_path, index, done, text)], with [bool(done)]
    already taken: the result and the node after the call. *)
Definition update_repo_todo (f : FsNode) (index : Z) (done : option bool)
    (text : option string) : UpdateResult * FsNode :=
  match f with
  | FileNode s =>
      match update_todos_go (PyLines.splitlines s) (-1) index done text with
      | Some lines => (UpdateOk, FileNode (join_lines lines ++ String "010" ""))
      | None => (IndexNotFound index, f)
      end
  | _ => (TodoNotFound, f)
  end.

(* ------------------------------------------------------------------ *)
(** ** The repository manifest ([api_add_repo], [api_remove_repo], [api_config]) *)

(** A JSON value as [json.load] returns it; an object keeps its keys in
    insertion order, and a number is kept as its text. *)
#[warnings="-register-all"]
Inductive JVal :=
| JNull
| JBool (b : bool)
| JNum (text : string)
| JStr (s : string)
| JList (items : list JVal)
| JObj (fields : list (string * JVal)).

(** [d.get(k)] *)
Fixpoint dict_get (d : list (string * JVal)) (k : string) : option JVal :=
  match d with
  | [] => None
  | (k', v) :: rest => if String.eqb k' k then Some v else dict_get rest k
  end.

(** [d[k] = v]: an existing key keeps its place, a new one goes last. *)
Fixpoint dict_set {V} (d : list (string * V)) (k : string) (v : V) : list (string * V) :=
  match d with
  | [] => [(k, v)]
  | (k', v') :: rest => if String.eqb k' k then (k, v) :: rest else (k', v') :: dict_set rest k v
  end.

(** [s == v] for a Python string [s] and a JSON value [v]. *)
Definition jstr_eqb (s : string) (v : JVal) : bool :=
  match v with JStr s' => String.eqb s' s | _ => false end.

Section Manifest.

(** [os.path.abspath(os.path.expanduser(p))] *)
Variable norm : string -> string.
(** [str(v)] of a JSON value that is not a string. *)
Variable str_other : JVal -> string.
(** [Path(p, ".git").is_dir()] *)
Variable git_dir : string -> bool.

(** [str(v)] *)
Definition py_str (v : JVal) : string :=
  match v with JStr s => s | _ => str_other v end.

(** [os.path.abspath(os.path.expanduser(str(item.get("path", ""))))] *)
Definition item_path (d : list (string * JVal)) : string :=
  norm (py_str (get (dict_get d "path") (JStr ""))).

(** The loop of [api_add_repo] over [manifest["repos"]], with the new
    entry appended when no object entry has the path. *)
Fixpoint add_repo_entries (repos : list JVal) (repo_path track : string) : list JVal :=
  match repos with
  | [] =>
      [JObj (("path", JStr repo_path) :: ("enabled", JBool true)
               :: (if String.eqb track "" then [] else [("track", JStr track)]))]
  | JObj d :: rest =>
      if String.eqb (item_path d) repo_path then
        let d := dict_set (dict_set d "path" (JStr repo_path)) "enabled" (JBool true) in
        JObj (if String.eqb track "" then d else dict_set d "track" (JStr track)) :: rest
      else JObj d :: add_repo_entries rest repo_path track
  | v :: rest => v :: add_repo_entries rest repo_path track
  end.

Inductive AddRepoResult :=
| AddRepoError (error : string)
| AddRepoOk (path track : string) (repos : list JVal).

(** [api_add_repo] from [str(payload.get("path", ""))],
    [str(payload.get("track", ""))] and the ["repos"] list of the manifest
    it reads: the HTTP 400 answer, or the path, the track and the ["repos"]
    list it writes back. *)
Definition api_add_repo (raw_path raw_track : string) (repos : list JVal) : AddRepoResult :=
  let raw_path := PyStr.strip raw_path in
  let raw_track := PyStr.strip raw_track in
  if String.eqb raw_path "" then AddRepoError "path is required" else
  let repo_path := norm raw_path in
  if negb (git_dir repo_path) then AddRepoError ("not a git repo: " ++ repo_path) else
  let track := if existsb (String.eqb raw_track) TRACK_OPTIONS then raw_track else "" in
  AddRepoOk repo_path track (add_repo_entries repos repo_path track).

Inductive RemoveRepoResult :=
| RemoveRepoError (error : string)
| RemoveRepoOk (path : string) (removed : bool) (repos : list JVal).

(** [api_remove_repo]: the HTTP 400 answer, or the path, the ["removed"]
    flag and the ["repos"] list of the manifest afterwards (written back
    only when it changed). *)
Definition api_remove_repo (raw_path : string) (repos : list JVal) : RemoveRepoResult :=
  let raw_path := PyStr.strip raw_path in
  if String.eqb raw_path "" then RemoveRepoError "path is required" else
  let repo_path := norm raw_path in
  let kept := List.filter (fun item =>
                match item with
                | JObj d => negb (String.eqb (item_path d) repo_path)
                | _ => false
                end) repos in
  let changed := negb (Nat.eqb (length kept) (length repos)) in
  RemoveRepoOk repo_path changed (if changed then kept else repos).

(** [str(item.get(k, "")).strip()] *)
Definition field_str (d : list (string * JVal)) (k : string) : string :=
  PyStr.strip (py_str (get (dict_get d k) (JStr ""))).

(** [item.get("enabled", True) is False] *)
Definition item_disabled (d : list (string * JVal)) : bool :=
  match dict_get d "enabled" with Some (JBool false) => true | _ => false end.

(** The loop of [api_config] over [manifest.get("repos", [])], from the
    lists [include] and [overrides] read from the configuration. *)
Fixpoint config_merge (items : list JVal) (include : list JVal)
    (overrides : list (string * JVal)) : list JVal * list (string * JVal) :=
  match items with
  | [] => (include, overrides)
  | JObj d :: rest =>
      if item_disabled d then config_merge rest include overrides else
      let p := field_str d "path" in
      if String.eqb p "" then config_merge rest include overrides else
      let include := if existsb (jstr_eqb p) include then include else (include ++ [JStr p])%list in
      let t := field_str d "track" in
      let overrides := if String.eqb t "" then overrides else dict_set overrides p (JStr t) in
      config_merge rest include overrides
  | _ :: rest => config_merge rest include overrides
  end.

End Manifest.

(* ------------------------------------------------------------------ *)
(** ** Issue markers and commit alerts ([collect_issue_matches],
       [collect_commit_alerts]) *)

Module AlertRe.

(** [\w] of a [str] pattern within Latin-1: [str.isalnum()] or ['_']. *)
Definition is_word_char (c : ascii) : bool :=
  let n := nat_of_ascii c in
  (((48 <=? n) && (n <=? 57)) || ((65 <=? n) && (n <=? 90)) || (n =? 95)
   || ((97 <=? n) && (n <=? 122))
   || (n =? 170) || (n =? 178) || (n =? 179) || (n =? 181) || (n =? 185)
   || (n =? 186) || ((188 <=? n) && (n <=? 190))
   || ((192 <=? n) && (n <=? 255) && negb (n =? 215) && negb (n =? 247)))%nat.

(** The alternatives of [COMMIT_ALERT_REGEX]. *)
Definition WORDS : list string :=
  ["fix"; "bug"; "error"; "fail"; "todo"; "problem"; "blocker"; "risk"; "regress"].

(** [w\b] matched at the front of [s] under [re.IGNORECASE] ([w] is in
    lower case; within Latin-1 only [A-Z] fold onto its letters). *)
Fixpoint word_at (w s : string) : bool :=
  match w, s with
  | EmptyString, EmptyString => true
  | EmptyString, String c _ => negb (is_word_char c)
  | String a w', String c s' => Ascii.eqb (PyStr.lower_char c) a && word_at w' s'
  | String _ _, EmptyString => false
  end.

(** [COMMIT_ALERT_REGEX.search] from each position of [s]; [prev_word]
    says whether the character before the position is a word character
    (the leading [\b]). *)
Fixpoint search_from (prev_word : bool) (s : string) : bool :=
  match s with
  | EmptyString => false
  | String c s' =>
      (negb prev_word && existsb (fun w => word_at w s) WORDS)
      || search_from (is_word_char c) s'
  end.

Definition search (subj : string) : bool := search_from false subj.

End AlertRe.

(** One line of [git log --pretty=format:%ad|%h|%s]: [None] when
    [line.split("|", 2)] does not give three parts ([continue]). *)
Definition parse_alert_line (line : string) : option CommitAlert :=
  match PySplit.split "|" 2 line with
  | [d; h; subj] => Some {| alert_date := d; alert_hash := h; alert_subject := subj |}
  | _ => None
  end.

(** The loop of [collect_commit_alerts], with the alerts so far. *)
Fixpoint commit_alerts_go (max_count : Z) (lines : list string)
    (alerts : list CommitAlert) : list CommitAlert :=
  match lines with
  | [] => alerts
  | line :: rest =>
      match parse_alert_line line with
      | None => commit_alerts_go max_count rest alerts
      | Some a =>
          let alerts := if AlertRe.search (alert_subject a) then (alerts ++ [a])%list
                        else alerts in
          if Z.of_nat (length alerts) >=? max_count then alerts
          else commit_alerts_go max_count rest alerts
      end
  end.

(** scanner.py [collect_commit_alerts], from the (stripped) output [out]
    that [run_cmd] returns for [git log]. *)
Definition collect_commit_alerts (out : string) (max_count : Z) : list CommitAlert :=
  if String.eqb out "" then []
  else commit_alerts_go max_count (PyLines.splitlines out) [].



Section Issues.

(** [os.path.relpath(p, repo)]. *)
Variable relpath : string -> string -> string.




End Issues.

(* ------------------------------------------------------------------ *)
(** ** Sample inputs *)

(** A repository with last commit [2024-05-01T00:00:00+00:00], seen on
    2024-05-03 at noon UTC. *)
Definition sample_commit_date : string := "2024-05-01T00:00:00+00:00".
Definition sample_fromisoformat (s : string) : option DateTime :=
  if String.eqb s sample_commit_date
  then Some {| dt_wall_us := 1714521600 * 1000000; dt_utcoffset_us := Some 0 |}
  else None.
Definition sample_now_us : Z := (1714521600 + 2 * 86400 + 43200) * 1000000.

Definition sample_metrics : Metrics :=
  {| m_id := "0123456789ab"; m_name := "demo"; m_path := "/w/demo";
     m_remote := "git@github.com:typhfeng/demo.git"; m_track := "engineering";
     m_status := {| branch := "main"; status_line := "main...origin/main";
                    last_commit := {| lc_date := sample_commit_date; lc_hash := "abc1234";
                                      lc_subject := "work" |};
                    dirty := {| modified := 0; untracked := 0 |};
                    ahead := 0; behind := 0 |};
     m_commits := {| last_7d := 6; last_30d := 15; last_90d := 30 |};
     m_weekly_commits := ∅;
     m_issues := {| total := 0; hits := [] |};
     m_commit_alerts := [] |}.

Definition sample_raw_config : RawConfig :=
  {| raw_owner := Some "typhfeng"; raw_scan_roots := None; raw_include_repos := None;
     raw_max_repo_depth := None; raw_cache_ttl_seconds := None; raw_exclude_paths := None;
     raw_track_overrides := None |}.

Definition sample_dashboard (cfg : RepoConfig) : Dashboard :=
  {| generated_at := "2024-05-03T12:00:00"; db_owner := owner cfg;
     db_repos := []; db_search_pool := [] |}.

Definition sample_item : PoolItem :=
  {| pi_repo := "demo"; pi_path := "/w/demo"; pi_track := "engineering";
     pi_type := "commit_alert"; pi_title := "2024-05-01 abc1234"; pi_content := "fix parser" |}.

Definition sample_pool_dashboard (pool : list PoolItem) : Dashboard :=
  {| generated_at := "2024-05-03T12:00:00"; db_owner := "typhfeng";
     db_repos := []; db_search_pool := pool |}.

(** Week labels of the form [2024-Wnn], numbered from a microsecond count. *)
Definition sample_strftime_GV (t : Z) : string :=
  "2024-W" ++ string_of_list_ascii
                [ascii_of_nat (48 + Z.to_nat ((t / (7 * us_per_day)) mod 100 / 10));
                 ascii_of_nat (48 + Z.to_nat ((t / (7 * us_per_day)) mod 10))].

Definition sample_week_now : Z := 20 * 7 * us_per_day.

(** A log with a week from the window and an older one. *)
Definition sample_week_log : string :=
  "2024-W20" ++ String "010" ("2024-W20" ++ String "010" "2024-W03").

Definition sample_tracked (name : string) (score c30 : Z) : TrackedRepo :=
  {| tr_metrics :=
       {| m_id := name; m_name := name; m_path := "/w/" ++ name;
          m_remote := "git@github.com:typhfeng/" ++ name ++ ".git"; m_track := "engineering";
          m_status := m_status sample_metrics;
          m_commits := {| last_7d := 0; last_30d := c30; last_90d := c30 |};
          m_weekly_commits := ∅; m_issues := {| total := 0; hits := [] |};
          m_commit_alerts := [] |};
     tr_score := score; tr_stage := "In Progress" |}.

(** Three discovered paths; the second has no origin remote. *)
Definition sample_collect (path : string) : option TrackedRepo :=
  if String.eqb path "/w/alpha" then Some (sample_tracked "alpha" 60 4)
  else if String.eqb path "/w/gamma" then Some (sample_tracked "gamma" 60 9)
  else None.

(* ================================================================== *)
(** * Properties *)

Example classify_nested :
  classify_track "/a/b/c" "c" (cfg_with_overrides [("/a", "x"); ("/a/b", "y")]) = "x".
Proof. reflexivity. Qed.
Example classify_keyword :
  classify_track "/home/u/stk-bot" "stk-bot" (cfg_with_overrides []) = "finance".
Proof. reflexivity. Qed.
Example strip_example : PyStr.strip "  a b  " = "a b".
Proof. reflexivity. Qed.
Example lower_example : PyStr.lower "AbC" = "abc".
Proof. reflexivity. Qed.
Example splitlines_example : PyLines.splitlines
    ("a" ++ String "013" (String "010" "b") ++ String "010" (String "010" "c"))
  = ["a"; "b"; ""; "c"].
Proof. reflexivity. Qed.

(** ** Classification *)

Lemma prefix_app_same (p s t : string) :
  String.prefix (p ++ s) (p ++ t) = String.prefix s t.
Proof.
  induction p as [| c p IH]; simpl; [done |].
  destruct (ascii_dec c c); [done | congruence].
Qed.

Lemma append_length_gt (p s : string) :
  s <> EmptyString -> (String.length p < String.length (p ++ s))%nat.
Proof.
  intros Hs. induction p as [| c p IH]; simpl.
  - destruct s; simpl; [done | lia].
  - lia.
Qed.

(** A prefix never matches a longer path whose next character is not ['/']. *)
Lemma override_boundary (prefix rest : string) (c : ascii) :
  c <> "/"%char -> override_matches (prefix ++ String c rest) prefix = false.
Proof.
  intros Hc. unfold override_matches, PyStr.startswith.
  apply orb_false_intro.
  - apply String.eqb_neq. intros Heq.
    pose proof (append_length_gt prefix (String c rest)) as Hl.
    assert (String c rest <> EmptyString) as Hne by done.
    specialize (Hl Hne). rewrite Heq in Hl. lia.
  - rewrite prefix_app_same. cbn -[ascii_dec].
    destruct (ascii_dec "/" c); [congruence | done].
Qed.

Lemma first_override_app (path prefix track : string) pre post :
  Forall (fun pt : string * string => override_matches path pt.1 = false) pre ->
  override_matches path prefix = true ->
  first_override path ((pre ++ (prefix, track) :: post)%list) = Some track.
Proof.
  intros Hpre Hm. induction Hpre as [| [p t] pre Hp _ IH]; simpl in *.
  - by rewrite Hm.
  - by rewrite Hp.
Qed.

(** C1 (refuted as stated): with overrides [/a -> x] then [/a/b -> y], the
    path [/a/b/c] is classified [x], not the track of the longest matching
    prefix [/a/b]. *)
Lemma classify_track_not_longest_prefix :
  override_matches "/a/b/c" "/a" = true /\
  override_matches "/a/b/c" "/a/b" = true /\
  classify_track "/a/b/c" "c" (cfg_with_overrides [("/a", "x"); ("/a/b", "y")]) <> "y".
Proof. split; [reflexivity | split; [reflexivity | discriminate]]. Qed.

(** C1 (as amended): classify_track returns the track of the first override
    prefix, in the mapping's insertion order, that the path equals or is
    nested under ([path == prefix] or [path] starts with [prefix + "/"]);
    and a prefix never matches a path that extends it by a character other
    than ['/'], so ["/foo"] does not match ["/foobar"]. *)
Lemma classify_track_first_matching_override :
  (forall (path repo_name : string) (cfg : RepoConfig) pre (prefix track : string) post,
     track_overrides cfg = (pre ++ (prefix, track) :: post)%list ->
     Forall (fun pt : string * string => override_matches path pt.1 = false) pre ->
     override_matches path prefix = true ->
     classify_track path repo_name cfg = track) /\
  (forall (prefix rest : string) (c : ascii),
     c <> "/"%char -> override_matches (prefix ++ String c rest) prefix = false).
Proof.
  split.
  - intros path repo_name cfg pre prefix track post Hcfg Hpre Hm.
    unfold classify_track. rewrite Hcfg. by rewrite (first_override_app _ _ _ _ _ Hpre Hm).
  - exact override_boundary.
Qed.

Lemma classify_track_first_matching_override_witness :
  classify_track "/a/b/c" "c" (cfg_with_overrides [("/a", "x"); ("/a/b", "y")]) = "x" /\
  override_matches "/foobar" "/foo" = false.
Proof.
  split.
  - apply (proj1 classify_track_first_matching_override "/a/b/c" "c"
             (cfg_with_overrides [("/a", "x"); ("/a/b", "y")]) [] "/a" "x" [("/a/b", "y")]).
    + reflexivity.
    + constructor.
    + reflexivity.
  - apply (proj2 classify_track_first_matching_override "/foo" "ar" "b"%char).
    discriminate.
Defined.

(** ** Scoring *)

(** C2: for a repository whose last-commit date parses, the score is the
    clamped sum [20 + recency + activity - hygiene - issues] with
    [days_since = max((now - last).days, 0)]; with the last commit 2 days
    ago, 15 commits in 30 days, no dirty file and no issue hit the result
    is score 83 and stage "Accelerating". *)
Theorem calc_progress_score_formula :
  forall (fromisoformat : string -> option DateTime) (now : Z) (rm : Metrics) (last : DateTime),
    parse_iso_date fromisoformat (lc_date (last_commit (m_status rm))) = Some last ->
    let days_since := Z.max (delta_days now last) 0 in
    let commits_30d := last_30d (m_commits rm) in
    let dirty_n := modified (dirty (m_status rm)) + untracked (dirty (m_status rm)) in
    let issues := total (m_issues rm) in
    (calc_progress fromisoformat now rm).1
      = Z.max 0 (Z.min 100 (20 + Z.max 0 (30 - Z.min days_since 30)
                             + Z.min (commits_30d * 3) 35 - Z.min (dirty_n * 2) 20
                             - Z.min (issues / 30) 10))
    /\ (delta_days now last = 2 -> commits_30d = 15 -> dirty_n = 0 -> issues = 0 ->
        calc_progress fromisoformat now rm = (83, "Accelerating")).
Proof.
  intros fromisoformat now rm last Hp days_since commits_30d dirty_n issues.
  unfold calc_progress. rewrite Hp. split; [reflexivity |].
  intros Hd Hc Hdirty Hi. subst days_since commits_30d dirty_n issues.
  rewrite Hd, Hc, Hdirty, Hi. reflexivity.
Qed.

Lemma calc_progress_score_formula_witness :
  calc_progress sample_fromisoformat sample_now_us sample_metrics = (83, "Accelerating").
Proof.
  apply (proj2 (calc_progress_score_formula sample_fromisoformat sample_now_us sample_metrics
                  {| dt_wall_us := 1714521600 * 1000000; dt_utcoffset_us := Some 0 |}
                  eq_refl)); vm_compute; reflexivity.
Defined.

(** C3: with everything else fixed, the score does not decrease when the
    30-day commit count grows, and does not increase when the dirty-file
    count ([modified + untracked]) or the issue total grows. *)
Theorem calc_progress_score_monotone :
  forall (fromisoformat : string -> option DateTime) (now : Z) (rm : Metrics),
    (forall c1 c2, c1 <= c2 ->
       (calc_progress fromisoformat now (with_commits_30 rm c1)).1
       <= (calc_progress fromisoformat now (with_commits_30 rm c2)).1) /\
    (forall md1 ut1 md2 ut2, md1 + ut1 <= md2 + ut2 ->
       (calc_progress fromisoformat now (with_dirty rm md2 ut2)).1
       <= (calc_progress fromisoformat now (with_dirty rm md1 ut1)).1) /\
    (forall n1 n2, n1 <= n2 ->
       (calc_progress fromisoformat now (with_issues_total rm n2)).1
       <= (calc_progress fromisoformat now (with_issues_total rm n1)).1).
Proof.
  intros fromisoformat now rm. unfold calc_progress; simpl.
  destruct (parse_iso_date fromisoformat (lc_date (last_commit (m_status rm)))) as [last |];
    simpl; [| split; [lia | split; lia]].
  split; [| split].
  - intros c1 c2 Hc. lia.
  - intros md1 ut1 md2 ut2 Hd. lia.
  - intros n1 n2 Hn. pose proof (Z.div_le_mono n1 n2 30 ltac:(lia) Hn). lia.
Qed.

Lemma calc_progress_score_monotone_witness :
  (calc_progress sample_fromisoformat sample_now_us (with_commits_30 sample_metrics 1)).1
  <= (calc_progress sample_fromisoformat sample_now_us (with_commits_30 sample_metrics 15)).1 /\
  (calc_progress sample_fromisoformat sample_now_us (with_dirty sample_metrics 3 4)).1
  <= (calc_progress sample_fromisoformat sample_now_us (with_dirty sample_metrics 1 0)).1 /\
  (calc_progress sample_fromisoformat sample_now_us (with_issues_total sample_metrics 90)).1
  <= (calc_progress sample_fromisoformat sample_now_us (with_issues_total sample_metrics 29)).1.
Proof.
  destruct (calc_progress_score_monotone sample_fromisoformat sample_now_us sample_metrics)
    as [Hc [Hd Hi]].
  split; [apply Hc; lia | split; [apply Hd; lia | apply Hi; lia]].
Defined.

(** ** The snapshot cache *)

Section CacheProofs.

Variable World : Type.
Variable scan_with_config : World -> RepoConfig -> option Dashboard.


(** After a call that returns a dashboard, that dashboard is the cached one. *)
Lemma load_dashboard_caches_result force now f w st d st' :
  load_dashboard World scan_with_config force now f w st = (Some d, st') -> cache_data st' = Some d.
Proof.
  unfold load_dashboard, scan_repositories, get_cache_ttl.
  destruct (load_config f) as [cfg |]; [| congruence].
  destruct (scan_with_config w cfg) as [data |] eqn:Hs;
    destruct (cache_data st) as [d0 |] eqn:Hc;
    try destruct (negb force && (now - cache_ts st <? cache_ttl_seconds cfg));
    intros H; inversion H; subst; simpl; congruence.
Qed.

(** A fresh-enough cached snapshot is served as it is. *)
Lemma load_dashboard_cache_hit now f w st d cfg :
  load_config f = Some cfg -> cache_data st = Some d ->
  now - cache_ts st < cache_ttl_seconds cfg ->
  load_dashboard World scan_with_config false now f w st = (Some d, st).
Proof.
  intros Hf Hc Hage. unfold load_dashboard, get_cache_ttl. rewrite Hf, Hc.
  simpl. by rewrite (proj2 (Z.ltb_lt _ _) Hage).
Qed.

End CacheProofs.

(** C4: when [load_dashboard(force=False)] is called twice and, at the
    second call, the configuration reads with a TTL above the age of the
    cached snapshot, the second call returns the dashboard the first call
    returned and leaves the cache state as the first call left it. *)
Theorem load_dashboard_twice_within_ttl :
  forall (World : Type) (scan_with_config : World -> RepoConfig -> option Dashboard)
         (now1 now2 : Z) (f1 f2 : ConfigFile) (w1 w2 : World)
         (st0 st1 : CacheState) (d1 : Dashboard) (cfg2 : RepoConfig),
    load_dashboard World scan_with_config false now1 f1 w1 st0 = (Some d1, st1) ->
    load_config f2 = Some cfg2 ->
    now2 - cache_ts st1 < cache_ttl_seconds cfg2 ->
    load_dashboard World scan_with_config false now2 f2 w2 st1 = (Some d1, st1).
Proof.
  intros World scan now1 now2 f1 f2 w1 w2 st0 st1 d1 cfg2 H1 Hf Hage.
  apply (load_dashboard_cache_hit World scan now2 f2 w2 st1 d1 cfg2 Hf); [| exact Hage].
  exact (load_dashboard_caches_result World scan false now1 f1 w1 st0 d1 st1 H1).
Qed.

Lemma load_dashboard_twice_within_ttl_witness :
  load_dashboard unit (fun _ cfg => Some (sample_dashboard cfg)) false 1050
    (CfgJson sample_raw_config) tt
    {| cache_data := Some (sample_dashboard (cfg_with_overrides [])); cache_ts := 1000 |}
  = (Some (sample_dashboard (cfg_with_overrides [])),
     {| cache_data := Some (sample_dashboard (cfg_with_overrides [])); cache_ts := 1000 |}).
Proof.
  apply (load_dashboard_twice_within_ttl unit (fun _ cfg => Some (sample_dashboard cfg))
           1000 1050 (CfgJson sample_raw_config) (CfgJson sample_raw_config) tt tt
           {| cache_data := None; cache_ts := 0 |}
           {| cache_data := Some (sample_dashboard (cfg_with_overrides [])); cache_ts := 1000 |}
           (sample_dashboard (cfg_with_overrides [])) (cfg_with_overrides [])).
  - vm_compute. reflexivity.
  - vm_compute. reflexivity.
  - vm_compute. reflexivity.
Defined.

(** C8: when the configuration document is missing or unparseable,
    [load_dashboard] raises (whatever [force] and the cache hold) and the
    cache state is unchanged; more generally no failing call changes it. *)
Theorem load_dashboard_config_error_keeps_cache :
  forall (World : Type) (scan_with_config : World -> RepoConfig -> option Dashboard)
         (force : bool) (now : Z) (f : ConfigFile) (w : World) (st : CacheState),
    (load_config f = None ->
     load_dashboard World scan_with_config force now f w st = (None, st)) /\
    ((load_dashboard World scan_with_config force now f w st).1 = None ->
     (load_dashboard World scan_with_config force now f w st).2 = st).
Proof.
  intros World scan force now f w st. split.
  - intros Hf. unfold load_dashboard, get_cache_ttl. by rewrite Hf.
  - unfold load_dashboard, scan_repositories, get_cache_ttl.
    destruct (load_config f) as [cfg |]; [| done].
    destruct (scan w cfg) as [data |]; destruct (cache_data st) as [d |];
      try destruct (negb force && (now - cache_ts st <? cache_ttl_seconds cfg));
      simpl; congruence.
Qed.

Lemma load_dashboard_config_error_keeps_cache_witness :
  load_dashboard unit (fun _ cfg => Some (sample_dashboard cfg)) false 1050 CfgMissing tt
    {| cache_data := Some (sample_dashboard (cfg_with_overrides [])); cache_ts := 1000 |}
  = (None,
     {| cache_data := Some (sample_dashboard (cfg_with_overrides [])); cache_ts := 1000 |}) /\
  (load_dashboard unit (fun _ _ => None) true 1050 CfgUnparseable tt
     {| cache_data := None; cache_ts := 0 |}).2 = {| cache_data := None; cache_ts := 0 |}.
Proof.
  split.
  - apply (proj1 (load_dashboard_config_error_keeps_cache unit
                    (fun _ cfg => Some (sample_dashboard cfg)) false 1050 CfgMissing tt
                    {| cache_data := Some (sample_dashboard (cfg_with_overrides []));
                       cache_ts := 1000 |})).
    reflexivity.
  - apply (proj2 (load_dashboard_config_error_keeps_cache unit (fun _ _ => None) true 1050
                    CfgUnparseable tt {| cache_data := None; cache_ts := 0 |})).
    reflexivity.
Defined.

(** ** Evidence search *)

Lemma search_loop_shape (q : string) (limit : Z) (pool acc : list PoolItem) :
  exists r, search_loop q limit pool acc = (acc ++ r)%list /\ r `sublist_of` pool /\
            Forall (fun item => PyStr.contains (hay item) q = true) r.
Proof.
  revert acc. induction pool as [| item rest IH]; intros acc; simpl.
  - exists []. rewrite app_nil_r. split; [done | split; [apply sublist_nil_l | constructor]].
  - destruct (PyStr.contains (hay item) q) eqn:Hm.
    + destruct (Z.of_nat (length (acc ++ [item])) >=? limit).
      * exists [item]. split; [done | split; [| by constructor]].
        apply sublist_skip, sublist_nil_l.
      * destruct (IH (acc ++ [item])%list) as (r & Hr & Hsub & Hall).
        exists (item :: r). rewrite Hr, <- app_assoc. split; [done |].
        split; [by apply sublist_skip | by constructor].
    + destruct (Z.of_nat (length acc) >=? limit).
      * exists []. rewrite app_nil_r. split; [done | split; [apply sublist_nil_l | constructor]].
      * destruct (IH acc) as (r & Hr & Hsub & Hall).
        exists r. split; [done | split; [by apply sublist_cons | done]].
Qed.

Lemma search_loop_length (q : string) (limit : Z) (pool acc : list PoolItem) :
  Z.of_nat (length acc) < limit ->
  Z.of_nat (length (search_loop q limit pool acc)) <= limit.
Proof.
  revert acc. induction pool as [| item rest IH]; intros acc Hacc; simpl; [lia |].
  destruct (PyStr.contains (hay item) q).
  - rewrite length_app. simpl.
    destruct (Z.of_nat (length acc + 1) >=? limit) eqn:Hb.
    + rewrite length_app. simpl. lia.
    + rewrite Z.geb_leb in Hb. apply Z.leb_gt in Hb.
      apply IH. rewrite length_app. simpl. lia.
  - destruct (Z.of_nat (length acc) >=? limit) eqn:Hb; [lia |]. by apply IH.
Qed.

(** C5 (refuted as stated): the query ["  "] (two spaces) is non-empty, yet
    the entry returned for it with limit 1 does not contain it. *)
Lemma search_key_issues_blank_query_counterexample :
  search_key_issues (sample_pool_dashboard [sample_item]) "  " 1 = [sample_item] /\
  PyStr.contains (hay sample_item) (PyStr.lower "  ") = false.
Proof. split; vm_compute; reflexivity. Qed.

(** C5 (as amended): let [q] be the query stripped of surrounding
    whitespace and lower-cased.  For a limit [N >= 1], an empty [q] yields
    exactly the first [N] pool entries (all of them if fewer); a non-empty
    [q] yields at most [N] entries, in pool order (a sublist of the pool),
    each of whose lower-cased ["repo title content track"] contains [q]. *)
Theorem search_key_issues_spec :
  forall (dashboard : Dashboard) (query : string) (N : Z),
    1 <= N ->
    let q := PyStr.lower (PyStr.strip query) in
    (q = "" -> search_key_issues dashboard query N = firstn (Z.to_nat N) (db_search_pool dashboard)) /\
    (q <> "" ->
     Z.of_nat (length (search_key_issues dashboard query N)) <= N /\
     search_key_issues dashboard query N `sublist_of` db_search_pool dashboard /\
     Forall (fun item => PyStr.contains (hay item) q = true) (search_key_issues dashboard query N)).
Proof.
  intros dashboard query N HN q. unfold search_key_issues. fold q. split.
  - intros Hq. rewrite Hq. simpl. unfold py_slice_to.
    by rewrite (proj2 (Z.leb_le 0 N) ltac:(lia)).
  - intros Hq. rewrite (proj2 (String.eqb_neq q "") Hq).
    pose proof (search_loop_length q N (db_search_pool dashboard) [] ltac:(simpl; lia)) as Hlen.
    destruct (search_loop_shape q N (db_search_pool dashboard) []) as (r & Hr & Hsub & Hall).
    rewrite Hr in Hlen |- *. simpl in *. done.
Qed.

Lemma search_key_issues_spec_witness :
  search_key_issues (sample_pool_dashboard [sample_item; sample_item]) "" 1 = [sample_item] /\
  Z.of_nat (length (search_key_issues (sample_pool_dashboard [sample_item; sample_item]) " FIX " 1))
  <= 1.
Proof.
  split.
  - apply (proj1 (search_key_issues_spec (sample_pool_dashboard [sample_item; sample_item]) "" 1
                    ltac:(lia))).
    reflexivity.
  - apply (proj2 (search_key_issues_spec (sample_pool_dashboard [sample_item; sample_item])
                    " FIX " 1 ltac:(lia))).
    vm_compute. discriminate.
Defined.

(** C10: with a non-empty pool, a query that is non-empty after stripping
    and a limit [<= 0], the search looks at the first pool entry only and
    returns it alone when it matches, [[]] otherwise; a whitespace-only
    query behaves exactly as the empty query, returning [pool[:limit]],
    which is the first [limit] entries when [limit >= 0]. *)
Theorem search_key_issues_nonpositive_limit :
  (forall (dashboard : Dashboard) (query : string) (limit : Z) (first : PoolItem) rest,
     db_search_pool dashboard = first :: rest ->
     PyStr.lower (PyStr.strip query) <> "" ->
     limit <= 0 ->
     search_key_issues dashboard query limit =
       if PyStr.contains (hay first) (PyStr.lower (PyStr.strip query)) then [first] else []) /\
  (forall (dashboard : Dashboard) (query : string) (limit : Z),
     PyStr.strip query = "" ->
     search_key_issues dashboard query limit = search_key_issues dashboard "" limit /\
     search_key_issues dashboard "" limit = py_slice_to (db_search_pool dashboard) limit /\
     (0 <= limit ->
      search_key_issues dashboard query limit = firstn (Z.to_nat limit) (db_search_pool dashboard))).
Proof.
  split.
  - intros dashboard query limit first rest Hpool Hq Hlim.
    unfold search_key_issues. rewrite (proj2 (String.eqb_neq _ "") Hq), Hpool. simpl.
    destruct (PyStr.contains (hay first) (PyStr.lower (PyStr.strip query))); simpl.
    all: match goal with |- context [?n >=? ?l] => destruct (n >=? l) eqn:E end;
      [done |].
    all: rewrite Z.geb_leb in E; apply Z.leb_gt in E; simpl in E; lia.
  - intros dashboard query limit Hs.
    unfold search_key_issues. rewrite Hs. simpl.
    split; [done | split; [done |]].
    intros Hl. unfold py_slice_to. by rewrite (proj2 (Z.leb_le 0 limit) Hl).
Qed.

Lemma search_key_issues_nonpositive_limit_witness :
  search_key_issues (sample_pool_dashboard [sample_item; sample_item]) "parser" 0 = [sample_item] /\
  search_key_issues (sample_pool_dashboard [sample_item; sample_item]) "   " 1 = [sample_item].
Proof.
  split.
  - apply (proj1 search_key_issues_nonpositive_limit
             (sample_pool_dashboard [sample_item; sample_item]) "parser" 0 sample_item
             [sample_item]).
    + reflexivity.
    + vm_compute. discriminate.
    + lia.
  - apply (proj2 search_key_issues_nonpositive_limit
             (sample_pool_dashboard [sample_item; sample_item]) "   " 1).
    + reflexivity.
    + lia.
Defined.

(** ** The weekly histogram *)

Lemma weekly_commit_counts_keys (strftime_GV : Z -> string) (now : Z) (git_stdout : string)
    (weeks : nat) (week : string) (n : Z) :
  weekly_commit_counts strftime_GV now git_stdout weeks !! week = Some n ->
  In week (week_labels_from strftime_GV now weeks).
Proof.
  unfold weekly_commit_counts.
  destruct (String.eqb (PyStr.strip git_stdout) "").
  - by rewrite lookup_empty.
  - intros H. apply map_lookup_filter_Some in H as [_ Hin]. cbn [fst] in Hin.
    apply elem_of_list_to_set in Hin. by apply list_elem_of_In.
Qed.

(** C6: whatever [git log] prints, every key of the [weekly_commits] map
    built with [weeks=12] is one of the 12 labels computed from [now],
    [now - 7 days], ..., [now - 77 days]. *)
Theorem weekly_commit_counts_keys_in_window :
  forall (strftime_GV : Z -> string) (now : Z) (git_stdout : string) (week : string) (n : Z),
    weekly_commit_counts strftime_GV now git_stdout 12 !! week = Some n ->
    In week (week_labels_from strftime_GV now 12).
Proof. intros strftime_GV now git_stdout week n. apply weekly_commit_counts_keys. Qed.

Example sample_week_counts :
  weekly_commit_counts sample_strftime_GV sample_week_now sample_week_log 12
  = {[ "2024-W20" := 2 ]}.
Proof. vm_compute. reflexivity. Qed.

Lemma weekly_commit_counts_keys_in_window_witness :
  In "2024-W20" (week_labels_from sample_strftime_GV sample_week_now 12).
Proof.
  apply (weekly_commit_counts_keys_in_window sample_strftime_GV sample_week_now
           sample_week_log "2024-W20" 2).
  vm_compute. reflexivity.
Defined.

(** ** Ordering of the repositories *)

Module Ordering.

(** Case analysis on the integer comparisons of a goal and its hypotheses. *)
Ltac zcompare :=
  repeat match goal with
         | |- context [?a <? ?b] => destruct (Z.ltb_spec a b)
         | |- context [?a =? ?b] => destruct (Z.eqb_spec a b)
         | H : context [?a <? ?b] |- _ => destruct (Z.ltb_spec a b)
         | H : context [?a =? ?b] |- _ => destruct (Z.eqb_spec a b)
         end; simpl in *; try lia; try congruence.

Lemma key_lt_asym (a b : Z * Z) : key_lt a b = true -> key_lt b a = false.
Proof. destruct a, b. unfold key_lt. zcompare. Qed.

Lemma asc_trans (x y z : TrackedRepo) : asc x y -> asc y z -> asc x z.
Proof.
  unfold asc. destruct (sort_key x), (sort_key y), (sort_key z). unfold key_lt. zcompare.
Qed.

Lemma insert_sorted_hd (z x : TrackedRepo) (ys : list TrackedRepo) :
  asc z x -> HdRel asc z ys -> HdRel asc z (insert_sorted x ys).
Proof.
  intros Hzx Hz. destruct ys as [| y ys']; simpl.
  - by constructor.
  - destruct (key_lt (sort_key y) (sort_key x)); constructor; [by inversion Hz | done].
Qed.

Lemma insert_sorted_sorted (x : TrackedRepo) (ys : list TrackedRepo) :
  Sorted asc ys -> Sorted asc (insert_sorted x ys).
Proof.
  induction ys as [| y ys' IH]; intros Hs; simpl.
  - by repeat constructor.
  - destruct (key_lt (sort_key y) (sort_key x)) eqn:Hyx.
    + apply Sorted_inv in Hs as [Hs' Hhd]. constructor; [by apply IH |].
      apply insert_sorted_hd; [| done]. unfold asc. by apply key_lt_asym.
    + constructor; [done |]. by constructor.
Qed.

Lemma stable_sort_sorted (l : list TrackedRepo) : Sorted asc (stable_sort l).
Proof. induction l; simpl; [constructor | by apply insert_sorted_sorted]. Qed.

Lemma insert_sorted_perm (x : TrackedRepo) (ys : list TrackedRepo) :
  Permutation (insert_sorted x ys) (x :: ys).
Proof.
  induction ys as [| y ys' IH]; simpl; [done |].
  destruct (key_lt (sort_key y) (sort_key x)); [| done].
  rewrite IH. constructor.
Qed.

Lemma stable_sort_perm (l : list TrackedRepo) : Permutation (stable_sort l) l.
Proof.
  induction l as [| x l IH]; simpl; [done |].
  rewrite insert_sorted_perm. by constructor.
Qed.

Lemma filter_insert_sorted (k : Z * Z) (x : TrackedRepo) (ys : list TrackedRepo) :
  List.filter (fun r => key_eqb (sort_key r) k) (insert_sorted x ys)
  = List.filter (fun r => key_eqb (sort_key r) k) (x :: ys).
Proof.
  induction ys as [| y ys' IH]; simpl; [done |].
  destruct (key_lt (sort_key y) (sort_key x)) eqn:Hyx; [| done].
  simpl. rewrite IH. simpl.
  destruct (key_eqb (sort_key x) k) eqn:Hx; [| by destruct (key_eqb (sort_key y) k)].
  destruct (key_eqb (sort_key y) k) eqn:Hy; [| done].
  exfalso. revert Hyx Hx Hy. unfold key_lt, key_eqb.
  destruct (sort_key x), (sort_key y), k. zcompare.
Qed.

Lemma filter_stable_sort (k : Z * Z) (l : list TrackedRepo) :
  List.filter (fun r => key_eqb (sort_key r) k) (stable_sort l)
  = List.filter (fun r => key_eqb (sort_key r) k) l.
Proof.
  induction l as [| x l IH]; simpl; [done |].
  rewrite filter_insert_sorted. simpl. by rewrite IH.
Qed.

Lemma strongly_sorted_snoc {A} (R : A -> A -> Prop) (l : list A) (a : A) :
  StronglySorted R l -> Forall (fun x => R x a) l -> StronglySorted R (l ++ [a])%list.
Proof.
  induction l as [| x l IH]; intros Hs Hf; simpl.
  - by repeat constructor.
  - apply StronglySorted_inv in Hs as [Hs Hx]. inversion Hf; subst.
    constructor; [by apply IH |].
    apply Forall_app. split; [done | by constructor].
Qed.

Lemma strongly_sorted_rev (l : list TrackedRepo) :
  StronglySorted asc l -> StronglySorted desc (rev l).
Proof.
  induction l as [| x l IH]; intros Hs; simpl; [constructor |].
  apply StronglySorted_inv in Hs as [Hs Hx].
  apply strongly_sorted_snoc; [by apply IH |].
  apply Forall_rev. exact Hx.
Qed.

Lemma strongly_sorted_before {A} (R : A -> A -> Prop) (l1 l2 : list A) (a b : A) :
  StronglySorted R (l1 ++ a :: l2)%list -> In b l1 -> R b a.
Proof.
  induction l1 as [| x l1 IH]; simpl; [done |].
  intros Hs [-> | Hin]; apply StronglySorted_inv in Hs as [Hs Hx].
  - rewrite List.Forall_forall in Hx. apply Hx, in_or_app. right. by left.
  - by apply IH.
Qed.

End Ordering.

(** C7: the [repos] list of the dashboard is sorted by descending
    [(score, last_30d)] (no entry has a smaller key than a later one); it
    is a permutation of the tracked list, built in discovery order; entries
    with equal keys keep their tracked-list order; and of two entries with
    the same score, the one with more 30-day commits comes first. *)
Theorem dashboard_repos_order :
  forall (collect_repo : string -> option TrackedRepo) (repos : list string),
    let res := dashboard_repos collect_repo repos in
    let tracked := collect_tracked collect_repo repos in
    StronglySorted (fun a b => key_lt (sort_key a) (sort_key b) = false) res /\
    Permutation res tracked /\
    (forall k : Z * Z,
       List.filter (fun r => key_eqb (sort_key r) k) res
       = List.filter (fun r => key_eqb (sort_key r) k) tracked) /\
    (forall a b : TrackedRepo,
       In a res -> In b res -> tr_score a = tr_score b ->
       last_30d (m_commits (tr_metrics b)) < last_30d (m_commits (tr_metrics a)) ->
       exists l1 l2, res = (l1 ++ a :: l2)%list /\ In b l2).
Proof.
  intros collect_repo repos res tracked.
  assert (Hss : StronglySorted desc res).
  { unfold res, dashboard_repos, sort_reverse.
    apply Ordering.strongly_sorted_rev, Sorted_StronglySorted;
      [intros x y z; apply Ordering.asc_trans | apply Ordering.stable_sort_sorted]. }
  split; [exact Hss |]. split; [| split].
  - unfold res, dashboard_repos, sort_reverse.
    rewrite <- Permutation_rev, Ordering.stable_sort_perm, <- Permutation_rev. done.
  - intros k. unfold res, dashboard_repos, sort_reverse.
    rewrite List.filter_rev, Ordering.filter_stable_sort, List.filter_rev, rev_involutive.
    done.
  - intros a b Ha Hb Hscore Hc.
    apply in_split in Ha as (l1 & l2 & Hres).
    exists l1, l2. split; [done |].
    assert (Hlt : key_lt (sort_key b) (sort_key a) = true).
    { unfold sort_key, key_lt. simpl. rewrite Hscore. Ordering.zcompare. }
    rewrite Hres in Hb. apply in_app_or in Hb as [Hb | [-> | Hb]]; [| lia | done].
    rewrite Hres in Hss.
    pose proof (Ordering.strongly_sorted_before _ _ _ _ _ Hss Hb) as Hba.
    unfold desc in Hba. congruence.
Qed.

Example sample_dashboard_repos :
  map (fun r => m_name (tr_metrics r))
      (dashboard_repos sample_collect ["/w/alpha"; "/w/beta"; "/w/gamma"])
  = ["gamma"; "alpha"].
Proof. reflexivity. Qed.

Lemma dashboard_repos_order_witness :
  exists l1 l2,
    dashboard_repos sample_collect ["/w/alpha"; "/w/beta"; "/w/gamma"]
    = (l1 ++ sample_tracked "gamma" 60 9 :: l2)%list /\ In (sample_tracked "alpha" 60 4) l2.
Proof.
  apply (proj2 (proj2 (proj2 (dashboard_repos_order sample_collect
                                ["/w/alpha"; "/w/beta"; "/w/gamma"])))).
  - simpl. left. reflexivity.
  - simpl. right. left. reflexivity.
  - reflexivity.
  - simpl. lia.
Defined.

(** ** External processes *)

(** C9: the action layer's [_run_cmd] always returns (a hanging child is cut
    off by its timeout and reported as code 1, a missing tool too), while
    the scanner's [run_cmd], which passes no timeout, never returns when the
    child hangs; it maps a missing tool to [(127, "")]. *)
Theorem scanner_run_cmd_unbounded_wait :
  (forall (timeout : Z) (b : ProcBehaviour), app_run_cmd timeout b <> Blocks) /\
  app_run_cmd 60 Hangs
    = Returns {| r_code := 1; r_stdout := ""; r_stderr := exn_message TimeoutExpired;
                 r_output := exn_message TimeoutExpired |} /\
  run_cmd ToolAbsent = Returns (127, "") /\
  run_cmd Hangs = Blocks.
Proof.
  split; [| split; [reflexivity | split; reflexivity]].
  intros timeout b. destruct b; simpl; discriminate.
Qed.

(* ================================================================== *)
(** * Further properties of the scanner and the action layer *)

(** ** Remote URLs *)

Module OwnerReProofs.
Import OwnerRe.

#[local] Arguments String.append : simpl nomatch.

Lemma string_length_app (x y : string) :
  String.length (x ++ y) = (String.length x + String.length y)%nat.
Proof. induction x; simpl; lia. Qed.

Lemma substring_full (s : string) : substring 0 (String.length s) s = s.
Proof. induction s; simpl; congruence. Qed.

Lemma substring_app_l (x y : string) : substring 0 (String.length x) (x ++ y) = x.
Proof. induction x; simpl; [by destruct y | congruence]. Qed.

Lemma substring_app_r (x y : string) :
  substring (String.length x) (String.length (x ++ y) - String.length x) (x ++ y) = y.
Proof.
  rewrite string_length_app. replace (String.length x + String.length y - String.length x)%nat
    with (String.length y) by lia.
  induction x; simpl; [apply substring_full | done].
Qed.

Lemma run_length_app (p : ascii -> bool) (x y : string) (c : ascii) :
  all_chars p x = true -> p c = false -> run_length p (x ++ String c y) = String.length x.
Proof.
  induction x as [| c' x IH]; simpl; [by intros _ -> |].
  intros [Hc' Hx]%andb_prop Hc. rewrite Hc'. by rewrite IH.
Qed.

Lemma run_length_le (p : ascii -> bool) (s : string) : (run_length p s <= String.length s)%nat.
Proof. induction s; simpl; [lia | destruct (p a); lia]. Qed.

Lemma all_chars_prefix (p : ascii -> bool) (s : string) (j : nat) :
  (j <= run_length p s)%nat -> all_chars p (substring 0 j s) = true.
Proof.
  revert j. induction s as [| c s IH]; intros j Hj; simpl in *.
  - by destruct j.
  - destruct j as [| j]; [done |]. destruct (p c) eqn:Hc; [| lia].
    simpl. rewrite Hc. apply IH. lia.
Qed.

Lemma substring_S_nonempty (s : string) (j : nat) :
  (S j <= String.length s)%nat -> substring 0 (S j) s <> EmptyString.
Proof. destruct s; simpl; [lia | discriminate]. Qed.

Lemma match_name_some (k : nat) (s name : string) :
  (k <= run_length not_slash_dot s)%nat -> match_name k s = Some name ->
  name <> EmptyString /\ all_chars not_slash_dot name = true.
Proof.
  induction k as [| k IH]; simpl; [discriminate |].
  intros Hk. destruct (match_tail _).
  - intros [= <-]. split.
    + apply substring_S_nonempty. pose proof (run_length_le not_slash_dot s). lia.
    + by apply all_chars_prefix.
  - apply IH. lia.
Qed.

Lemma match_owner_some (k : nat) (s o n : string) :
  (k <= run_length not_slash s)%nat -> match_owner k s = Some (o, n) ->
  o <> EmptyString /\ all_chars not_slash o = true /\
  n <> EmptyString /\ all_chars not_slash_dot n = true.
Proof.
  induction k as [| k IH]; simpl; [discriminate |].
  intros Hk. destruct (substring (S k) _ s) as [| c rest'].
  - apply IH. lia.
  - destruct (is_slash c); [| apply IH; lia].
    destruct (match_name _ rest') as [name |] eqn:Hn; [| apply IH; lia].
    intros [= <- <-].
    destruct (match_name_some _ _ _ (le_n _) Hn) as [Hne Hall].
    split; [| split; [| done]].
    + apply substring_S_nonempty. pose proof (run_length_le not_slash s). lia.
    + by apply all_chars_prefix.
Qed.

Lemma match_at_some (s o n : string) :
  match_at s = Some (o, n) ->
  o <> EmptyString /\ all_chars not_slash o = true /\
  n <> EmptyString /\ all_chars not_slash_dot n = true.
Proof.
  unfold match_at. destruct (String.prefix "github.com" s); [| discriminate].
  destruct (substring 10 _ s) as [| c rest]; [discriminate |].
  destruct (_ || _); [| discriminate].
  apply match_owner_some. lia.
Qed.

Lemma substring_app_l' (x y : string) (k : nat) :
  k = String.length x -> substring 0 k (x ++ y) = x.
Proof. intros ->. apply substring_app_l. Qed.

Lemma substring_app_r' (x y : string) (k : nat) :
  k = String.length x -> substring k (String.length (x ++ y) - k) (x ++ y) = y.
Proof. intros ->. apply substring_app_r. Qed.

Lemma prefix_app_self (x y : string) : String.prefix x (x ++ y) = true.
Proof. induction x as [| c x IH]; simpl; [by destruct y |]. by destruct (ascii_dec c c). Qed.

Lemma search_some (s o n : string) :
  search s = Some (o, n) ->
  o <> EmptyString /\ all_chars not_slash o = true /\
  n <> EmptyString /\ all_chars not_slash_dot n = true.
Proof.
  induction s as [| c s IH]; cbn [search];
    destruct (match_at _) as [r |] eqn:H; try (intros [= ->]; by eapply match_at_some); done.
Qed.

Lemma search_skip (c : ascii) (s : string) :
  match_at (String c s) = None -> search (String c s) = search s.
Proof. cbn [search]. by intros ->. Qed.

Lemma search_hit (s : string) r : match_at s = Some r -> search s = Some r.
Proof. destruct s; cbn [search]; by intros ->. Qed.

Lemma run_length_stop (p : ascii -> bool) (x tail : string) :
  all_chars p x = true ->
  match tail with EmptyString => true | String c _ => negb (p c) end = true ->
  run_length p (x ++ tail) = String.length x.
Proof.
  intros Hx Ht. induction x as [| c x IH]; simpl in *.
  - destruct tail as [| c t]; simpl; [done |]. by destruct (p c).
  - apply andb_prop in Hx as [Hc Hx]. rewrite Hc. by rewrite IH.
Qed.

(** The name group followed by [.git] or by the end of the string. *)
Lemma match_name_hit (n tail : string) :
  n <> EmptyString -> (tail = ".git" \/ tail = "") ->
  match_name (String.length n) (n ++ tail) = Some n.
Proof.
  intros Hn Ht. destruct n as [| c n']; [done |].
  change (String.length (String c n')) with (S (String.length n')).
  cbn [match_name].
  rewrite (substring_app_r' (String c n') tail (S (String.length n')) eq_refl).
  rewrite (substring_app_l' (String c n') tail (S (String.length n')) eq_refl).
  by destruct Ht as [-> | ->].
Qed.

Lemma match_owner_hit (o n tail : string) :
  o <> EmptyString -> all_chars not_slash o = true ->
  n <> EmptyString -> all_chars not_slash_dot n = true -> (tail = ".git" \/ tail = "") ->
  match_owner (String.length o) (o ++ String "/" (n ++ tail)) = Some (o, n).
Proof.
  intros Ho Hoc Hn Hnc Ht. destruct o as [| c o']; [done |].
  change (String.length (String c o')) with (S (String.length o')).
  cbn [match_owner].
  rewrite (substring_app_r' (String c o') _ (S (String.length o')) eq_refl).
  cbn [is_slash].
  rewrite (run_length_stop _ n tail Hnc) by (destruct Ht as [-> | ->]; reflexivity).
  rewrite (match_name_hit n tail Hn Ht).
  by rewrite (substring_app_l' (String c o') _ (S (String.length o')) eq_refl).
Qed.

Lemma match_at_hit (sep : ascii) (o n tail : string) :
  (sep = ":"%char \/ sep = "/"%char) ->
  o <> EmptyString -> all_chars not_slash o = true ->
  n <> EmptyString -> all_chars not_slash_dot n = true -> (tail = ".git" \/ tail = "") ->
  match_at ("github.com" ++ String sep (o ++ String "/" (n ++ tail))) = Some (o, n).
Proof.
  intros Hsep Ho Hoc Hn Hnc Ht. unfold match_at. rewrite prefix_app_self.
  rewrite (substring_app_r' "github.com" _ 10 eq_refl).
  assert (Hs : (Ascii.eqb sep ":" || Ascii.eqb sep "/")%char = true)
    by (destruct Hsep as [-> | ->]; reflexivity).
  cbv iota. rewrite Hs.
  rewrite (run_length_app _ o _ "/"%char Hoc eq_refl).
  by apply match_owner_hit.
Qed.

Lemma append_empty_r (s : string) : s ++ "" = s.
Proof. induction s; simpl; congruence. Qed.

Lemma search_app_github (pre : string) (sep : ascii) (o n tail : string) :
  (forall s, search (pre ++ s) = search s) ->
  (sep = ":"%char \/ sep = "/"%char) ->
  o <> EmptyString -> all_chars not_slash o = true ->
  n <> EmptyString -> all_chars not_slash_dot n = true -> (tail = ".git" \/ tail = "") ->
  search (pre ++ ("github.com" ++ String sep (o ++ String "/" (n ++ tail)))) = Some (o, n).
Proof.
  intros Hpre Hsep Ho Hoc Hn Hnc Ht. rewrite Hpre.
  apply search_hit. by apply match_at_hit.
Qed.

Lemma search_skip_ssh (s : string) : search ("git@" ++ s) = search s.
Proof.
  change ("git@" ++ s) with (String "g" (String "i" (String "t" (String "@" s)))).
  rewrite !search_skip by reflexivity. reflexivity.
Qed.

Lemma search_skip_https (s : string) : search ("https://" ++ s) = search s.
Proof.
  change ("https://" ++ s) with (String "h" (String "t" (String "t" (String "p"
    (String "s" (String ":" (String "/" (String "/" s)))))))).
  rewrite !search_skip by reflexivity. reflexivity.
Qed.

End OwnerReProofs.

(** Extra X1 ([parse_remote_owner_repo]): whenever the remote URL is parsed to
    [Some (owner, name)], the owner is a non-empty string without ['/'] and the
    name is a non-empty string without ['/'] and without ['.']; in particular a
    repository whose name contains a dot is never recognised. *)
Theorem parse_remote_owner_repo_result_shape (url owner name : string) :
  parse_remote_owner_repo url = Some (owner, name) ->
  owner <> EmptyString /\ all_chars OwnerRe.not_slash owner = true /\
  name <> EmptyString /\ all_chars OwnerRe.not_slash_dot name = true.
Proof. apply OwnerReProofs.search_some. Qed.

Lemma parse_remote_owner_repo_result_shape_witness :
  parse_remote_owner_repo "git@github.com:typhfeng/project_track.git" = Some ("typhfeng", "project_track") /\
  ("typhfeng" <> EmptyString /\ all_chars OwnerRe.not_slash "typhfeng" = true /\
   "project_track" <> EmptyString /\ all_chars OwnerRe.not_slash_dot "project_track" = true).
Proof.
  split; [vm_compute; reflexivity |].
  apply (parse_remote_owner_repo_result_shape "git@github.com:typhfeng/project_track.git").
  vm_compute; reflexivity.
Defined.

(** Extra X2 ([parse_remote_owner_repo]): for a non-empty owner without ['/'] and a
    non-empty name without ['/'] or ['.'], the SSH remote
    [git@github.com:owner/name.git] and the HTTPS remotes
    [https://github.com/owner/name.git] and [https://github.com/owner/name] are all
    parsed back to [(owner, name)]. *)
Theorem parse_remote_owner_repo_roundtrip (owner name : string) :
  owner <> EmptyString -> all_chars OwnerRe.not_slash owner = true ->
  name <> EmptyString -> all_chars OwnerRe.not_slash_dot name = true ->
  parse_remote_owner_repo ("git@github.com:" ++ owner ++ "/" ++ name ++ ".git") = Some (owner, name) /\
  parse_remote_owner_repo ("https://github.com/" ++ owner ++ "/" ++ name ++ ".git") = Some (owner, name) /\
  parse_remote_owner_repo ("https://github.com/" ++ owner ++ "/" ++ name) = Some (owner, name).
Proof.
  intros Ho Hoc Hn Hnc. unfold parse_remote_owner_repo.
  split; [| split].
  - change (OwnerRe.search ("git@" ++ ("github.com" ++
      String ":" (owner ++ String "/" (name ++ ".git")))) = Some (owner, name)).
    apply OwnerReProofs.search_app_github; auto using OwnerReProofs.search_skip_ssh.
  - change (OwnerRe.search ("https://" ++ ("github.com" ++
      String "/" (owner ++ String "/" (name ++ ".git")))) = Some (owner, name)).
    apply OwnerReProofs.search_app_github; auto using OwnerReProofs.search_skip_https.
  - rewrite <- (OwnerReProofs.append_empty_r name) at 1.
    change (OwnerRe.search ("https://" ++ ("github.com" ++
      String "/" (owner ++ String "/" (name ++ "")))) = Some (owner, name)).
    apply OwnerReProofs.search_app_github; auto using OwnerReProofs.search_skip_https.
Qed.

Lemma parse_remote_owner_repo_roundtrip_witness :
  parse_remote_owner_repo "git@github.com:typhfeng/project_track.git" = Some ("typhfeng", "project_track") /\
  parse_remote_owner_repo "https://github.com/typhfeng/project_track.git" = Some ("typhfeng", "project_track") /\
  parse_remote_owner_repo "https://github.com/typhfeng/project_track" = Some ("typhfeng", "project_track").
Proof.
  apply (parse_remote_owner_repo_roundtrip "typhfeng" "project_track");
    (discriminate || reflexivity).
Defined.

(** ** Scoring bounds *)

(** Extra X3 ([calc_progress]): when the dirty-file counts and the issue total
    are non-negative, as the scanner's counts are, the score lies between 0
    and 85: the upper clamp at 100 is never reached, since recency gives at
    most 30 points and activity at most 35 on top of the base 20. *)
Theorem calc_progress_score_range (fromisoformat : string -> option DateTime)
    (now : Z) (rm : Metrics) :
  0 <= modified (dirty (m_status rm)) -> 0 <= untracked (dirty (m_status rm)) ->
  0 <= total (m_issues rm) ->
  0 <= (calc_progress fromisoformat now rm).1 <= 85.
Proof.
  intros Hm Hu Hi. unfold calc_progress.
  destruct (parse_iso_date fromisoformat _) as [last |]; cbn [fst]; [| lia].
  pose proof (Z.div_pos (total (m_issues rm)) 30 Hi ltac:(lia)). lia.
Qed.

Lemma calc_progress_score_range_witness :
  0 <= (calc_progress sample_fromisoformat sample_now_us sample_metrics).1 <= 85.
Proof. apply calc_progress_score_range; vm_compute; discriminate. Defined.

(** Extra X4 ([calc_progress]): the stage is "Not Started" exactly when the
    last-commit date is empty or does not parse; a repository whose date
    parses always gets one of the five activity stages. *)
Theorem calc_progress_not_started_iff (fromisoformat : string -> option DateTime)
    (now : Z) (rm : Metrics) :
  (calc_progress fromisoformat now rm).2 = "Not Started" <->
  parse_iso_date fromisoformat (lc_date (last_commit (m_status rm))) = None.
Proof.
  unfold calc_progress.
  destruct (parse_iso_date fromisoformat _) as [last |]; cbn [snd]; [| done].
  split; [| discriminate].
  repeat match goal with |- context [if ?b then _ else _] => destruct b end; discriminate.
Qed.

(** ** Working-tree status *)

Module StatusProofs.

#[local] Arguments String.append : simpl nomatch.

Lemma rstrip_nonspace (c : ascii) (s : string) :
  PyStr.is_space c = false -> PyStr.rstrip (String c s) <> "".
Proof. simpl. intros Hc. destruct (PyStr.rstrip s); [rewrite Hc |]; discriminate. Qed.

Lemma strip_question (s : string) :
  PyStr.startswith s "??" = true -> String.eqb (PyStr.strip s) "" = false.
Proof.
  destruct s as [| c s]; [discriminate |]. unfold PyStr.startswith. cbn -[ascii_dec].
  destruct (ascii_dec "?" c) as [<- |]; [| discriminate]. intros _.
  unfold PyStr.strip. cbn -[PyStr.rstrip].
  apply String.eqb_neq, rstrip_nonspace. reflexivity.
Qed.

Lemma count_porcelain_go (lines : list string) (m u : Z) :
  fold_left
    (fun (acc : Z * Z) (line : string) =>
       if PyStr.startswith line "??" then (acc.1, acc.2 + 1)
       else if negb (String.eqb (PyStr.strip line) "") then (acc.1 + 1, acc.2)
       else acc) lines (m, u)
  = (m + Z.of_nat (length (List.filter (fun l => negb (String.eqb (PyStr.strip l) "")) lines))
       - Z.of_nat (length (List.filter (fun l => PyStr.startswith l "??") lines)),
     u + Z.of_nat (length (List.filter (fun l => PyStr.startswith l "??") lines))).
Proof.
  revert m u. induction lines as [| l ls IH]; intros m u; simpl; [f_equal; lia |].
  destruct (PyStr.startswith l "??") eqn:Hq.
  - rewrite (strip_question l Hq), IH. simpl. f_equal; lia.
  - destruct (String.eqb (PyStr.strip l) ""); simpl; rewrite IH; f_equal; lia.
Qed.

Lemma append_empty_r_status (s : string) : s ++ "" = s.
Proof. induction s; simpl; congruence. Qed.

Lemma append_assoc_status (x y z : string) : x ++ (y ++ z) = (x ++ y) ++ z.
Proof. induction x; simpl; congruence. Qed.

Lemma split_from_app (sep : ascii) (m : nat) (x y cur : string) :
  all_chars (fun c => negb (Ascii.eqb c sep)) x = true ->
  PySplit.split_from sep (S m) (x ++ String sep y) cur = (cur ++ x) :: PySplit.split_from sep m y "".
Proof.
  revert cur. induction x as [| c x IH]; intros cur Hx; simpl.
  - rewrite Ascii.eqb_refl. by rewrite append_empty_r_status.
  - simpl in Hx. apply andb_prop in Hx as [Hc Hx].
    destruct (Ascii.eqb c sep) eqn:E; [discriminate |].
    rewrite IH by done. by rewrite <- append_assoc_status.
Qed.

Lemma split_from_zero (sep : ascii) (y cur : string) :
  PySplit.split_from sep 0 y cur = [cur ++ y].
Proof. by destruct y. Qed.

Lemma split_from_length (sep : ascii) (m : nat) (s cur : string) :
  length (PySplit.split_from sep m s cur)
  = S (Nat.min m (length (List.filter (fun c => Ascii.eqb c sep) (list_ascii_of_string s)))).
Proof.
  revert m cur. induction s as [| c s IH]; intros m cur; destruct m as [| m]; simpl; try lia.
  destruct (Ascii.eqb c sep); simpl; rewrite IH; [reflexivity |].
  destruct (length (List.filter _ (list_ascii_of_string s))); simpl; lia.
Qed.

End StatusProofs.

(** Extra X5 ([get_repo_status]): over the lines of the stripped output of
    [git status --porcelain], the untracked count is the number of lines
    starting with "??" and [modified + untracked] is the number of lines that
    are not blank. *)
Theorem get_repo_status_dirty_counts (out_branch out_status_sb out_last out_porcelain : string) :
  let lines := PyLines.splitlines (PyStr.strip out_porcelain) in
  let st := get_repo_status out_branch out_status_sb out_last out_porcelain in
  untracked (dirty st) = Z.of_nat (length (List.filter (fun l => PyStr.startswith l "??") lines)) /\
  modified (dirty st) + untracked (dirty st)
    = Z.of_nat (length (List.filter (fun l => negb (String.eqb (PyStr.strip l) "")) lines)).
Proof.
  cbv zeta. unfold get_repo_status. cbn [dirty modified untracked].
  destruct (String.eqb (PyStr.strip out_porcelain) "") eqn:He.
  - apply String.eqb_eq in He. rewrite He. simpl. lia.
  - unfold count_porcelain. rewrite StatusProofs.count_porcelain_go. simpl. lia.
Qed.

(** Extra X6 ([get_repo_status]): when the stripped output of
    [git log -1 --pretty=format:%ad|%h|%s] is [date|hash|subject] with no
    ['|'] in the date and the hash, the last-commit record holds exactly these
    three parts; the subject keeps any ['|'] it contains. *)
Theorem get_repo_status_last_commit_roundtrip
    (out_branch out_status_sb out_last out_porcelain d h subj : string) :
  all_chars (fun c => negb (Ascii.eqb c "|")) d = true ->
  all_chars (fun c => negb (Ascii.eqb c "|")) h = true ->
  PyStr.strip out_last = d ++ "|" ++ h ++ "|" ++ subj ->
  last_commit (get_repo_status out_branch out_status_sb out_last out_porcelain)
  = {| lc_date := d; lc_hash := h; lc_subject := subj |}.
Proof.
  intros Hd Hh Hl. unfold get_repo_status, parse_last_commit. cbn [last_commit]. rewrite Hl.
  replace (String.eqb (d ++ "|" ++ h ++ "|" ++ subj) "") with false
    by (symmetry; apply String.eqb_neq; destruct d; discriminate).
  unfold PySplit.split.
  change ("|" ++ h ++ "|" ++ subj) with (String "|" (h ++ String "|" subj)).
  rewrite (StatusProofs.split_from_app _ 1 d _ "" Hd).
  rewrite (StatusProofs.split_from_app _ 0 h _ "" Hh).
  rewrite StatusProofs.split_from_zero. reflexivity.
Qed.

Lemma get_repo_status_last_commit_roundtrip_witness :
  last_commit (get_repo_status "main" "## main" "2024-05-01 10:00:00 +0000|abc1234|fix: a|b" "")
  = {| lc_date := "2024-05-01 10:00:00 +0000"; lc_hash := "abc1234"; lc_subject := "fix: a|b" |}.
Proof.
  apply get_repo_status_last_commit_roundtrip; vm_compute; reflexivity.
Defined.

(** Extra X7 ([get_repo_status] feeding [calc_progress] in
    [scan_repositories]): when the stripped last-commit output contains at
    most one ['|'], as for a repository without commits, where it is empty,
    the repository is scored [(0, "Not Started")], whatever the date
    parser. *)
Theorem calc_progress_without_last_commit (fromisoformat : string -> option DateTime)
    (now : Z) (rm : Metrics) (out_branch out_status_sb out_last out_porcelain : string) :
  m_status rm = get_repo_status out_branch out_status_sb out_last out_porcelain ->
  (length (List.filter (fun c => Ascii.eqb c "|") (list_ascii_of_string (PyStr.strip out_last)))
     <= 1)%nat ->
  calc_progress fromisoformat now rm = (0, "Not Started").
Proof.
  intros Hst Hn. unfold calc_progress. rewrite Hst.
  unfold get_repo_status, parse_last_commit. cbn [last_commit].
  destruct (String.eqb (PyStr.strip out_last) "") eqn:He; [reflexivity |].
  pose proof (StatusProofs.split_from_length "|" 2 (PyStr.strip out_last) "") as Hlen.
  unfold PySplit.split.
  destruct (PySplit.split_from "|" 2 (PyStr.strip out_last) "") as [| a [| b [| c [| e l]]]];
    try reflexivity; cbn [length] in Hlen; lia.
Qed.

Lemma calc_progress_without_last_commit_witness :
  calc_progress sample_fromisoformat sample_now_us
    {| m_id := m_id sample_metrics; m_name := m_name sample_metrics;
       m_path := m_path sample_metrics; m_remote := m_remote sample_metrics;
       m_track := m_track sample_metrics;
       m_status := get_repo_status "main" "## main" "" "";
       m_commits := m_commits sample_metrics;
       m_weekly_commits := m_weekly_commits sample_metrics;
       m_issues := m_issues sample_metrics;
       m_commit_alerts := m_commit_alerts sample_metrics |}
  = (0, "Not Started").
Proof.
  eapply (calc_progress_without_last_commit _ _ _ "main" "## main" "" "");
    [reflexivity | vm_compute; lia].
Defined.

Module AheadProofs.
Import StatusRe.

#[local] Arguments String.append : simpl nomatch.

Lemma append_assoc (x y z : string) : x ++ (y ++ z) = (x ++ y) ++ z.
Proof. induction x; simpl; congruence. Qed.

Lemma pretty_N_go_app (x : N) (s : string) : pretty_N_go x s = pretty_N_go x "" ++ s.
Proof.
  revert s. induction (N.lt_wf_0 x) as [x _ IH]; intros s.
  destruct (decide (x = 0%N)) as [-> |]; [by rewrite !pretty_N_go_0 |].
  rewrite !(pretty_N_go_step x) by lia.
  assert (Hlt : (x `div` 10 < x)%N) by (apply N.div_lt; lia).
  rewrite (IH _ Hlt (String _ s)), (IH _ Hlt (String _ "")).

  by rewrite <- append_assoc.
Qed.

Lemma is_digit_pretty_N_char (d : N) : is_digit (pretty_N_char d) = true.
Proof. unfold pretty_N_char. repeat case_match; reflexivity. Qed.

Lemma value_pretty_N_char (d : N) :
  (d < 10)%N -> Z.of_nat (nat_of_ascii (pretty_N_char d)) - 48 = Z.of_N d.
Proof.
  intros Hd.
  assert (d = 0 \/ d = 1 \/ d = 2 \/ d = 3 \/ d = 4 \/ d = 5 \/ d = 6 \/ d = 7 \/ d = 8 \/ d = 9)%N
    as H by lia.
  repeat destruct H as [-> | H]; try reflexivity. subst d. reflexivity.
Qed.

Lemma all_digits_pretty_N_go (x : N) : all_chars is_digit (pretty_N_go x "") = true.
Proof.
  induction (N.lt_wf_0 x) as [x _ IH].
  destruct (decide (x = 0%N)) as [-> |]; [by rewrite pretty_N_go_0 |].
  rewrite pretty_N_go_step, pretty_N_go_app by lia.
  assert (Hall : forall p q, all_chars is_digit p = true -> all_chars is_digit q = true ->
                             all_chars is_digit (p ++ q) = true).
  { induction p as [| c p IHp]; simpl; [done |].
    intros q [Hc Hp]%andb_prop Hq. rewrite Hc. by apply IHp. }
  apply Hall; [apply IH; apply N.div_lt; lia |].
  simpl. by rewrite is_digit_pretty_N_char.
Qed.

Lemma digits_value_app (acc : Z) (x y : string) :
  all_chars is_digit x = true -> digits_value acc (x ++ y) = digits_value (digits_value acc x) y.
Proof.
  revert acc. induction x as [| c x IH]; intros acc; simpl; [done |].
  intros [Hc Hx]%andb_prop. rewrite Hc. by apply IH.
Qed.

Lemma digits_value_pretty_N_go (x : N) : digits_value 0 (pretty_N_go x "") = Z.of_N x.
Proof.
  induction (N.lt_wf_0 x) as [x _ IH].
  destruct (decide (x = 0%N)) as [-> |]; [by rewrite pretty_N_go_0 |].
  rewrite pretty_N_go_step, pretty_N_go_app by lia.
  rewrite digits_value_app by apply all_digits_pretty_N_go.
  rewrite IH by (apply N.div_lt; lia). simpl.
  rewrite is_digit_pretty_N_char, value_pretty_N_char by (apply N.mod_lt; lia).
  pose proof (N.div_mod x 10 ltac:(lia)). lia.
Qed.

(** [pretty n] is a non-empty run of digits with value [n]. *)
Lemma pretty_N_shape (n : N) :
  exists c rest, pretty n = String c rest /\ is_digit c = true /\
                 all_chars is_digit (pretty n) = true /\ digits_value 0 (pretty n) = Z.of_N n.
Proof.
  unfold pretty, pretty_N. destruct (decide (n = 0%N)) as [-> | Hn].
  - by exists "0"%char, "".
  - rewrite pretty_N_go_step, pretty_N_go_app by lia.
    pose proof (all_digits_pretty_N_go n) as Hall.
    pose proof (digits_value_pretty_N_go n) as Hval.
    rewrite pretty_N_go_step, pretty_N_go_app in Hall, Hval by lia.
    destruct (pretty_N_go (n `div` 10) "") as [| c rest].
    + exists (pretty_N_char (n `mod` 10)), "".
      split; [done |]. split; [apply is_digit_pretty_N_char | done].
    + exists c, (rest ++ String (pretty_N_char (n `mod` 10)) "").
      split; [done |]. split; [| done].
      cbn [all_chars String.append] in Hall. by apply andb_prop in Hall as [-> _].
Qed.

(** A run of digits followed by a non-digit is read as its value. *)
Lemma digits_value_pretty_stop (n : N) (c : ascii) (r : string) :
  is_digit c = false -> digits_value 0 (pretty n ++ String c r) = Z.of_N n.
Proof.
  intros Hc. destruct (pretty_N_shape n) as (c0 & rest & _ & _ & Hall & Hval).
  rewrite digits_value_app by done. rewrite Hval. simpl. by rewrite Hc.
Qed.

Lemma match_num_at_hit (word : string) (n : N) (c : ascii) (r : string) :
  is_digit c = false ->
  match_num_at word (word ++ (pretty n ++ String c r)) = Some (Z.of_N n).
Proof.
  intros Hc. unfold match_num_at. rewrite OwnerReProofs.prefix_app_self.
  rewrite (OwnerReProofs.substring_app_r' word _ _ eq_refl).
  destruct (pretty_N_shape n) as (c0 & rest & Hp & Hc0 & _ & _).
  pose proof (digits_value_pretty_stop n c r Hc) as Hv.
  rewrite Hp in Hv |- *.
  change (String c0 rest ++ String c r) with (String c0 (rest ++ String c r)) in Hv |- *.
  cbv beta iota. by rewrite Hc0, Hv.
Qed.

Lemma prefix_space (w1 w2 t r : string) :
  no_space w1 = true -> no_space t = true ->
  String.prefix (w1 ++ String " " w2) (t ++ String " " r) = true ->
  t = w1 /\ String.prefix w2 r = true.
Proof.
  revert t. induction w1 as [| a w1 IH]; intros t Hw Ht; destruct t as [| c t];
    cbn -[ascii_dec PyStr.is_space] in *.
  - destruct (ascii_dec " " " "); [done | discriminate].
  - apply andb_prop in Ht as [Hc _].
    destruct (ascii_dec " " c) as [<- |]; [discriminate | done].
  - apply andb_prop in Hw as [Ha _].
    destruct (ascii_dec a " ") as [-> |]; [discriminate | done].
  - apply andb_prop in Hw as [_ Hw]. apply andb_prop in Ht as [_ Ht].
    destruct (ascii_dec a c) as [<- |]; [| done].
    intros H. destruct (IH t Hw Ht H) as [-> ?]. done.
Qed.

(** A word ending in a space never matches across a space-free run followed
    by a space and a non-digit. *)
Lemma match_num_at_no_space (w1 t : string) (c : ascii) (r : string) :
  no_space w1 = true -> no_space t = true -> is_digit c = false ->
  match_num_at (w1 ++ " ") (t ++ String " " (String c r)) = None.
Proof.
  intros Hw Ht Hc. unfold match_num_at.
  destruct (String.prefix (w1 ++ " ") _) eqn:Hp; [| done].
  destruct (prefix_space w1 "" t (String c r) Hw Ht Hp) as [-> _].
  replace (w1 ++ String " " (String c r)) with ((w1 ++ " ") ++ String c r)
    by (rewrite <- append_assoc; reflexivity).
  rewrite (OwnerReProofs.substring_app_r' (w1 ++ " ") _ _ eq_refl). simpl. by rewrite Hc.
Qed.

Lemma search_num_skip_word (w1 t : string) (c : ascii) (r : string) :
  no_space w1 = true -> no_space t = true -> is_digit c = false ->
  search_num (w1 ++ " ") (t ++ String " " (String c r))
  = search_num (w1 ++ " ") (String " " (String c r)).
Proof.
  intros Hw. induction t as [| c' t IH]; intros Ht Hc; [done |].
  assert (H0 := match_num_at_no_space w1 (String c' t) c r Hw Ht Hc).
  change (String c' t ++ String " " (String c r))
    with (String c' (t ++ String " " (String c r))) in H0 |- *.
  cbn [search_num]. rewrite H0.
  simpl in Ht. apply andb_prop in Ht as [_ Ht]. by apply IH.
Qed.

Lemma search_num_cons (w : string) (c : ascii) (s : string) :
  match_num_at w (String c s) = None -> search_num w (String c s) = search_num w s.
Proof. cbn [search_num]. by intros ->. Qed.

Lemma search_num_hit (w s : string) (v : Z) :
  match_num_at w s = Some v -> search_num w s = Some v.
Proof. destruct s; cbn [search_num]; by intros ->. Qed.

(** Positions whose character differs from the first one of the word are
    skipped. *)
Lemma search_num_skip_chars (w : ascii) (w' x s : string) :
  all_chars (fun c => negb (Ascii.eqb c w)) x = true ->
  search_num (String w w') (x ++ s) = search_num (String w w') s.
Proof.
  induction x as [| c x IH]; [done |]. simpl. intros [Hc Hx]%andb_prop.
  unfold match_num_at at 1. cbn -[ascii_dec search_num].
  destruct (ascii_dec w c) as [-> |]; [by rewrite Ascii.eqb_refl in Hc |]. by apply IH.
Qed.

Lemma digit_not_b (c : ascii) : is_digit c = true -> negb (Ascii.eqb c "b") = true.
Proof. destruct c as [[] [] [] [] [] [] [] []]; intros H; (reflexivity || discriminate). Qed.

End AheadProofs.

Module FirstLineProofs.

#[local] Arguments String.append : simpl nomatch.

Lemma all_chars_app (p : ascii -> bool) (x y : string) :
  all_chars p (x ++ y) = all_chars p x && all_chars p y.
Proof. induction x as [| c x IH]; simpl; [done |]. rewrite IH. by destruct (p c). Qed.

Lemma all_chars_impl (p q : ascii -> bool) (s : string) :
  (forall c, p c = true -> q c = true) -> all_chars p s = true -> all_chars q s = true.
Proof.
  intros Hpq. induction s as [| c s IH]; simpl; [done |].
  intros [Hc Hs]%andb_prop. rewrite (Hpq c Hc). by apply IH.
Qed.

Lemma append_empty_r_fl (s : string) : s ++ "" = s.
Proof. induction s; simpl; congruence. Qed.

Lemma append_assoc_fl (x y z : string) : x ++ (y ++ z) = (x ++ y) ++ z.
Proof. induction x; simpl; congruence. Qed.

Lemma rstrip_app (x y : string) :
  PyStr.rstrip (x ++ y)
  = match PyStr.rstrip y with EmptyString => PyStr.rstrip x | r => x ++ r end.
Proof.
  induction x as [| c x IH]; simpl.
  - by destruct (PyStr.rstrip y).
  - rewrite IH. destruct (PyStr.rstrip y) as [| c' r]; [done |].
    by destruct x.
Qed.

Lemma rstrip_app_keep (x y : string) :
  PyStr.rstrip y = y -> y <> "" -> PyStr.rstrip (x ++ y) = x ++ y.
Proof. intros Hy Hne. rewrite rstrip_app, Hy. by destruct y. Qed.

Lemma rstrip_keep_ne (x y : string) :
  PyStr.rstrip y = y /\ y <> "" -> PyStr.rstrip (x ++ y) = x ++ y /\ x ++ y <> "".
Proof.
  intros [Hy Hne]. split; [by apply rstrip_app_keep |].
  destruct x; [done | discriminate].
Qed.

Lemma no_break_of_no_space (c : ascii) : negb (PyStr.is_space c) = true -> no_break c = true.
Proof. destruct c as [[] [] [] [] [] [] [] []]; intros H; (reflexivity || discriminate). Qed.

Lemma no_break_of_digit (c : ascii) : StatusRe.is_digit c = true -> no_break c = true.
Proof. destruct c as [[] [] [] [] [] [] [] []]; intros H; (reflexivity || discriminate). Qed.

Lemma splitlines_from_app (x s cur : string) :
  all_chars no_break x = true ->
  PyLines.splitlines_from (x ++ s) cur = PyLines.splitlines_from s (cur ++ x).
Proof.
  revert cur. induction x as [| c x IH]; intros cur Hx; simpl.
  - by rewrite append_empty_r_fl.
  - apply andb_prop in Hx as [Hc Hx]. unfold no_break in Hc.
    apply negb_true_iff, orb_false_iff in Hc as [Hcr Hlb]. rewrite Hcr, Hlb.
    rewrite IH by done. by rewrite <- append_assoc_fl.
Qed.

(** The first line of [git status -sb] output: a line starting and ending
    with a non-space and free of line boundaries, followed by LF and the
    file lines, is the first element of [splitlines(strip(out))]. *)
Lemma first_line_strip (line files : string) (c0 : ascii) (rest0 : string) :
  all_chars no_break line = true -> line = String c0 rest0 -> PyStr.is_space c0 = false ->
  PyStr.rstrip line = line ->
  String.eqb (PyStr.strip (line ++ String "010" files)) "" = false /\
  hd "" (PyLines.splitlines (PyStr.strip (line ++ String "010" files))) = line.
Proof.
  intros Hnb Hl Hc0 Hr.
  assert (Hls : PyStr.lstrip (line ++ String "010" files) = line ++ String "010" files)
    by (rewrite Hl; simpl; by rewrite Hc0).
  unfold PyStr.strip. rewrite Hls, rstrip_app.
  destruct (PyStr.rstrip files) as [| c r] eqn:Ef.
  - assert (E : PyStr.rstrip (String "010" files) = "") by (simpl; by rewrite Ef).
    rewrite E, Hr. split; [by rewrite Hl |].
    unfold PyLines.splitlines. rewrite <- (append_empty_r_fl line) at 1.
    rewrite splitlines_from_app by done. simpl. by rewrite Hl.
  - assert (E : PyStr.rstrip (String "010" files) = String "010" (String c r))
      by (simpl; by rewrite Ef).
    rewrite E. split; [by rewrite Hl |].
    unfold PyLines.splitlines. rewrite splitlines_from_app by done. reflexivity.
Qed.

End FirstLineProofs.

Ltac skip_pos := etransitivity; [apply AheadProofs.search_num_cons; reflexivity |].

(** Extra X8 ([get_repo_status]): when the first line of [git status -sb] is
    [## <branch> [ahead <n>, behind <m>]] with a branch text free of white
    space, followed by a newline and the file lines, the status records
    [ahead = n] and [behind = m]. *)
Theorem get_repo_status_ahead_behind (out_branch out_last out_porcelain b files : string)
    (n m : N) :
  all_chars (fun c => negb (PyStr.is_space c)) b = true ->
  let line := "## " ++ b ++ " [ahead " ++ pretty n ++ ", behind " ++ pretty m ++ "]" in
  let st := get_repo_status out_branch (line ++ String "010" files) out_last out_porcelain in
  ahead st = Z.of_N n /\ behind st = Z.of_N m.
Proof.
  intros Hb line st.
  destruct (AheadProofs.pretty_N_shape n) as (cn & rn & Hpn & _ & Hdn & _).
  destruct (AheadProofs.pretty_N_shape m) as (cm & rm & Hpm & _ & Hdm & _).
  assert (Hnb : all_chars no_break line = true).
  { unfold line. rewrite !FirstLineProofs.all_chars_app.
    rewrite (FirstLineProofs.all_chars_impl _ _ b FirstLineProofs.no_break_of_no_space Hb).
    rewrite (FirstLineProofs.all_chars_impl _ _ _ FirstLineProofs.no_break_of_digit Hdn).
    rewrite (FirstLineProofs.all_chars_impl _ _ _ FirstLineProofs.no_break_of_digit Hdm).
    reflexivity. }
  assert (Hr : PyStr.rstrip line = line /\ line <> "").
  { unfold line. repeat apply FirstLineProofs.rstrip_keep_ne.
    split; [reflexivity | discriminate]. }
  destruct (FirstLineProofs.first_line_strip line files "#" _ Hnb eq_refl eq_refl (proj1 Hr))
    as [He Hh].
  assert (Ha : StatusRe.search_num "ahead " line = Some (Z.of_N n)).
  { unfold line.
    rewrite (AheadProofs.search_num_skip_chars "a" "head " "## " _ eq_refl).
    etransitivity; [apply (AheadProofs.search_num_skip_word "ahead" b "["); done |].
    skip_pos. skip_pos.
    apply AheadProofs.search_num_hit.
    exact (AheadProofs.match_num_at_hit "ahead " n "," (" behind " ++ pretty m ++ "]") eq_refl). }
  assert (Hbh : StatusRe.search_num "behind " line = Some (Z.of_N m)).
  { unfold line.
    rewrite (AheadProofs.search_num_skip_chars "b" "ehind " "## " _ eq_refl).
    etransitivity; [apply (AheadProofs.search_num_skip_word "behind" b "["); done |].
    change ("behind" ++ " ") with "behind ".
    skip_pos. skip_pos.
    etransitivity; [apply (AheadProofs.search_num_skip_chars "b" "ehind " "ahead "); reflexivity |].
    etransitivity; [apply (AheadProofs.search_num_skip_chars "b" "ehind " (pretty n));
      exact (FirstLineProofs.all_chars_impl _ _ _ AheadProofs.digit_not_b Hdn) |].
    skip_pos. skip_pos.
    apply AheadProofs.search_num_hit.
    exact (AheadProofs.match_num_at_hit "behind " m "]" "" eq_refl). }
  unfold st, get_repo_status. cbn [ahead behind]. rewrite He. cbv iota. rewrite Hh.
  by rewrite Ha, Hbh.
Qed.

Lemma get_repo_status_ahead_behind_witness :
  let st := get_repo_status "main"
              ("## main...origin/main [ahead 3, behind 12]" ++ String "010" " M src/app.py")
              "" "" in
  ahead st = 3 /\ behind st = 12.
Proof.
  exact (get_repo_status_ahead_behind "main" "" "" "main...origin/main" " M src/app.py" 3 12
           eq_refl).
Defined.

Module DiscoverProofs.

Section S.
Variable is_git_dir : string -> bool.
Variable find_stdout : string -> Z -> string.
Variable path_parent : string -> string.

Lemma included_repos_go (l : list string) (acc : gset string) (r : string) :
  r ∈ fold_left (fun (acc : gset string) (repo : string) =>
                   if is_git_dir repo then {[repo]} ∪ acc else acc) l acc
  <-> r ∈ acc \/ (In r l /\ is_git_dir r = true).
Proof.
  revert acc. induction l as [| x l IH]; intros acc; simpl.
  - naive_solver.
  - rewrite IH. destruct (is_git_dir x) eqn:Hx;
      [rewrite elem_of_union, elem_of_singleton |]; split.
    + intros [[-> | H] | [H1 H2]]; auto.
    + intros [H | [[-> | H1] H2]]; auto.
    + intros [H | [H1 H2]]; auto.
    + intros [H | [[-> | H1] H2]]; auto. congruence.
Qed.

Lemma parents_go (lines : list string) (acc : gset string) (r : string) :
  r ∈ fold_left (fun (acc : gset string) (line : string) => {[path_parent line]} ∪ acc) lines acc
  <-> r ∈ acc \/ exists line, In line lines /\ path_parent line = r.
Proof.
  revert acc. induction lines as [| x l IH]; intros acc; simpl.
  - naive_solver.
  - rewrite IH, elem_of_union, elem_of_singleton. split.
    + intros [[-> | H] | (line & H1 & H2)]; eauto.
    + intros [H | (line & [-> | H1] & H2)]; eauto.
Qed.

Lemma found_repos_go (cfg : RepoConfig) (roots : list string) (acc : gset string) (r : string) :
  r ∈ fold_left (fun (acc : gset string) (root : string) =>
                   let out := PyStr.strip (find_stdout root (max_repo_depth cfg)) in
                   if String.eqb out "" then acc
                   else fold_left (fun (acc : gset string) (line : string) =>
                                     {[path_parent line]} ∪ acc)
                          (PyLines.splitlines out) acc) roots acc
  <-> r ∈ acc \/
      exists root line, In root roots /\
        In line (PyLines.splitlines (PyStr.strip (find_stdout root (max_repo_depth cfg)))) /\
        path_parent line = r.
Proof.
  revert acc. induction roots as [| x l IH]; intros acc; cbn [fold_left In].
  - naive_solver.
  - rewrite IH. destruct (String.eqb_spec (PyStr.strip (find_stdout x (max_repo_depth cfg))) "")
      as [He | Hne]; cbv zeta.
    + split.
      * intros [H | (root & line & H1 & H2 & H3)]; eauto 10.
      * intros [H | (root & line & [-> | H1] & H2 & H3)]; [eauto | rewrite He in H2; destruct H2 | eauto 10].
    + rewrite parents_go. split.
      * intros [[H | (line & H1 & H2)] | (root & line & H1 & H2 & H3)]; eauto 10.
      * intros [H | (root & line & [-> | H1] & H2 & H3)]; eauto 10.
Qed.

Lemma strongly_sorted_filter {A} (R : A -> A -> Prop) (p : A -> bool) (l : list A) :
  StronglySorted R l -> StronglySorted R (List.filter p l).
Proof.
  induction l as [| x l IH]; intros Hs; simpl; [constructor |].
  apply StronglySorted_inv in Hs as [Hs Hx].
  destruct (p x); [| by apply IH].
  constructor; [by apply IH |].
  apply List.Forall_forall. intros y Hy. apply filter_In in Hy as [Hy _].
  by apply (proj1 (List.Forall_forall _ _) Hx).
Qed.

End S.

End DiscoverProofs.

(** Extra X9 ([discover_git_repos]): the repositories it returns are in ascending
    code-point order without repetitions; a path is among them exactly when
    it is an [include_repos] entry with a [.git] directory, or the parent of
    a line of the [find] output of some scan root, and it starts with none of
    the [exclude_paths] (a plain string prefix test). *)
Theorem discover_git_repos_spec (is_git_dir : string -> bool)
    (find_stdout : string -> Z -> string) (path_parent : string -> string)
    (cfg : RepoConfig) :
  let res := discover_git_repos is_git_dir find_stdout path_parent cfg in
  Sorted String.le res /\ NoDup res /\
  (forall r, In r res <->
     ((In r (include_repos cfg) /\ is_git_dir r = true) \/
      exists root line, In root (scan_roots cfg) /\
        In line (PyLines.splitlines (PyStr.strip (find_stdout root (max_repo_depth cfg)))) /\
        path_parent line = r) /\
     Forall (fun ex => PyStr.startswith r ex = false) (exclude_paths cfg)).
Proof.
  intros res. unfold res, discover_git_repos. split; [| split].
  - apply StronglySorted_Sorted, DiscoverProofs.strongly_sorted_filter,
      StronglySorted_merge_sort; apply _.
  - apply NoDup_ListNoDup, List.NoDup_filter, NoDup_ListNoDup.
    rewrite merge_sort_Permutation. apply NoDup_elements.
  - intros r. rewrite filter_In, <- list_elem_of_In, merge_sort_Permutation,
      elem_of_elements.
    unfold found_repos. rewrite (DiscoverProofs.found_repos_go is_git_dir find_stdout path_parent).
    unfold included_repos. rewrite (DiscoverProofs.included_repos_go is_git_dir find_stdout path_parent).
    rewrite negb_true_iff, <- not_true_iff_false, existsb_exists, List.Forall_forall.
    split.
    + intros [Hin Hex]. split; [set_solver |].
      intros ex Hex'. apply not_true_iff_false. intros Hs. apply Hex. by exists ex.
    + intros [Hin Hex]. split; [set_solver |].
      intros (ex & Hex' & Hs). specialize (Hex ex Hex'). congruence.
Qed.

Module IntProofs.
Import StatusRe.

#[local] Arguments String.append : simpl nomatch.

Lemma rstrip_digits (s : string) : all_chars is_digit s = true -> PyStr.rstrip s = s.
Proof.
  induction s as [| c s IH]; simpl; [done |].
  intros [Hc Hs]%andb_prop. rewrite (IH Hs).
  destruct s; [| done].
  destruct c as [[] [] [] [] [] [] [] []]; (reflexivity || discriminate).
Qed.

Lemma digit_not_space (c : ascii) : is_digit c = true -> PyStr.is_space c = false.
Proof. destruct c as [[] [] [] [] [] [] [] []]; intros H; (reflexivity || discriminate). Qed.

Lemma digit_not_sign (c : ascii) :
  is_digit c = true -> Ascii.eqb c "-" = false /\ Ascii.eqb c "+" = false.
Proof. destruct c as [[] [] [] [] [] [] [] []]; intros H; (split; reflexivity || discriminate). Qed.

Lemma parse_digits_all (acc : Z) (b : bool) (s : string) :
  all_chars is_digit s = true -> (b = true \/ s <> "") ->
  PyInt.parse_digits acc b s = Some (digits_value acc s).
Proof.
  revert acc b. induction s as [| c s IH]; intros acc b Hs Hne; simpl.
  - destruct Hne as [-> | Hne]; [done | congruence].
  - simpl in Hs. apply andb_prop in Hs as [Hc Hs]. rewrite Hc. apply IH; auto.
Qed.

(** The standard output of [git rev-list --count]: [pretty n] and a
    newline; [strip] leaves [pretty n]. *)
Lemma strip_pretty_nl (n : N) : PyStr.strip (pretty n ++ String "010" "") = pretty n.
Proof.
  destruct (AheadProofs.pretty_N_shape n) as (c & rest & Hp & Hc & Hall & _).
  unfold PyStr.strip. rewrite Hp. cbn [String.append PyStr.lstrip].
  rewrite (digit_not_space c Hc).
  change (String c (rest ++ String "010" "")) with (String c rest ++ String "010" "").
  rewrite FirstLineProofs.rstrip_app.
  change (PyStr.rstrip (String "010" "")) with ""%string. cbv beta iota.
  rewrite <- Hp. by apply rstrip_digits.
Qed.

Lemma strip_pretty (n : N) : PyStr.strip (pretty n) = pretty n.
Proof.
  destruct (AheadProofs.pretty_N_shape n) as (c & rest & Hp & Hc & Hall & _).
  unfold PyStr.strip. rewrite Hp. cbn [PyStr.lstrip]. rewrite (digit_not_space c Hc).
  rewrite <- Hp. by apply rstrip_digits.
Qed.

End IntProofs.

(** Extra X10 ([count_commits_since]): it reads back the count that [git rev-list --count]
    prints: for the output [str(n) + "\n"] it returns [n]. *)
Theorem count_commits_since_roundtrip (n : N) :
  count_commits_since (pretty n ++ String "010" "") = Z.of_N n.
Proof.
  unfold count_commits_since. rewrite IntProofs.strip_pretty_nl.
  unfold PyInt.int. rewrite IntProofs.strip_pretty.
  destruct (AheadProofs.pretty_N_shape n) as (c & rest & Hp & Hc & Hall & Hval).
  rewrite Hp. cbn [String.eqb].
  destruct (IntProofs.digit_not_sign c Hc) as [-> ->].
  rewrite <- Hp, IntProofs.parse_digits_all by first [exact Hall | right; rewrite Hp; discriminate].
  simpl. by rewrite Hval.
Qed.

Module WeeklyProofs.

Lemma count_weeks_go (week : string) (lines : list string) (acc : gmap string Z) :
  week <> "" ->
  fold_left
    (fun (counts : gmap string Z) (line : string) =>
       let week := PyStr.strip line in
       if String.eqb week "" then counts
       else <[week := get (counts !! week) 0 + 1]> counts)
    lines acc !! week
  = match acc !! week with
    | None => if Z.eqb (week_count week lines) 0 then None else Some (week_count week lines)
    | Some v => Some (v + week_count week lines)
    end.
Proof.
  intros Hw. revert acc. induction lines as [| line lines IH]; intros acc; cbn [fold_left].
  - unfold week_count. simpl. destruct (acc !! week); [f_equal; lia | done].
  - rewrite IH. unfold week_count. cbn [List.filter].
    destruct (String.eqb_spec (PyStr.strip line) week) as [Heq | Hne].
    + rewrite Heq. rewrite (proj2 (String.eqb_neq week "") Hw).
      rewrite lookup_insert_eq. cbn [length].
      destruct (acc !! week); simpl; f_equal; lia.
    + destruct (String.eqb (PyStr.strip line) ""); [done |].
      by rewrite lookup_insert_ne by congruence.
Qed.

End WeeklyProofs.

(** Extra X11 ([weekly_commit_counts]): every value of the map it returns is the number of
    output lines (after stripping) equal to the week label: a non-empty
    label of the window is present exactly when it occurs, with its number
    of occurrences; any other key is absent. *)
Theorem weekly_commit_counts_values (strftime_GV : Z -> string) (now : Z)
    (git_stdout : string) (weeks : nat) (week : string) :
  let c := Z.of_nat (length (List.filter (fun line => String.eqb (PyStr.strip line) week)
                               (PyLines.splitlines (PyStr.strip git_stdout)))) in
  weekly_commit_counts strftime_GV now git_stdout weeks !! week
  = if decide (week <> "" /\ week ∈ week_labels_from strftime_GV now weeks /\ 0 < c)
    then Some c else None.
Proof.
  intros c. unfold weekly_commit_counts.
  destruct (String.eqb_spec (PyStr.strip git_stdout) "") as [He | Hne].
  - rewrite lookup_empty. subst c. rewrite He. simpl.
    destruct (decide _) as [(_ & _ & H) |]; [lia | done].
  - rewrite map_lookup_filter. unfold count_weeks.
    destruct (decide (week = "")) as [-> | Hw].
    + assert (Hnone : forall lines acc, acc !! "" = None ->
                fold_left
                  (fun (counts : gmap string Z) (line : string) =>
                     let week := PyStr.strip line in
                     if String.eqb week "" then counts
                     else <[week := get (counts !! week) 0 + 1]> counts)
                  lines acc !! "" = None).
      { induction lines as [| line lines IH]; intros acc Hacc; cbn [fold_left]; [done |].
        apply IH. destruct (String.eqb_spec (PyStr.strip line) "") as [| Hl]; [done |].
        by rewrite lookup_insert_ne by congruence. }
      rewrite Hnone by apply lookup_empty.
      rewrite decide_False by (intros [H _]; done). reflexivity.
    + rewrite WeeklyProofs.count_weeks_go by done. rewrite lookup_empty.
      unfold week_count. fold c.
      destruct (Z.eqb_spec c 0) as [Hc | Hc]; simpl.
      * destruct (decide _) as [(_ & _ & H) |]; [lia | done].
      * unfold guard. case_decide as Hin; case_decide as Hd.
        -- done.
        -- exfalso. apply Hd. rewrite elem_of_list_to_set in Hin.
           pose proof (Nat2Z.is_nonneg (length (List.filter (fun line => String.eqb (PyStr.strip line) week)
                               (PyLines.splitlines (PyStr.strip git_stdout))))).
           subst c. split; [done | split; [done | lia]].
        -- exfalso. apply Hin. rewrite elem_of_list_to_set. tauto.
        -- done.
Qed.

Module GroupProofs.

Lemma strongly_sorted_rev_desc (l : list TrackedRepo) :
  StronglySorted desc l -> StronglySorted asc (rev l).
Proof.
  induction l as [| x l IH]; intros Hs; simpl; [constructor |].
  apply StronglySorted_inv in Hs as [Hs Hx].
  apply Ordering.strongly_sorted_snoc; [by apply IH |].
  apply Forall_rev. exact Hx.
Qed.

Lemma stable_sort_sorted_id (l : list TrackedRepo) :
  StronglySorted asc l -> stable_sort l = l.
Proof.
  induction l as [| x l IH]; intros Hs; simpl; [done |].
  apply StronglySorted_inv in Hs as [Hs Hx]. rewrite (IH Hs).
  destruct l as [| y l]; simpl; [done |].
  inversion Hx as [| ? ? Hxy _]; subst. unfold asc in Hxy. by rewrite Hxy.
Qed.

Lemma sort_reverse_sorted_id (l : list TrackedRepo) :
  StronglySorted desc l -> sort_reverse l = l.
Proof.
  intros Hs. unfold sort_reverse.
  rewrite stable_sort_sorted_id by (by apply strongly_sorted_rev_desc).
  apply rev_involutive.
Qed.

End GroupProofs.

(** Extra X12 ([api_group]): it lists the track's repositories in dashboard order: when the
    dashboard's [repos] list is the one [scan_repositories] builds, the
    descending re-sort by [(score, last_30d)] of the track's entries leaves
    them as they are, so a valid track yields exactly the dashboard
    entries of that track, in their dashboard order. *)
Theorem api_group_repos_dashboard_order (collect_repo : string -> option TrackedRepo)
    (repos : list string) (d : Dashboard) (track : string) :
  db_repos d = dashboard_repos collect_repo repos ->
  In track TRACK_OPTIONS ->
  api_group_repos track d
  = Some (List.filter (fun r => String.eqb (m_track (tr_metrics r)) track) (db_repos d)).
Proof.
  intros Hd Ht. unfold api_group_repos.
  assert (Hex : existsb (String.eqb track) TRACK_OPTIONS = true).
  { apply existsb_exists. exists track. split; [done | apply String.eqb_refl]. }
  rewrite Hex. f_equal. apply GroupProofs.sort_reverse_sorted_id.
  apply DiscoverProofs.strongly_sorted_filter.
  rewrite Hd. exact (proj1 (dashboard_repos_order collect_repo repos)).
Qed.

(** Extra X13 ([search_key_issues]): for a non-empty stripped, lower-cased
    query and a limit [N >= 1], it returns the first [N] matching entries of the
    search pool (all of them if fewer): no matching entry is skipped. *)
Theorem search_key_issues_first_matches (dashboard : Dashboard) (query : string) (N : Z) :
  1 <= N ->
  let q := PyStr.lower (PyStr.strip query) in
  q <> "" ->
  search_key_issues dashboard query N
  = firstn (Z.to_nat N) (List.filter (fun item => PyStr.contains (hay item) q)
                                     (db_search_pool dashboard)).
Proof.
  intros HN q Hq. unfold search_key_issues. fold q.
  rewrite (proj2 (String.eqb_neq q "") Hq).
  assert (Hgo : forall pool acc, Z.of_nat (length acc) < N ->
            search_loop q N pool acc
            = (acc ++ firstn (Z.to_nat N - length acc)
                        (List.filter (fun item => PyStr.contains (hay item) q) pool))%list).
  { induction pool as [| item rest IH]; intros acc Hacc; simpl.
    - by rewrite firstn_nil, app_nil_r.
    - destruct (PyStr.contains (hay item) q).
      + destruct (Z.to_nat N - length acc)%nat as [| k] eqn:Hk; [lia |].
        cbn [firstn].
        destruct (Z.of_nat (length (acc ++ [item])) >=? N) eqn:Hb.
        * rewrite length_app, Z.geb_leb, Z.leb_le in Hb. simpl in Hb.
          assert (k = 0%nat) as -> by lia. simpl. done.
        * rewrite IH by (rewrite Z.geb_leb, Z.leb_gt in Hb; lia).
          rewrite length_app, <- app_assoc. simpl.
          by replace (Z.to_nat N - (length acc + 1))%nat with k by lia.
      + destruct (Z.of_nat (length acc) >=? N) eqn:Hb;
          [rewrite Z.geb_leb, Z.leb_le in Hb; lia |].
        by apply IH. }
  rewrite Hgo by (simpl; lia). simpl. by rewrite Nat.sub_0_r.
Qed.

Lemma api_group_repos_dashboard_order_witness :
  api_group_repos "engineering"
    {| generated_at := "2024-05-03T12:00:00"; db_owner := "typhfeng";
       db_repos := dashboard_repos sample_collect ["/w/alpha"; "/w/beta"; "/w/gamma"];
       db_search_pool := [] |}
  = Some (List.filter (fun r => String.eqb (m_track (tr_metrics r)) "engineering")
            (dashboard_repos sample_collect ["/w/alpha"; "/w/beta"; "/w/gamma"])).
Proof.
  apply (api_group_repos_dashboard_order sample_collect ["/w/alpha"; "/w/beta"; "/w/gamma"]).
  - reflexivity.
  - simpl. right. left. reflexivity.
Defined.

Lemma search_key_issues_first_matches_witness :
  search_key_issues (sample_pool_dashboard [sample_item; sample_item]) " FIX " 1
  = firstn 1 (List.filter (fun item => PyStr.contains (hay item) (PyStr.lower (PyStr.strip " FIX ")))
                          [sample_item; sample_item]).
Proof.
  apply (search_key_issues_first_matches (sample_pool_dashboard [sample_item; sample_item]) " FIX " 1).
  - lia.
  - vm_compute. discriminate.
Defined.




Module TodoProofs.

#[local] Arguments String.append : simpl nomatch.

Lemma rstrip_cons (c : ascii) (s : string) :
  PyStr.rstrip (String c s)
  = match PyStr.rstrip s with
    | EmptyString => if PyStr.is_space c then EmptyString else String c EmptyString
    | _ => String c (PyStr.rstrip s)
    end.
Proof. reflexivity. Qed.

Lemma all_chars_lstrip (p : ascii -> bool) (s : string) :
  all_chars p s = true -> all_chars p (PyStr.lstrip s) = true.
Proof.
  induction s as [| c s IH]; simpl; [done |]. intros Hs.
  apply andb_prop in Hs as [Hc Hs'].
  destruct (PyStr.is_space c); [by apply IH | simpl; by rewrite Hc, Hs'].
Qed.

Lemma all_chars_rstrip (p : ascii -> bool) (s : string) :
  all_chars p s = true -> all_chars p (PyStr.rstrip s) = true.
Proof.
  induction s as [| c s IH]; [done |]. intros Hs. rewrite rstrip_cons.
  simpl in Hs. apply andb_prop in Hs as [Hc Hs']. specialize (IH Hs').
  destruct (PyStr.rstrip s) as [| c' r].
  - destruct (PyStr.is_space c); simpl; [done | by rewrite Hc].
  - simpl. simpl in IH. by rewrite Hc, IH.
Qed.

Lemma all_chars_strip (p : ascii -> bool) (s : string) :
  all_chars p s = true -> all_chars p (PyStr.strip s) = true.
Proof. intros H. by apply all_chars_rstrip, all_chars_lstrip. Qed.

Lemma rstrip_idem (s : string) : PyStr.rstrip (PyStr.rstrip s) = PyStr.rstrip s.
Proof.
  induction s as [| c s IH]; [done |]. rewrite rstrip_cons.
  destruct (PyStr.rstrip s) as [| c' r] eqn:E.
  - destruct (PyStr.is_space c) eqn:Hc; [done |]. rewrite rstrip_cons. simpl. by rewrite Hc.
  - rewrite rstrip_cons, IH. reflexivity.
Qed.

Lemma lstrip_rstrip_lstrip (s : string) :
  PyStr.lstrip (PyStr.rstrip (PyStr.lstrip s)) = PyStr.rstrip (PyStr.lstrip s).
Proof.
  induction s as [| c s IH]; [done |]. cbn [PyStr.lstrip].
  destruct (PyStr.is_space c) eqn:Hc; [exact IH |].
  rewrite rstrip_cons. destruct (PyStr.rstrip s).
  - rewrite Hc. simpl. by rewrite Hc.
  - simpl. by rewrite Hc.
Qed.

Lemma strip_idem (s : string) : PyStr.strip (PyStr.strip s) = PyStr.strip s.
Proof. unfold PyStr.strip. by rewrite lstrip_rstrip_lstrip, rstrip_idem. Qed.

Lemma no_break_not_lf (c : ascii) : no_break c = true -> Ascii.eqb c "010" = false.
Proof. destruct c as [[] [] [] [] [] [] [] []]; intros H; (reflexivity || discriminate). Qed.

Lemma dot_star_end_no_break (s : string) :
  all_chars no_break s = true -> dot_star_end s = Some s.
Proof.
  induction s as [| c s IH]; simpl; [done |].
  intros [Hc Hs]%andb_prop. rewrite no_break_not_lf by done. by rewrite IH.
Qed.

Lemma todo_match_line (done : bool) (t : string) :
  all_chars no_break t = true ->
  todo_match (todo_line done t) = Some ((if done then "x" else " ")%char, t).
Proof.
  intros Ht. unfold todo_line. destruct done; cbn; rewrite dot_star_end_no_break by done;
    reflexivity.
Qed.

Lemma todo_match_new (t : string) :
  all_chars no_break t = true -> todo_match ("- [ ] " ++ t) = Some (" "%char, t).
Proof. intros Ht. exact (todo_match_line false t Ht). Qed.

Lemma todo_match_some (l g : string) (m : ascii) :
  all_chars no_break l = true -> todo_match l = Some (m, g) ->
  Ascii.eqb (PyStr.lower_char m) "x" = Ascii.eqb m "x" || Ascii.eqb m "X" /\
  all_chars no_break g = true.
Proof.
  intros Hl. unfold todo_match.
  repeat (case_match; try discriminate). subst.
  match goal with H : (_ || _ || _)%bool = true |- _ => rename H into Hm3 end.
  intros Hm. cbn [all_chars] in Hl. repeat apply andb_prop in Hl as [_ Hl].
  rewrite dot_star_end_no_break in Hm by exact Hl. cbn in Hm. injection Hm as <- <-.
  split; [| exact Hl].
  apply orb_true_iff in Hm3 as [Hm3 | Hm3]; [apply orb_true_iff in Hm3 as [Hm3 | Hm3] |];
    apply Ascii.eqb_eq in Hm3; subst; reflexivity.
Qed.


Lemma splitlines_from_no_break (s cur : string) :
  all_chars no_break cur = true ->
  Forall (fun l => all_chars no_break l = true) (PyLines.splitlines_from s cur).
Proof.
  remember (String.length s) as n eqn:Hn. assert (Hle : (String.length s <= n)%nat) by lia.
  clear Hn. revert s cur Hle. induction n as [| n IH]; intros s cur Hle Hcur.
  - destruct s; [| simpl in Hle; lia]. simpl. destruct cur; constructor; auto.
  - destruct s as [| c s]; simpl.
    + destruct cur; constructor; auto.
    + simpl in Hle. destruct (Ascii.eqb c "013") eqn:Hcr.
      * destruct s as [| c2 s'].
        { constructor; auto. }
        simpl in Hle. destruct (Ascii.eqb c2 "010"); constructor; auto;
          apply IH; simpl; auto; lia.
      * destruct (PyLines.is_line_break c) eqn:Hlb.
        { constructor; auto. apply IH; auto; lia. }
        apply IH; [lia |]. rewrite FirstLineProofs.all_chars_app, Hcur. simpl.
        unfold no_break. by rewrite Hcr, Hlb.
Qed.

Lemma splitlines_no_break (s : string) :
  Forall (fun l => all_chars no_break l = true) (PyLines.splitlines s).
Proof. by apply splitlines_from_no_break. Qed.

Lemma splitlines_join (lines : list string) :
  lines <> [] -> Forall (fun l => all_chars no_break l = true) lines ->
  PyLines.splitlines (join_lines lines ++ String "010" "") = lines.
Proof.
  induction lines as [| l rest IH]; [done |]. intros _ Hall.
  apply Forall_cons in Hall as [Hl Hrest]. unfold PyLines.splitlines.
  destruct rest as [| l2 rest].
  - cbn [join_lines]. rewrite FirstLineProofs.splitlines_from_app by done. reflexivity.
  - cbn [join_lines]. rewrite <- FirstLineProofs.append_assoc_fl.
    rewrite FirstLineProofs.splitlines_from_app by done. cbn. f_equal. by apply IH.
Qed.

Lemma read_todos_go_index (lines : list string) (ln i : Z) :
  Forall (fun td => i <= td_index td) (read_todos_go lines ln i).
Proof.
  revert ln i. induction lines as [| l rest IH]; intros ln i; simpl; [constructor |].
  destruct (todo_match l) as [[m g] |].
  - constructor; simpl; [lia |]. eapply Forall_impl; [apply IH |]. simpl. lia.
  - apply IH.
Qed.

Lemma lower_mark_done (nd : bool) :
  Ascii.eqb (PyStr.lower_char (if nd then "x" else " ")%char) "x" = nd.
Proof. by destruct nd. Qed.

Lemma todo_line_no_break (nd : bool) (t : string) :
  all_chars no_break t = true -> all_chars no_break (todo_line nd t) = true.
Proof. intros Ht. unfold todo_line. by destruct nd; cbn. Qed.

Lemma update_todos_go_spec (lines : list string) (ln i k : Z) (done : option bool)
    (text : option string) :
  Forall (fun l => all_chars no_break l = true) lines ->
  (forall t, text = Some t -> all_chars no_break (PyStr.strip t) = true) ->
  match update_todos_go lines (i - 1) k done text with
  | Some lines' =>
      i <= k < i + Z.of_nat (length (read_todos_go lines ln i)) /\
      lines' <> [] /\ Forall (fun l => all_chars no_break l = true) lines' /\
      read_todos_go lines' ln i
      = map (fun td => if td_index td =? k then
               {| td_index := td_index td; td_line_no := td_line_no td;
                  td_done := get done (td_done td);
                  td_text := match text with None => td_text td | Some t => PyStr.strip t end |}
             else td) (read_todos_go lines ln i)
  | None => ~ (i <= k < i + Z.of_nat (length (read_todos_go lines ln i)))
  end.
Proof.
  intros Hall Htext. revert ln i. induction lines as [| l rest IH]; intros ln i.
  { simpl. lia. }
  apply Forall_cons in Hall as [Hl Hrest]. specialize (IH Hrest).
  cbn [update_todos_go read_todos_go]. destruct (todo_match l) as [[m g] |] eqn:Hm.
  - replace (i - 1 + 1) with i by lia.
    destruct (negb (i =? k)) eqn:Hk.
    + apply negb_true_iff, Z.eqb_neq in Hk. specialize (IH (ln + 1) (i + 1)).
      replace (i + 1 - 1) with i in IH by lia.
      destruct (update_todos_go rest i k done text) as [lines' |]; simpl.
      * destruct IH as (Hr & Hne & Hall' & Hread). split; [lia |].
        split; [done |]. split; [by constructor |].
        rewrite Hm. simpl. rewrite Hread. f_equal.
        destruct (Z.eqb_spec i k); [lia | done].
      * lia.
    + apply negb_false_iff, Z.eqb_eq in Hk. subst k.
      apply TodoProofs.todo_match_some in Hm as [Hlow Hg]; [| done].
      set (nt := match text with None => PyStr.strip g | Some t => PyStr.strip t end).
      assert (Hnt : all_chars no_break nt = true).
      { unfold nt. destruct text as [t |]; [by apply Htext | by apply TodoProofs.all_chars_strip]. }
      cbv beta iota. split; [simpl; lia |]. split; [done |].
      split; [constructor; [by apply todo_line_no_break | done] |].
      cbn [read_todos_go].
      rewrite TodoProofs.todo_match_line by done. cbn [map].
      rewrite Z.eqb_refl, lower_mark_done. f_equal.
      * f_equal. unfold nt. destruct text; apply TodoProofs.strip_idem.
      * rewrite <- (map_id (read_todos_go rest (ln + 1) (i + 1))) at 1.
        apply map_ext_in. intros td Htd.
        pose proof (read_todos_go_index rest (ln + 1) (i + 1)) as Hidx.
        rewrite Forall_forall in Hidx. specialize (Hidx td (proj2 (list_elem_of_In _ _) Htd)).
        destruct (Z.eqb_spec (td_index td) i); [lia | done].
  - specialize (IH (ln + 1) i).
    destruct (update_todos_go rest (i - 1) k done text) as [lines' |]; simpl; [| done].
    destruct IH as (Hr & Hne & Hall' & Hread). split; [done |].
    split; [done |]. split; [by constructor |]. by rewrite Hm.
Qed.

Lemma splitlines_from_lf_app (p r cur : string) :
  PyLines.splitlines_from (p ++ String "010" r) cur
  = (PyLines.splitlines_from (p ++ String "010" "") cur ++ PyLines.splitlines_from r "")%list.
Proof.
  remember (String.length p) as n eqn:Hn. assert (Hle : (String.length p <= n)%nat) by lia.
  clear Hn. revert p cur Hle. induction n as [| n IH]; intros p cur Hle.
  - destruct p; [reflexivity | simpl in Hle; lia].
  - destruct p as [| c p]; [reflexivity |]. simpl in Hle.
    cbn [String.append PyLines.splitlines_from].
    destruct (Ascii.eqb c "013") eqn:Hcr.
    + destruct p as [| c2 p']; [reflexivity |]. simpl in Hle.
      cbn [String.append]. destruct (Ascii.eqb c2 "010").
      * cbn [app]. f_equal. apply IH. lia.
      * cbn [app]. f_equal. apply (IH (String c2 p')). simpl. lia.
    + destruct (PyLines.is_line_break c).
      * cbn [app]. f_equal. apply IH. lia.
      * apply IH. lia.
Qed.

Lemma read_todos_go_app (l1 l2 : list string) (ln i : Z) :
  read_todos_go (l1 ++ l2)%list ln i
  = (read_todos_go l1 ln i
     ++ read_todos_go l2 (ln + Z.of_nat (length l1)) (i + Z.of_nat (length (read_todos_go l1 ln i))))%list.
Proof.
  revert ln i. induction l1 as [| l rest IH]; intros ln i.
  - simpl. by rewrite !Z.add_0_r.
  - cbn [app read_todos_go length]. destruct (todo_match l) as [[m g] |].
    + cbn [app length]. rewrite IH. do 3 f_equal; lia.
    + rewrite IH. do 2 f_equal; lia.
Qed.

Lemma splitlines_append_item (s t : string) :
  (s = "" \/ exists p, s = p ++ String "010" "") -> all_chars no_break t = true ->
  PyLines.splitlines (s ++ ("- [ ] " ++ t ++ String "010" ""))
  = (PyLines.splitlines s ++ ["- [ ] " ++ t]%string)%list.
Proof.
  intros Hs Ht. unfold PyLines.splitlines.
  assert (Hitem : PyLines.splitlines_from ("- [ ] " ++ t ++ String "010" "") "" = ["- [ ] " ++ t]).
  { rewrite FirstLineProofs.append_assoc_fl, FirstLineProofs.splitlines_from_app.
    - reflexivity.
    - by rewrite FirstLineProofs.all_chars_app, Ht. }
  destruct Hs as [-> | [p ->]].
  - exact Hitem.
  - rewrite <- FirstLineProofs.append_assoc_fl.
    change (String "010" "" ++ ?x)%string with (String "010" x).
    rewrite splitlines_from_lf_app, Hitem. reflexivity.
Qed.

Lemma read_append_item (s text : string) :
  all_chars no_break (PyStr.strip text) = true ->
  (s = "" \/ exists p, s = p ++ String "010" "") ->
  read_todos_go (PyLines.splitlines (s ++ ("- [ ] " ++ PyStr.strip text ++ String "010" ""))) 1 0
  = (read_todos_go (PyLines.splitlines s) 1 0 ++
     [{| td_index := Z.of_nat (length (read_todos_go (PyLines.splitlines s) 1 0));
         td_line_no := Z.of_nat (length (PyLines.splitlines s)) + 1;
         td_done := false; td_text := PyStr.strip text |}])%list.
Proof.
  intros Ht Hs. rewrite splitlines_append_item by done. rewrite read_todos_go_app.
  f_equal. cbn [read_todos_go]. rewrite todo_match_new by done. cbv beta iota.
  f_equal. f_equal; [lia | apply strip_idem].
Qed.

End TodoProofs.

(** Extra X15 ([_update_repo_todo]): when the new text has no line
    boundary after stripping, updating item [index] of a TODO.md file whose
    items are numbered [0 .. n-1] succeeds exactly when [0 <= index < n];
    the file then reads back as the same items with item [index] carrying
    the new mark ([done], or its old mark when [done] is [None]) and the
    stripped new text (or its old text); otherwise the result is "todo
    index not found" and the file is left as it was. *)
Theorem update_repo_todo_effect (s : string) (index : Z) (done : option bool)
    (text : option string) :
  (forall t, text = Some t -> all_chars no_break (PyStr.strip t) = true) ->
  (0 <= index < Z.of_nat (length (read_repo_todos (FileNode s))) ->
   exists s', update_repo_todo (FileNode s) index done text = (UpdateOk, FileNode s') /\
     read_repo_todos (FileNode s')
     = map (fun td => if td_index td =? index then
              {| td_index := td_index td; td_line_no := td_line_no td;
                 td_done := get done (td_done td);
                 td_text := match text with None => td_text td | Some t => PyStr.strip t end |}
            else td) (read_repo_todos (FileNode s))) /\
  (~ (0 <= index < Z.of_nat (length (read_repo_todos (FileNode s)))) ->
   update_repo_todo (FileNode s) index done text = (IndexNotFound index, FileNode s)).
Proof.
  intros Htext.
  pose proof (TodoProofs.update_todos_go_spec (PyLines.splitlines s) 1 0 index done text
                (TodoProofs.splitlines_no_break s) Htext) as H.
  unfold update_repo_todo, read_repo_todos. change (0 - 1) with (-1) in H. revert H.
  destruct (update_todos_go (PyLines.splitlines s) (-1) index done text) as [lines' |].
  - intros (Hr & Hne & Hall & Hread). split.
    + intros _. eexists. split; [reflexivity |].
      rewrite TodoProofs.splitlines_join by done. exact Hread.
    + intros Hn. lia.
  - intros H. split; [intros Hr; lia | reflexivity].
Qed.

Lemma update_repo_todo_effect_witness :
  (forall t, Some " b2 " = Some t -> all_chars no_break (PyStr.strip t) = true) /\
  (0 <= 1 < Z.of_nat (length (read_repo_todos (FileNode "# T
- [ ] a
note
- [x] b
")))) /\
  ((0 <= 1 < Z.of_nat (length (read_repo_todos (FileNode "# T
- [ ] a
note
- [x] b
"))) ->
   exists s', update_repo_todo (FileNode "# T
- [ ] a
note
- [x] b
") 1 (Some false) (Some " b2 ") = (UpdateOk, FileNode s') /\
     read_repo_todos (FileNode s')
     = map (fun td => if td_index td =? 1 then
              {| td_index := td_index td; td_line_no := td_line_no td;
                 td_done := get (Some false) (td_done td);
                 td_text := match Some " b2 " with None => td_text td | Some t => PyStr.strip t end |}
            else td) (read_repo_todos (FileNode "# T
- [ ] a
note
- [x] b
"))) /\
  (~ (0 <= 1 < Z.of_nat (length (read_repo_todos (FileNode "# T
- [ ] a
note
- [x] b
")))) ->
   update_repo_todo (FileNode "# T
- [ ] a
note
- [x] b
") 1 (Some false) (Some " b2 ") = (IndexNotFound 1, FileNode "# T
- [ ] a
note
- [x] b
"))).
Proof.
  assert (Ht : forall t, Some " b2 " = Some t -> all_chars no_break (PyStr.strip t) = true)
    by (intros t Ht; injection Ht as <-; reflexivity).
  split; [exact Ht |]. split; [vm_compute; split; [discriminate | reflexivity] |].
  apply update_repo_todo_effect. exact Ht.
Defined.

(** Extra X16 ([_append_repo_todo]): appending an item whose stripped text
    has no line boundary to a TODO.md that is empty or ends in LF adds
    exactly one item when the file is read back: it comes after the old
    items, is unchecked, carries the stripped text, has the next item
    number, and sits on the line after the old last line. *)
Theorem append_repo_todo_file (s text : string) :
  all_chars no_break (PyStr.strip text) = true ->
  (s = "" \/ exists p, s = p ++ String "010" "") ->
  exists s', append_repo_todo (FileNode s) text = Some (FileNode s') /\
    read_repo_todos (FileNode s')
    = (read_repo_todos (FileNode s) ++
       [{| td_index := Z.of_nat (length (read_repo_todos (FileNode s)));
           td_line_no := Z.of_nat (length (PyLines.splitlines s)) + 1;
           td_done := false; td_text := PyStr.strip text |}])%list.
Proof.
  intros Ht Hs. eexists. split; [reflexivity |].
  unfold read_repo_todos. by apply TodoProofs.read_append_item.
Qed.

Lemma append_repo_todo_file_witness :
  all_chars no_break (PyStr.strip " b ") = true /\
  ("# T
- [x] a
" = "" \/ exists p, "# T
- [x] a
" = p ++ String "010" "") /\
  exists s', append_repo_todo (FileNode "# T
- [x] a
") " b " = Some (FileNode s') /\
    read_repo_todos (FileNode s')
    = (read_repo_todos (FileNode "# T
- [x] a
") ++
       [{| td_index := Z.of_nat (length (read_repo_todos (FileNode "# T
- [x] a
")));
           td_line_no := Z.of_nat (length (PyLines.splitlines "# T
- [x] a
")) + 1;
           td_done := false; td_text := PyStr.strip " b " |}])%list.
Proof.
  assert (Ht : all_chars no_break (PyStr.strip " b ") = true) by reflexivity.
  assert (Hs : "# T
- [x] a
" = "" \/ exists p, "# T
- [x] a
" = p ++ String "010" "") by (right; exists "# T
- [x] a"; reflexivity).
  split; [exact Ht |]. split; [exact Hs |].
  exact (append_repo_todo_file _ _ Ht Hs).
Defined.

(** Extra X17 ([_append_repo_todo]): when TODO.md does not exist, appending
    an item whose stripped text has no line boundary creates the file with
    the ["# TODO"] header, and it reads back as that single item: number 0,
    on line 3, unchecked, with the stripped text; when the path is a
    directory the call fails. *)
Theorem append_repo_todo_new (text : string) :
  all_chars no_break (PyStr.strip text) = true ->
  (exists s', append_repo_todo NoNode text = Some (FileNode s') /\
     read_repo_todos (FileNode s')
     = [{| td_index := 0; td_line_no := 3; td_done := false; td_text := PyStr.strip text |}]) /\
  append_repo_todo DirNode text = None.
Proof.
  intros Ht. split; [| reflexivity]. eexists. split; [reflexivity |].
  unfold read_repo_todos.
  pose proof (TodoProofs.read_append_item ("# TODO" ++ String "010" (String "010" "")) text Ht)
    as H.
  etransitivity; [apply H; right; exists ("# TODO" ++ String "010" ""); reflexivity |].
  reflexivity.
Qed.

Lemma append_repo_todo_new_witness :
  all_chars no_break (PyStr.strip "  call Bo ") = true /\
  (exists s', append_repo_todo NoNode "  call Bo " = Some (FileNode s') /\
     read_repo_todos (FileNode s')
     = [{| td_index := 0; td_line_no := 3; td_done := false;
           td_text := PyStr.strip "  call Bo " |}]) /\
  append_repo_todo DirNode "  call Bo " = None.
Proof.
  assert (Ht : all_chars no_break (PyStr.strip "  call Bo ") = true) by reflexivity.
  split; [exact Ht |]. exact (append_repo_todo_new _ Ht).
Defined.

Module TodoTailProofs.

#[local] Arguments String.append : simpl nomatch.

Lemma splitlines_from_last (p cur : string) (c : ascii) :
  no_break c = true ->
  exists init L, L <> "" /\
    forall X, PyLines.splitlines_from (p ++ String c X) cur
              = (init ++ PyLines.splitlines_from X L)%list.
Proof.
  intros Hc. assert (Hcr : Ascii.eqb c "013" = false /\ PyLines.is_line_break c = false).
  { unfold no_break in Hc. by apply negb_true_iff, orb_false_iff in Hc. }
  destruct Hcr as [Hcr Hlb].
  remember (String.length p) as n eqn:Hn. assert (Hle : (String.length p <= n)%nat) by lia.
  clear Hn. revert p cur Hle. induction n as [| n IH]; intros p cur Hle.
  - destruct p; [| simpl in Hle; lia].
    exists [], (cur ++ String c ""). split; [by destruct cur |].
    intros X. simpl. by rewrite Hcr, Hlb.
  - destruct p as [| c0 p].
    { exists [], (cur ++ String c ""). split; [by destruct cur |].
      intros X. simpl. by rewrite Hcr, Hlb. }
    simpl in Hle. destruct (Ascii.eqb c0 "013") eqn:Hcr0.
    + destruct p as [| c2 p'].
      * exists [cur], (String c ""). split; [done |]. intros X. simpl. rewrite Hcr0.
        rewrite (TodoProofs.no_break_not_lf c Hc). simpl. by rewrite Hcr, Hlb.
      * simpl in Hle. destruct (Ascii.eqb c2 "010") eqn:Hlf.
        { destruct (IH p' "" ltac:(lia)) as (init & L & HL & HX).
          exists (cur :: init), L. split; [done |]. intros X. simpl. rewrite Hcr0, Hlf.
          by rewrite HX. }
        { destruct (IH (String c2 p') "" ltac:(simpl; lia)) as (init & L & HL & HX).
          exists (cur :: init), L. split; [done |]. intros X. simpl. rewrite Hcr0, Hlf.
          f_equal. exact (HX X). }
    + destruct (PyLines.is_line_break c0) eqn:Hlb0.
      * destruct (IH p "" ltac:(lia)) as (init & L & HL & HX).
        exists (cur :: init), L. split; [done |]. intros X. simpl. rewrite Hcr0, Hlb0.
        by rewrite HX.
      * destruct (IH p (cur ++ String c0 "") ltac:(lia)) as (init & L & HL & HX).
        exists init, L. split; [done |]. intros X. simpl. rewrite Hcr0, Hlb0.
        by rewrite HX.
Qed.

Lemma todo_match_app_back (L z : string) :
  all_chars no_break L = true -> all_chars no_break z = true ->
  is_Some (todo_match L) -> is_Some (todo_match (L ++ z)).
Proof.
  intros HL Hz [[m g] E]. unfold todo_match in E.
  repeat (case_match; try discriminate). subst.
  match goal with H : (_ || _ || _)%bool = true |- _ => rename H into Hm3 end.
  cbn [all_chars] in HL. repeat apply andb_prop in HL as [_ HL].
  unfold todo_match. cbn [String.append]. rewrite Hm3.
  rewrite TodoProofs.dot_star_end_no_break; [by eexists |].
  by rewrite FirstLineProofs.all_chars_app, HL, Hz.
Qed.

Ltac peel_head H :=
  cbn [String.append] in H; injection H; clear H; intros H ?; subst.

Lemma todo_match_app_front (L y : string) :
  L <> "" -> all_chars no_break L = true ->
  is_Some (todo_match (L ++ String "-" y)) -> is_Some (todo_match L).
Proof.
  intros Hne HL [[m g] E]. unfold todo_match in E.
  repeat (case_match; try discriminate).
  match goal with H : (_ || _ || _)%bool = true |- _ => rename H into Hm3 end.
  match goal with H : (L ++ _)%string = _ |- _ => rename H into Heq end.
  destruct L as [| c1 L1]; [done |]. peel_head Heq.
  destruct L1 as [| c2 L2]; [discriminate |]. peel_head Heq.
  destruct L2 as [| c3 L3]; [discriminate |]. peel_head Heq.
  destruct L3 as [| c4 L4].
  { cbn [String.append] in Heq. injection Heq. intros. subst. discriminate. }
  peel_head Heq.
  destruct L4 as [| c5 L5]; [discriminate |]. peel_head Heq.
  destruct L5 as [| c6 L6]; [discriminate |]. peel_head Heq.
  cbn [all_chars] in HL. repeat apply andb_prop in HL as [_ HL].
  unfold todo_match. rewrite Hm3.
  rewrite TodoProofs.dot_star_end_no_break by exact HL. by eexists.
Qed.

End TodoTailProofs.

(** Extra X18 ([_append_repo_todo]): appending to a TODO.md that is not
    empty and does not end in a line boundary writes the new item onto the
    old last line: the file has as many lines as before, and it reads back
    with as many items as before. *)
Theorem append_repo_todo_unterminated (s text : string) :
  all_chars no_break (PyStr.strip text) = true ->
  (exists p c, s = p ++ String c "" /\ no_break c = true) ->
  exists s', append_repo_todo (FileNode s) text = Some (FileNode s') /\
    length (PyLines.splitlines s') = length (PyLines.splitlines s) /\
    length (read_repo_todos (FileNode s')) = length (read_repo_todos (FileNode s)).
Proof.
  intros Ht (p & c & -> & Hc). eexists. split; [reflexivity |].
  destruct (TodoTailProofs.splitlines_from_last p "" c Hc) as (init & L & HLne & HX).
  assert (E1 : PyLines.splitlines (p ++ String c "") = (init ++ [L])%list).
  { unfold PyLines.splitlines. rewrite HX. by destruct L. }
  assert (E2 : PyLines.splitlines
                 ((p ++ String c "") ++ ("- [ ] " ++ PyStr.strip text ++ String "010" ""))
               = (init ++ [(L ++ ("- [ ] " ++ PyStr.strip text))%string])%list).
  { rewrite <- FirstLineProofs.append_assoc_fl.
    change (String c "" ++ ?x)%string with (String c x).
    unfold PyLines.splitlines. rewrite HX. f_equal.
    rewrite FirstLineProofs.append_assoc_fl, FirstLineProofs.splitlines_from_app; [reflexivity |].
    by rewrite FirstLineProofs.all_chars_app, Ht. }
  assert (HLnb : all_chars no_break L = true).
  { pose proof (TodoProofs.splitlines_no_break (p ++ String c "")) as Hall.
    rewrite E1 in Hall. apply Forall_app in Hall as [_ Hall]. by apply Forall_cons in Hall as [? _]. }
  unfold read_repo_todos. rewrite E1, E2.
  split; [rewrite !length_app; reflexivity |].
  rewrite !TodoProofs.read_todos_go_app, !length_app. f_equal.
  cbn [read_todos_go].
  destruct (todo_match L) as [[m g] |] eqn:E3;
    destruct (todo_match (L ++ ("- [ ] " ++ PyStr.strip text))) as [[m' g'] |] eqn:E4;
    try reflexivity; exfalso.
  - destruct (TodoTailProofs.todo_match_app_back L ("- [ ] " ++ PyStr.strip text) HLnb)
      as [x Hx].
    + by rewrite FirstLineProofs.all_chars_app, Ht.
    + by eexists.
    + congruence.
  - destruct (TodoTailProofs.todo_match_app_front L (" [ ] " ++ PyStr.strip text) HLne HLnb)
      as [x Hx].
    + eexists. exact E4.
    + congruence.
Qed.

Lemma append_repo_todo_unterminated_witness :
  all_chars no_break (PyStr.strip "b") = true /\
  (exists p c, "# T
- [ ] a" = p ++ String c "" /\ no_break c = true) /\
  exists s', append_repo_todo (FileNode "# T
- [ ] a") "b" = Some (FileNode s') /\
    length (PyLines.splitlines s') = length (PyLines.splitlines "# T
- [ ] a") /\
    length (read_repo_todos (FileNode s')) = length (read_repo_todos (FileNode "# T
- [ ] a")).
Proof.
  assert (Ht : all_chars no_break (PyStr.strip "b") = true) by reflexivity.
  assert (Hs : exists p c, "# T
- [ ] a" = p ++ String c "" /\ no_break c = true)
    by (exists "# T
- [ ] ", "a"%char; split; reflexivity).
  split; [exact Ht |]. split; [exact Hs |].
  exact (append_repo_todo_unterminated _ _ Ht Hs).
Defined.

Module ManifestProofs.

Lemma dict_get_set (d : list (string * JVal)) (k k' : string) (v : JVal) :
  dict_get (dict_set d k v) k' = if String.eqb k k' then Some v else dict_get d k'.
Proof.
  induction d as [| [k0 v0] rest IH]; simpl.
  - by destruct (String.eqb k k').
  - destruct (String.eqb_spec k0 k) as [-> | Hne]; simpl.
    + destruct (String.eqb k k'); done.
    + rewrite IH. destruct (String.eqb_spec k0 k') as [-> | ?]; [| done].
      destruct (String.eqb_spec k k'); [congruence | done].
Qed.

Lemma dict_set_same (d : list (string * JVal)) (k : string) (v : JVal) :
  dict_get d k = Some v -> dict_set d k v = d.
Proof.
  induction d as [| [k0 v0] rest IH]; simpl; [discriminate |].
  destruct (String.eqb_spec k0 k) as [-> | Hne].
  - intros [= ->]. reflexivity.
  - intros H. by rewrite IH.
Qed.

(** The object entry [api_add_repo] leaves for the path. *)
Lemma added_entry_gets (d : list (string * JVal)) (p t : string) :
  let d' := dict_set (dict_set d "path" (JStr p)) "enabled" (JBool true) in
  let d'' := if String.eqb t "" then d' else dict_set d' "track" (JStr t) in
  dict_get d'' "path" = Some (JStr p) /\ dict_get d'' "enabled" = Some (JBool true) /\
  (t <> "" -> dict_get d'' "track" = Some (JStr t)).
Proof.
  intros d' d''. unfold d'', d'.
  destruct (String.eqb_spec t "") as [-> | Ht]; rewrite ?dict_get_set; simpl;
    (split; [done | split; [done |]]); [done |]. intros _. done.
Qed.

Lemma added_entry_idem (d : list (string * JVal)) (p t : string) :
  dict_get d "path" = Some (JStr p) -> dict_get d "enabled" = Some (JBool true) ->
  (t <> "" -> dict_get d "track" = Some (JStr t)) ->
  (let d' := dict_set (dict_set d "path" (JStr p)) "enabled" (JBool true) in
   if String.eqb t "" then d' else dict_set d' "track" (JStr t)) = d.
Proof.
  intros Hp He Ht. simpl. rewrite (dict_set_same d "path" (JStr p) Hp).
  rewrite (dict_set_same d "enabled" (JBool true) He).
  destruct (String.eqb_spec t "") as [-> | Hne]; [done |].
  by apply dict_set_same, Ht.
Qed.

Lemma add_repo_entries_idem (norm : string -> string) (str_other : JVal -> string)
    (repos : list JVal) (p t : string) :
  norm p = p ->
  add_repo_entries norm str_other (add_repo_entries norm str_other repos p t) p t
  = add_repo_entries norm str_other repos p t.
Proof.
  intros Hn. induction repos as [| v rest IH].
  - cbn [add_repo_entries]. unfold item_path. cbn. rewrite Hn, String.eqb_refl.
    by destruct (String.eqb t "").
  - destruct v as [| | | | | d]; cbn [add_repo_entries]; try (f_equal; exact IH).
    destruct (String.eqb (item_path norm str_other d) p) eqn:Hd.
    + cbn [add_repo_entries].
      destruct (added_entry_gets d p t) as (Hp & He & Ht).
      unfold item_path at 1. rewrite Hp. cbn [get py_str]. rewrite Hn, String.eqb_refl.
      f_equal. f_equal. by apply added_entry_idem.
    + cbn [add_repo_entries]. rewrite Hd. f_equal. exact IH.
Qed.

Lemma filter_length_le {A} (f : A -> bool) (l : list A) : (length (List.filter f l) <= length l)%nat.
Proof. induction l as [| x l IH]; simpl; [lia |]. destruct (f x); simpl; lia. Qed.

Lemma filter_length_eq_iff {A} (f : A -> bool) (l : list A) :
  length (List.filter f l) = length l <-> forall x, In x l -> f x = true.
Proof.
  induction l as [| x l IH]; simpl; [split; [done | intros; lia] |].
  pose proof (filter_length_le f l). destruct (f x) eqn:Hx; simpl.
  - split.
    + intros Hlen y [<- | Hy]; [done |]. apply IH; [lia | done].
    + intros Hall. f_equal. apply IH. intros y Hy. apply Hall. by right.
  - split; [lia |]. intros Hall. rewrite Hall in Hx; [discriminate | by left].
Qed.

Definition keep_other (norm : string -> string) (str_other : JVal -> string) (p : string)
    (item : JVal) : bool :=
  match item with
  | JObj d => negb (String.eqb (item_path norm str_other d) p)
  | _ => false
  end.

Lemma keep_other_false (norm : string -> string) (str_other : JVal -> string) (p : string)
    (v : JVal) :
  keep_other norm str_other p v = false
  <-> match v with JObj d => item_path norm str_other d = p | _ => True end.
Proof.
  unfold keep_other. destruct v as [| | | | | d]; try done.
  destruct (String.eqb_spec (item_path norm str_other d) p); simpl; split; done.
Qed.

Lemma filter_add_repo_entries (norm : string -> string) (str_other : JVal -> string)
    (repos : list JVal) (p t : string) :
  norm p = p ->
  List.filter (keep_other norm str_other p) (add_repo_entries norm str_other repos p t)
  = List.filter (keep_other norm str_other p) repos /\
  exists v, In v (add_repo_entries norm str_other repos p t) /\ keep_other norm str_other p v = false.
Proof.
  intros Hn. induction repos as [| v rest IH].
  - cbn [add_repo_entries]. split.
    + simpl. unfold item_path. cbn. by rewrite Hn, String.eqb_refl.
    + eexists. split; [by left |]. simpl. unfold item_path. cbn. by rewrite Hn, String.eqb_refl.
  - destruct IH as [IHf IHe].
    destruct v as [| | | | | d]; cbn [add_repo_entries];
      try (split; [exact IHf | destruct IHe as (w & Hw & Hk); exists w; split; [by right | done]]).
    destruct (String.eqb (item_path norm str_other d) p) eqn:Hd.
    + destruct (added_entry_gets d p t) as (Hp & He & Ht). split.
      * cbn [List.filter]. unfold keep_other. rewrite Hd.
        unfold item_path. rewrite Hp. cbn [get py_str]. by rewrite Hn, String.eqb_refl.
      * eexists. split; [by left |]. unfold keep_other, item_path. rewrite Hp. cbn [get py_str].
        by rewrite Hn, String.eqb_refl.
    + split.
      * cbn [List.filter]. unfold keep_other in IHf |- *. rewrite Hd. simpl. f_equal. exact IHf.
      * destruct IHe as (w & Hw & Hk). exists w. split; [by right | done].
Qed.

Lemma jstr_eqb_true (p : string) (v : JVal) : jstr_eqb p v = true <-> v = JStr p.
Proof.
  destruct v; simpl; split; try discriminate.
  - by intros ->%String.eqb_eq.
  - intros [= ->]. apply String.eqb_refl.
Qed.

Lemma existsb_jstr (p : string) (l : list JVal) :
  existsb (jstr_eqb p) l = true <-> In (JStr p) l.
Proof.
  rewrite existsb_exists. split.
  - intros (v & Hv & ->%jstr_eqb_true). done.
  - intros H. exists (JStr p). split; [done | by apply jstr_eqb_true].
Qed.

Lemma config_merge_include (str_other : JVal -> string) (items include : list JVal)
    (overrides : list (string * JVal)) :
  (exists extra, fst (config_merge str_other items include overrides) = (include ++ extra)%list) /\
  (forall q, In (JStr q) (fst (config_merge str_other items include overrides))
             <-> In (JStr q) include \/
                 exists d, In (JObj d) items /\ item_disabled d = false /\
                           field_str str_other d "path" = q /\ q <> "") /\
  (List.NoDup include -> List.NoDup (fst (config_merge str_other items include overrides))).
Proof.
  revert include overrides. induction items as [| v rest IH]; intros include overrides.
  - simpl. split; [exists []; by rewrite app_nil_r |]. split; [| done].
    intros q. split; [by left | intros [H | (d & [] & _)]; done].
  - destruct v as [| | | | | d]; cbn [config_merge];
      try (destruct (IH include overrides) as ([extra Hex] & Hin & Hnd);
           split; [by exists extra |]; split; [| done];
           intros q; rewrite Hin; split;
           [intros [H | (d & Hd & Hr)]; [by left | right; exists d; split; [by right | done]]
           | intros [H | (d & [Hd | Hd] & Hr)]; [by left | discriminate | right; by exists d]]).
    destruct (item_disabled d) eqn:Hdis.
    { destruct (IH include overrides) as ([extra Hex] & Hin & Hnd).
      split; [by exists extra |]. split; [| done].
      intros q. rewrite Hin. split.
      - intros [H | (d' & Hd' & Hr)]; [by left | right; exists d'; split; [by right | done]].
      - intros [H | (d' & [[= <-] | Hd'] & Hr)]; [by left | | right; by exists d'].
        destruct Hr as [Hr _]. congruence. }
    destruct (String.eqb_spec (field_str str_other d "path") "") as [Hp | Hp].
    { destruct (IH include overrides) as ([extra Hex] & Hin & Hnd).
      split; [by exists extra |]. split; [| done].
      intros q. rewrite Hin. split.
      - intros [H | (d' & Hd' & Hr)]; [by left | right; exists d'; split; [by right | done]].
      - intros [H | (d' & [[= <-] | Hd'] & Hr)]; [by left | | right; by exists d'].
        destruct Hr as (_ & Hr & Hq). congruence. }
    set (p := field_str str_other d "path") in *.
    set (inc1 := if existsb (jstr_eqb p) include then include else (include ++ [JStr p])%list).
    assert (Hinc1 : forall q, In (JStr q) inc1 <-> In (JStr q) include \/ q = p).
    { intros q. unfold inc1. destruct (existsb (jstr_eqb p) include) eqn:E.
      - apply existsb_jstr in E. split; [by left | intros [H | ->]; done].
      - rewrite in_app_iff. simpl. split.
        + intros [H | [[= ->] | []]]; [by left | by right].
        + intros [H | ->]; [by left | right; by left]. }
    assert (Hpre : exists e, inc1 = (include ++ e)%list).
    { unfold inc1. destruct (existsb (jstr_eqb p) include); [exists []; by rewrite app_nil_r |].
      by eexists. }
    destruct (IH inc1 (if String.eqb (field_str str_other d "track") "" then overrides
                       else dict_set overrides p (JStr (field_str str_other d "track"))))
      as ([extra Hex] & Hin & Hnd).
    split.
    { destruct Hpre as [e He]. exists (e ++ extra)%list. rewrite Hex, He. by rewrite app_assoc. }
    split.
    + intros q. rewrite Hin, Hinc1. split.
      * intros [[H | ->] | (d' & Hd' & Hr)]; [by left | right | right].
        -- exists d. split; [by left | done].
        -- exists d'. split; [by right | done].
      * intros [H | (d' & [[= <-] | Hd'] & Hr)]; [by left; left | left; right | right; by exists d'].
        destruct Hr as (_ & Hr & _). done.
    + intros Hnd0. apply Hnd. unfold inc1. destruct (existsb (jstr_eqb p) include) eqn:E; [done |].
      apply NoDup_ListNoDup, NoDup_app. split; [by apply NoDup_ListNoDup |].
      split; [| apply NoDup_singleton].
      intros x Hx ->%list_elem_of_singleton. apply list_elem_of_In in Hx.
      apply (proj2 (existsb_jstr p include)) in Hx. congruence.
Qed.

Definition override_from (str_other : JVal -> string) (q : string) (v : JVal) : bool :=
  match v with
  | JObj d => negb (item_disabled d) && String.eqb (field_str str_other d "path") q
              && negb (String.eqb q "") && negb (String.eqb (field_str str_other d "track") "")
  | _ => false
  end.

Lemma find_app_single {A} (f : A -> bool) (l : list A) (x : A) :
  find f (l ++ [x])%list = match find f l with Some y => Some y | None => if f x then Some x else None end.
Proof. induction l as [| y l IH]; simpl; [done |]. destruct (f y); [done | exact IH]. Qed.

Lemma config_merge_overrides (str_other : JVal -> string) (items include : list JVal)
    (overrides : list (string * JVal)) (q : string) :
  dict_get (snd (config_merge str_other items include overrides)) q
  = match find (override_from str_other q) (rev items) with
    | Some (JObj d) => Some (JStr (field_str str_other d "track"))
    | _ => dict_get overrides q
    end.
Proof.
  revert include overrides. induction items as [| v rest IH]; intros include overrides; [done |].
  cbn [rev]. rewrite find_app_single.
  destruct v as [| | | | | d]; cbn [config_merge];
    try (rewrite IH; destruct (find (override_from str_other q) (rev rest)) as [[] |]; reflexivity).
  destruct (item_disabled d) eqn:Hdis.
  { rewrite IH. destruct (find (override_from str_other q) (rev rest)) as [[] |]; try reflexivity.
    unfold override_from. by rewrite Hdis. }
  cbv zeta.
  destruct (String.eqb_spec (field_str str_other d "path") "") as [Hp | Hp].
  { rewrite IH. destruct (find (override_from str_other q) (rev rest)) as [[] |]; try reflexivity.
    unfold override_from. rewrite Hdis. cbn [negb andb].
    destruct (String.eqb_spec (field_str str_other d "path") q) as [Hq | Hq]; [| reflexivity].
    rewrite <- Hq, Hp. reflexivity. }
  rewrite IH. destruct (find (override_from str_other q) (rev rest)) as [y |] eqn:Ef.
  { destruct y; try reflexivity; apply find_some in Ef as [_ Ef]; discriminate. }
  unfold override_from. rewrite Hdis. cbn [negb andb].
  destruct (String.eqb_spec (field_str str_other d "track") "") as [Ht | Ht].
  { by rewrite andb_false_r. }
  rewrite dict_get_set. cbn [negb]. rewrite andb_true_r.
  destruct (String.eqb_spec (field_str str_other d "path") q) as [<- | Hq].
  - destruct (String.eqb_spec (field_str str_other d "path") ""); [done | reflexivity].
  - reflexivity.
Qed.

End ManifestProofs.

(** Extra X19 ([api_add_repo]): adding a repository is idempotent: when
    [os.path.abspath(os.path.expanduser(...))] leaves the resolved path as
    it is, calling [api_add_repo] again with the same payload on the
    manifest it wrote gives the same path and track and writes the same manifest
    (no second entry for the path). *)
Theorem api_add_repo_idempotent (norm : string -> string) (str_other : JVal -> string)
    (git_dir : string -> bool) (raw_path raw_track : string) (repos repos' : list JVal)
    (p t : string) :
  api_add_repo norm str_other git_dir raw_path raw_track repos = AddRepoOk p t repos' ->
  norm p = p ->
  api_add_repo norm str_other git_dir raw_path raw_track repos' = AddRepoOk p t repos'.
Proof.
  unfold api_add_repo. cbv zeta. intros H Hn.
  destruct (String.eqb (PyStr.strip raw_path) "") eqn:E1; [discriminate |].
  destruct (negb (git_dir (norm (PyStr.strip raw_path)))) eqn:E2; [discriminate |].
  injection H as <- <- <-. by rewrite ManifestProofs.add_repo_entries_idem.
Qed.

(** Extra X20 ([api_remove_repo], [api_add_repo]): removing a repository
    right after adding it (same raw path, and a resolved path that
    [os.path.abspath(os.path.expanduser(...))] leaves as it is) reports
    ["removed": true] and leaves exactly the object entries of the
    original manifest whose path resolves elsewhere, in their order. *)
Theorem api_remove_after_add (norm : string -> string) (str_other : JVal -> string)
    (git_dir : string -> bool) (raw_path raw_track : string) (repos repos' : list JVal)
    (p t : string) :
  api_add_repo norm str_other git_dir raw_path raw_track repos = AddRepoOk p t repos' ->
  norm p = p ->
  api_remove_repo norm str_other raw_path repos'
  = RemoveRepoOk p true
      (List.filter (fun item => match item with
                                | JObj d => negb (String.eqb (item_path norm str_other d) p)
                                | _ => false
                                end) repos).
Proof.
  unfold api_add_repo. cbv zeta. intros H Hn.
  destruct (String.eqb (PyStr.strip raw_path) "") eqn:E1; [discriminate |].
  destruct (negb (git_dir (norm (PyStr.strip raw_path)))) eqn:E2; [discriminate |].
  injection H as <- Ht <-. rewrite Ht.
  destruct (ManifestProofs.filter_add_repo_entries norm str_other repos
              (norm (PyStr.strip raw_path)) t Hn) as [Hf (w & Hw & Hk)].
  unfold ManifestProofs.keep_other in Hf, Hk.
  unfold api_remove_repo. rewrite E1. cbv zeta. rewrite Hf.
  assert (Hlt : Nat.eqb (length (List.filter (fun item => match item with
                   | JObj d => negb (String.eqb (item_path norm str_other d) (norm (PyStr.strip raw_path)))
                   | _ => false end)
                   (add_repo_entries norm str_other repos (norm (PyStr.strip raw_path)) t)))
                (length (add_repo_entries norm str_other repos (norm (PyStr.strip raw_path)) t))
                = false).
  { apply Nat.eqb_neq. intros Heq. pose proof (proj1 (ManifestProofs.filter_length_eq_iff _ _) Heq) as Hall.
    rewrite (Hall w Hw) in Hk. discriminate. }
  rewrite Hf in Hlt. rewrite Hlt. reflexivity.
Qed.

Lemma api_add_repo_idempotent_witness :
  api_add_repo (fun s => s) (fun _ => "") (fun _ => true) " /r/a " "finance"
    [JObj [("path", JStr "/r/b")]; JNum "3"; JObj [("path", JStr "/r/a"); ("enabled", JBool false)]]
  = AddRepoOk "/r/a" "finance"
      [JObj [("path", JStr "/r/b")]; JNum "3";
       JObj [("path", JStr "/r/a"); ("enabled", JBool true); ("track", JStr "finance")]] /\
  (fun s : string => s) "/r/a" = "/r/a" /\
  api_add_repo (fun s => s) (fun _ => "") (fun _ => true) " /r/a " "finance"
    [JObj [("path", JStr "/r/b")]; JNum "3";
     JObj [("path", JStr "/r/a"); ("enabled", JBool true); ("track", JStr "finance")]]
  = AddRepoOk "/r/a" "finance"
      [JObj [("path", JStr "/r/b")]; JNum "3";
       JObj [("path", JStr "/r/a"); ("enabled", JBool true); ("track", JStr "finance")]].
Proof.
  assert (H : api_add_repo (fun s => s) (fun _ => "") (fun _ => true) " /r/a " "finance"
    [JObj [("path", JStr "/r/b")]; JNum "3"; JObj [("path", JStr "/r/a"); ("enabled", JBool false)]]
  = AddRepoOk "/r/a" "finance"
      [JObj [("path", JStr "/r/b")]; JNum "3";
       JObj [("path", JStr "/r/a"); ("enabled", JBool true); ("track", JStr "finance")]])
    by (vm_compute; reflexivity).
  split; [exact H |]. split; [reflexivity |].
  exact (api_add_repo_idempotent _ _ _ _ _ _ _ _ _ H eq_refl).
Defined.

Lemma api_remove_after_add_witness :
  api_add_repo (fun s => s) (fun _ => "") (fun _ => true) "/r/a" "ops"
    [JObj [("path", JStr "/r/b")]; JNum "3"]
  = AddRepoOk "/r/a" "" [JObj [("path", JStr "/r/b")]; JNum "3";
                         JObj [("path", JStr "/r/a"); ("enabled", JBool true)]] /\
  (fun s : string => s) "/r/a" = "/r/a" /\
  api_remove_repo (fun s => s) (fun _ => "") "/r/a"
    [JObj [("path", JStr "/r/b")]; JNum "3"; JObj [("path", JStr "/r/a"); ("enabled", JBool true)]]
  = RemoveRepoOk "/r/a" true
      (List.filter (fun item => match item with
                                | JObj d => negb (String.eqb (item_path (fun s => s) (fun _ => "") d) "/r/a")
                                | _ => false
                                end) [JObj [("path", JStr "/r/b")]; JNum "3"]).
Proof.
  assert (H : api_add_repo (fun s => s) (fun _ => "") (fun _ => true) "/r/a" "ops"
    [JObj [("path", JStr "/r/b")]; JNum "3"]
  = AddRepoOk "/r/a" "" [JObj [("path", JStr "/r/b")]; JNum "3";
                         JObj [("path", JStr "/r/a"); ("enabled", JBool true)]])
    by (vm_compute; reflexivity).
  split; [exact H |]. split; [reflexivity |].
  exact (api_remove_after_add _ _ _ _ _ _ _ _ _ H eq_refl).
Defined.

(** Extra X21 ([api_remove_repo]): the ["removed"] flag is true exactly
    when the manifest has an entry that is not a JSON object or whose path
    resolves to the given path, so a non-object entry makes it true even
    when no entry has the path; afterwards no entry of either kind is
    left. *)
Theorem api_remove_repo_removed (norm : string -> string) (str_other : JVal -> string)
    (raw_path : string) (repos repos' : list JVal) (p : string) (removed : bool) :
  api_remove_repo norm str_other raw_path repos = RemoveRepoOk p removed repos' ->
  (removed = true <->
   exists v, In v repos /\ match v with JObj d => item_path norm str_other d = p | _ => True end) /\
  ~ (exists v, In v repos' /\
               match v with JObj d => item_path norm str_other d = p | _ => True end).
Proof.
  unfold api_remove_repo. cbv zeta. intros H.
  destruct (String.eqb (PyStr.strip raw_path) "") eqn:E1; [discriminate |].
  injection H as <- <- <-.
  fold (ManifestProofs.keep_other norm str_other (norm (PyStr.strip raw_path))).
  set (keep := ManifestProofs.keep_other norm str_other (norm (PyStr.strip raw_path))).
  destruct (Nat.eqb_spec (length (List.filter keep repos)) (length repos)) as [Heq | Hne];
    cbn [negb].
  - pose proof (proj1 (ManifestProofs.filter_length_eq_iff _ _) Heq) as Hall.
    assert (Hnone : ~ exists v, In v repos /\
              match v with JObj d => item_path norm str_other d = norm (PyStr.strip raw_path)
                         | _ => True end).
    { intros (v & Hv & Hm). apply ManifestProofs.keep_other_false in Hm.
      unfold keep in Hall. rewrite (Hall v Hv) in Hm. discriminate. }
    split; [| exact Hnone]. split; [discriminate | intros Hx; by destruct Hnone].
  - split.
    + split; [intros _ | done].
      destruct (existsb (fun x => negb (keep x)) repos) eqn:Ex.
      * apply existsb_exists in Ex as (v & Hv & Hk). exists v. split; [done |].
        apply ManifestProofs.keep_other_false. by apply negb_true_iff in Hk.
      * exfalso. apply Hne, ManifestProofs.filter_length_eq_iff. intros x Hx.
        revert Hx. revert Ex. clear. induction repos as [| y l IH]; simpl; [done |].
        intros [Hy Hl]%orb_false_iff [<- | Hx]; [by apply negb_false_iff | by apply IH].
    + intros (v & Hv & Hm). apply ManifestProofs.keep_other_false in Hm.
      apply filter_In in Hv as [_ Hv]. unfold keep in Hv. congruence.
Qed.

Lemma api_remove_repo_removed_witness :
  api_remove_repo (fun s => s) (fun _ => "") " /y " [JNum "1"; JObj [("path", JStr "/x")]]
  = RemoveRepoOk "/y" true [JObj [("path", JStr "/x")]] /\
  ((true = true <->
    exists v, In v [JNum "1"; JObj [("path", JStr "/x")]] /\
              match v with JObj d => item_path (fun s => s) (fun _ => "") d = "/y" | _ => True end) /\
   ~ (exists v, In v [JObj [("path", JStr "/x")]] /\
                match v with JObj d => item_path (fun s => s) (fun _ => "") d = "/y" | _ => True end)).
Proof.
  assert (H : api_remove_repo (fun s => s) (fun _ => "") " /y " [JNum "1"; JObj [("path", JStr "/x")]]
              = RemoveRepoOk "/y" true [JObj [("path", JStr "/x")]]) by (vm_compute; reflexivity).
  split; [exact H |]. exact (api_remove_repo_removed _ _ _ _ _ _ _ H).
Defined.

(** Extra X22 ([api_config]): the ["include_repos"] list it answers starts
    with the configured list; it has a path exactly when the path is
    configured or is the stripped, non-empty path of a manifest object
    whose ["enabled"] is not [false]; and it has no repetition when the
    configured list has none. *)
Theorem api_config_include (str_other : JVal -> string) (items include : list JVal)
    (overrides : list (string * JVal)) :
  (exists extra, fst (config_merge str_other items include overrides) = (include ++ extra)%list) /\
  (forall q, In (JStr q) (fst (config_merge str_other items include overrides))
             <-> In (JStr q) include \/
                 exists d, In (JObj d) items /\ item_disabled d = false /\
                           field_str str_other d "path" = q /\ q <> "") /\
  (List.NoDup include -> List.NoDup (fst (config_merge str_other items include overrides))).
Proof. apply ManifestProofs.config_merge_include. Qed.

Lemma api_config_include_witness :
  List.NoDup [JStr "/a"] /\
  List.NoDup (fst (config_merge (fun _ => "") [JObj [("path", JStr " /b ")]; JObj [("path", JStr "/a")]]
                     [JStr "/a"] [])).
Proof.
  assert (Hnd : List.NoDup [JStr "/a"]) by (constructor; [intros [] | constructor]).
  split; [exact Hnd |].
  exact (proj2 (proj2 (api_config_include (fun _ => "")
           [JObj [("path", JStr " /b ")]; JObj [("path", JStr "/a")]] [JStr "/a"] [])) Hnd).
Defined.

(** Extra X23 ([api_config]): the track override it answers for a path is
    the stripped ["track"] of the last manifest object that is not
    disabled, has that stripped, non-empty path and a non-empty stripped
    track; without such an object it is the configured override. *)
Theorem api_config_overrides (str_other : JVal -> string) (items include : list JVal)
    (overrides : list (string * JVal)) (q : string) :
  dict_get (snd (config_merge str_other items include overrides)) q
  = match find (fun v => match v with
                         | JObj d => negb (item_disabled d)
                                     && String.eqb (field_str str_other d "path") q
                                     && negb (String.eqb q "")
                                     && negb (String.eqb (field_str str_other d "track") "")
                         | _ => false
                         end) (rev items) with
    | Some (JObj d) => Some (JStr (field_str str_other d "track"))
    | _ => dict_get overrides q
    end.
Proof. apply ManifestProofs.config_merge_overrides. Qed.
Module AlertProofs.

#[local] Arguments String.append : simpl nomatch.

Definition alert_hits (lines : list string) : list CommitAlert :=
  List.filter (fun a => AlertRe.search (alert_subject a)) (omap parse_alert_line lines).

Lemma commit_alerts_go_cap (max_count : Z) (lines : list string) (acc : list CommitAlert) :
  Z.of_nat (length acc) < max_count ->
  commit_alerts_go max_count lines acc
  = (acc ++ firstn (Z.to_nat max_count - length acc) (alert_hits lines))%list.
Proof.
  unfold alert_hits. revert acc. induction lines as [| line rest IH]; intros acc H; simpl.
  - by rewrite firstn_nil, app_nil_r.
  - destruct (parse_alert_line line) as [a |] eqn:E; simpl; [| by apply IH].
    destruct (AlertRe.search (alert_subject a)) eqn:Es; simpl.
    + rewrite length_app. simpl. rewrite Z.geb_leb.
      destruct (Z.leb_spec max_count (Z.of_nat (length acc + 1))) as [Hc | Hc].
      * replace (Z.to_nat max_count - length acc)%nat with 1%nat by lia. done.
      * rewrite IH by (rewrite length_app; simpl; lia). rewrite <- app_assoc.
        replace (Z.to_nat max_count - length acc)%nat
          with (S (Z.to_nat max_count - length (acc ++ [a])))%nat
          by (rewrite length_app; simpl; lia).
        done.
    + rewrite Z.geb_leb. destruct (Z.leb_spec max_count (Z.of_nat (length acc))); [lia |].
      by apply IH.
Qed.

Lemma commit_alerts_go_nonpos (max_count : Z) (lines : list string) :
  max_count <= 0 ->
  commit_alerts_go max_count lines []
  = match omap parse_alert_line lines with
    | [] => []
    | a :: _ => if AlertRe.search (alert_subject a) then [a] else []
    end.
Proof.
  intros H. induction lines as [| line rest IH]; simpl; [done |].
  destruct (parse_alert_line line) as [a |] eqn:E; simpl; [| done].
  destruct (AlertRe.search (alert_subject a)); simpl; rewrite Z.geb_leb.
  - rewrite (proj2 (Z.leb_le _ _)) by lia. done.
  - rewrite (proj2 (Z.leb_le _ _)) by lia. done.
Qed.




End AlertProofs.

Module IssueProofs.

#[local] Arguments String.append : simpl nomatch.

Section S.
Variable relpath : string -> string -> string.


End S.





End IssueProofs.

(** [collect_commit_alerts] with [max_count >= 1]: the alerts are the first
    [max_count] well-formed [date|hash|subject] lines (in output order)
    whose subject [COMMIT_ALERT_REGEX] finds; lines without two [|] are
    skipped and empty output gives no alert. *)
Theorem collect_commit_alerts_first (out : string) (max_count : Z) :
  1 <= max_count ->
  collect_commit_alerts out max_count
  = firstn (Z.to_nat max_count)
      (List.filter (fun a => AlertRe.search (alert_subject a))
         (omap parse_alert_line (PyLines.splitlines out))).
Proof.
  intros H. unfold collect_commit_alerts.
  destruct (String.eqb_spec out "") as [-> | Hne]; [simpl; by rewrite firstn_nil |].
  rewrite AlertProofs.commit_alerts_go_cap by (simpl; lia). simpl.
  by rewrite Nat.sub_0_r.
Qed.

(** [collect_commit_alerts] with [max_count <= 0]: the cap is checked after
    the first well-formed line, so only that line's subject is looked at
    and at most one alert is returned. *)
Theorem collect_commit_alerts_nonpositive (out : string) (max_count : Z) :
  max_count <= 0 ->
  collect_commit_alerts out max_count
  = match omap parse_alert_line (PyLines.splitlines out) with
    | [] => []
    | a :: _ => if AlertRe.search (alert_subject a) then [a] else []
    end.
Proof.
  intros H. unfold collect_commit_alerts.
  destruct (String.eqb_spec out "") as [-> | Hne]; [reflexivity |].
  by apply AlertProofs.commit_alerts_go_nonpos.
Qed.




Lemma collect_commit_alerts_first_witness :
  1 <= 1 /\
  collect_commit_alerts
    ("2026-01-02|abc1234|Fix login" ++ String "010"
       ("no separator" ++ String "010" "2026-01-01|def5678|prefix bugs")) 1
  = firstn (Z.to_nat 1)
      (List.filter (fun a => AlertRe.search (alert_subject a))
         (omap parse_alert_line
            (PyLines.splitlines
               ("2026-01-02|abc1234|Fix login" ++ String "010"
                  ("no separator" ++ String "010" "2026-01-01|def5678|prefix bugs"))))).
Proof. split; [lia | apply collect_commit_alerts_first; lia]. Defined.

Lemma collect_commit_alerts_nonpositive_witness :
  0 <= 0 /\
  collect_commit_alerts ("2026-01-02|abc1234|refactor" ++ String "010" "2026-01-01|def5678|fix") 0
  = match omap parse_alert_line
            (PyLines.splitlines
               ("2026-01-02|abc1234|refactor" ++ String "010" "2026-01-01|def5678|fix")) with
    | [] => []
    | a :: _ => if AlertRe.search (alert_subject a) then [a] else []
    end.
Proof. split; [lia | apply collect_commit_alerts_nonpositive; lia]. Defined.

